(** * CrimeGuardPro: authorization and serialization pipeline

    A shallow embedding of the request handlers of the crime-management
    application (Flask over a MongoDB document store) and of the helpers
    they share:

    - [to_str_id]              models/__init__.py
    - [serialize_doc]          routes/admin_routes.py
    - the [verify_token] family, [require_admin], [admin_required]
    - registration, login and the two user-creation paths
    - case reads, officer FIR handlers and the evidence upload loop.

    Documents are Python dicts: they are modelled as association lists in
    insertion order.  A view is a function from the store, the clock and
    the request to a response and, when it writes, the new store.  PyJWT,
    werkzeug, the ObjectId generator and GridFS are parameters. *)

From Stdlib Require Import String Ascii List ZArith Bool Lia Arith.
From Stdlib Require Import DecimalString Decimal.
Import ListNotations.
Open Scope string_scope.

Set Warnings "-register-all".

(* ================================================================== *)
(** ** Python values *)
(* ================================================================== *)

(** [datetime.datetime] as the naive UTC value produced by [utcnow()]. *)
Record datetime : Type := mkDatetime {
  year : nat; month : nat; day : nat;
  hour : nat; minute : nat; second : nat; microsecond : nat
}.

(** The values a stored document or a JSON body can hold.  An [ObjectId] is
    kept as its 24-digit lower-case hexadecimal form, which is what [str]
    returns for it. *)
Inductive value : Type :=
| VNone
| VBool (b : bool)
| VInt (z : Z)
| VStr (s : string)
| VObjectId (hex : string)
| VDatetime (t : datetime)
| VList (l : list value)
| VDict (d : list (string * value)).

Definition dict : Type := list (string * value).

(** Structural induction that reaches the elements of sequences and the
    field values of mappings. *)
Section ValueInduction.
Variable P : value -> Prop.
Hypothesis HNone : P VNone.
Hypothesis HBool : forall b, P (VBool b).
Hypothesis HInt : forall z, P (VInt z).
Hypothesis HStr : forall s, P (VStr s).
Hypothesis HOid : forall o, P (VObjectId o).
Hypothesis HDate : forall t, P (VDatetime t).
Hypothesis HList : forall l, Forall P l -> P (VList l).
Hypothesis HDict : forall d, Forall (fun kv => P (snd kv)) d -> P (VDict d).

Fixpoint value_nested_ind (v : value) : P v :=
  match v with
  | VNone => HNone
  | VBool b => HBool b
  | VInt z => HInt z
  | VStr s => HStr s
  | VObjectId o => HOid o
  | VDatetime t => HDate t
  | VList l =>
      HList l ((fix items (xs : list value) : Forall P xs :=
                  match xs with
                  | [] => Forall_nil P
                  | x :: r => Forall_cons x (value_nested_ind x) (items r)
                  end) l)
  | VDict d =>
      HDict d ((fix fields (xs : dict) : Forall (fun kv => P (snd kv)) xs :=
                  match xs with
                  | [] => Forall_nil _
                  | kv :: r =>
                      Forall_cons kv (value_nested_ind (snd kv)) (fields r)
                  end) d)
  end.
End ValueInduction.

(** Python truthiness, as tested by [if x] and [not x]. *)
Definition truthy (v : value) : bool :=
  match v with
  | VNone => false
  | VBool b => b
  | VInt z => negb (z =? 0)%Z
  | VStr s => negb (s =? "")
  | VObjectId _ => true
  | VDatetime _ => true
  | VList l => match l with [] => false | _ => true end
  | VDict d => match d with [] => false | _ => true end
  end.

(** [x.get(k)] yields [None] for a missing key; an absent optional value
    is falsy. *)
Definition truthy_opt (o : option value) : bool :=
  match o with Some v => truthy v | None => false end.

Definition opt_value (o : option value) : value :=
  match o with Some v => v | None => VNone end.

(** Python [==] on the values the handlers compare, which are strings and
    ids.  Sequences compare element by element; mappings are compared entry
    by entry in insertion order. *)
Fixpoint value_eqb (a b : value) : bool :=
  match a, b with
  | VNone, VNone => true
  | VBool x, VBool y => Bool.eqb x y
  | VInt x, VInt y => (x =? y)%Z
  | VStr x, VStr y => (x =? y)
  | VObjectId x, VObjectId y => (x =? y)
  | VDatetime x, VDatetime y =>
      (year x =? year y)%nat && (month x =? month y)%nat &&
      (day x =? day y)%nat && (hour x =? hour y)%nat &&
      (minute x =? minute y)%nat && (second x =? second y)%nat &&
      (microsecond x =? microsecond y)%nat
  | VList l1, VList l2 =>
      (fix go (xs ys : list value) : bool :=
         match xs, ys with
         | [], [] => true
         | x :: xs', y :: ys' => value_eqb x y && go xs' ys'
         | _, _ => false
         end) l1 l2
  | VDict d1, VDict d2 =>
      (fix go (xs ys : dict) : bool :=
         match xs, ys with
         | [], [] => true
         | (k1, x) :: xs', (k2, y) :: ys' =>
             (k1 =? k2) && value_eqb x y && go xs' ys'
         | _, _ => false
         end) d1 d2
  | _, _ => false
  end.

(* ------------------------------------------------------------------ *)
(** *** dict operations *)

Fixpoint dict_get (k : string) (d : dict) : option value :=
  match d with
  | [] => None
  | (k', v) :: r => if k' =? k then Some v else dict_get k r
  end.

(** [k in d] *)
Definition dict_contains (k : string) (d : dict) : bool :=
  existsb (fun kv => fst kv =? k) d.

(** [d.pop(k, None)] as far as the remaining mapping goes. *)
Definition dict_pop (k : string) (d : dict) : dict :=
  filter (fun kv => negb (fst kv =? k)) d.

(** [d[k] = v]: an existing key keeps its position, a new key goes last. *)
Fixpoint dict_set (k : string) (v : value) (d : dict) : dict :=
  match d with
  | [] => [(k, v)]
  | (k', v') :: r =>
      if k' =? k then (k, v) :: r else (k', v') :: dict_set k v r
  end.

(** [d.get(k, default)] *)
Definition dict_get_default (k : string) (default : value) (d : dict) : value :=
  match dict_get k d with Some v => v | None => default end.

(** [d.update(u)] and the [$set] of an update: every entry of [u] is
    assigned in turn. *)
Definition dict_update (u d : dict) : dict :=
  fold_left (fun acc kv => dict_set (fst kv) (snd kv) acc) u d.

Definition dict_keys (d : dict) : list string := map fst d.

(* ------------------------------------------------------------------ *)
(** *** Strings *)

Definition is_upper (c : ascii) : bool :=
  let n := nat_of_ascii c in (65 <=? n)%nat && (n <=? 90)%nat.

Definition lower_ascii (c : ascii) : ascii :=
  if is_upper c then ascii_of_nat (nat_of_ascii c + 32) else c.

(** [s.lower()] on ASCII text. *)
Fixpoint lower (s : string) : string :=
  match s with
  | EmptyString => EmptyString
  | String c r => String (lower_ascii c) (lower r)
  end.

Fixpoint has_upper (s : string) : bool :=
  match s with
  | EmptyString => false
  | String c r => is_upper c || has_upper r
  end.

Definition is_hex (c : ascii) : bool :=
  let n := nat_of_ascii c in
  ((48 <=? n) && (n <=? 57) || (65 <=? n) && (n <=? 70) ||
   (97 <=? n) && (n <=? 102))%nat.

Fixpoint all_chars (p : ascii -> bool) (s : string) : bool :=
  match s with
  | EmptyString => true
  | String c r => p c && all_chars p r
  end.

(** [bson.ObjectId(s)] for a string argument: 24 hexadecimal digits or
    [InvalidId].  The result is the id, printed by [str] in lower case. *)
Definition ObjectId (s : string) : option string :=
  if (String.length s =? 24)%nat && all_chars is_hex s
  then Some (lower s) else None.

(** The message of [bson.errors.InvalidId]. *)
Definition InvalidId_message (s : string) : string :=
  "'" ++ s ++
  "' is not a valid ObjectId, it must be a 12-byte input or a 24-character hex string".

Definition string_of_nat (n : nat) : string :=
  NilZero.string_of_uint (Nat.to_uint n).

Fixpoint zeros (n : nat) : string :=
  match n with O => "" | S m => String "0" (zeros m) end.

(** [%0wd] *)
Definition pad (w n : nat) : string :=
  let s := string_of_nat n in zeros (w - String.length s) ++ s.

(** [strftime("%Y-%m-%d %H:%M:%S")] *)
Definition strftime_display (t : datetime) : string :=
  pad 4 (year t) ++ "-" ++ pad 2 (month t) ++ "-" ++ pad 2 (day t) ++ " " ++
  pad 2 (hour t) ++ ":" ++ pad 2 (minute t) ++ ":" ++ pad 2 (second t).

(** [datetime.isoformat()] of a naive datetime. *)
Definition isoformat (t : datetime) : string :=
  pad 4 (year t) ++ "-" ++ pad 2 (month t) ++ "-" ++ pad 2 (day t) ++ "T" ++
  pad 2 (hour t) ++ ":" ++ pad 2 (minute t) ++ ":" ++ pad 2 (second t) ++
  (if (microsecond t =? 0)%nat then "" else "." ++ pad 6 (microsecond t)).

(* ================================================================== *)
(** ** The two document sanitizers *)
(* ================================================================== *)

Module Sanitizer.

(** *** models/__init__.py: [to_str_id] *)

(** The comprehension applied to the elements of a list-valued field. *)
Definition to_str_id_item (rec : value -> value) (i : value) : value :=
  match i with
  | VDict _ => rec i
  | VObjectId o => VStr o
  | _ => i
  end.

(** The body of the loop [for k, v in doc.items()]: what is stored back
    under [k]. *)
Definition to_str_id_field (rec : value -> value) (v : value) : value :=
  match v with
  | VObjectId o => VStr o
  | VList l => VList (map (to_str_id_item rec) l)
  | VDict _ => rec v
  | _ => v
  end.

(** [to_str_id(doc)] for [doc] a mapping or [None], the only arguments it
    is given: a falsy document gives [None], any other mapping is copied
    and its fields are converted in place. *)
Fixpoint to_str_id (doc : value) : value :=
  match doc with
  | VDict ((_ :: _) as d) =>
      VDict (map (fun kv => (fst kv, to_str_id_field to_str_id (snd kv))) d)
  | _ => VNone
  end.

(** *** routes/admin_routes.py: [serialize_doc] *)

Definition serialize_doc_item (rec : value -> value) (i : value) : value :=
  match i with
  | VDict _ => rec i
  | VObjectId o => VStr o
  | VDatetime t => VStr (isoformat t)
  | _ => i
  end.

Definition serialize_doc_field (rec : value -> value) (v : value) : value :=
  match v with
  | VObjectId o => VStr o
  | VDatetime t => VStr (isoformat t)
  | VList l => VList (map (serialize_doc_item rec) l)
  | VDict _ => rec v
  | _ => v
  end.

(** [serialize_doc(doc)].  The source pops ["password_hash"] from the copy
    and then converts the remaining fields; the conversion keeps every key,
    so here the fields are converted first and the entry is dropped from the
    result, which lets the recursion go through the fields of [doc] itself.
    [serialize_doc_eq] below restates the function in the order of the
    source. *)
Fixpoint serialize_doc (doc : value) : value :=
  match doc with
  | VDict ((_ :: _) as d) =>
      VDict (dict_pop "password_hash"
               (map (fun kv => (fst kv, serialize_doc_field serialize_doc (snd kv))) d))
  | _ => VNone
  end.

(** A field named ["password_hash"] somewhere in a value, at any depth. *)
Fixpoint has_secret (v : value) : bool :=
  match v with
  | VList l => existsb has_secret l
  | VDict d =>
      existsb (fun kv => (fst kv =? "password_hash") || has_secret (snd kv)) d
  | _ => false
  end.

Definition is_list (v : value) : bool :=
  match v with VList _ => true | _ => false end.

(** No sequence is an immediate element of another sequence. *)
Fixpoint flat_lists (v : value) : bool :=
  match v with
  | VList l => forallb (fun i => negb (is_list i) && flat_lists i) l
  | VDict d => forallb (fun kv => flat_lists (snd kv)) d
  | _ => true
  end.

(** A non-empty mapping all of whose fields are named ["password_hash"]. *)
Definition secret_only (d : dict) : bool :=
  match d with
  | [] => false
  | _ => match dict_pop "password_hash" d with [] => true | _ => false end
  end.

(** No mapping of the value, at any depth, is [secret_only]. *)
Fixpoint no_secret_only (v : value) : bool :=
  match v with
  | VList l => forallb no_secret_only l
  | VDict d => negb (secret_only d) && forallb (fun kv => no_secret_only (snd kv)) d
  | _ => true
  end.

End Sanitizer.

(* ================================================================== *)
(** ** Requests, responses and the document store *)
(* ================================================================== *)

(** What a view function hands back to Flask: [jsonify(body), status], or
    an exception that no handler of the view catches. *)
Inductive response : Type :=
| Response (body : value) (status : nat)
| Unhandled (exn : string).

Definition status_of (r : response) : option nat :=
  match r with Response _ s => Some s | Unhandled _ => None end.

Definition error_body (msg : string) : value := VDict [("error", VStr msg)].

(** [s.startswith(p)] *)
Definition startswith (p s : string) : bool := String.prefix p s.

(** [s.split(sep)] for a one-character separator. *)
Fixpoint split_char (sep : ascii) (s : string) : list string :=
  match s with
  | EmptyString => [EmptyString]
  | String c r =>
      if Ascii.eqb c sep then EmptyString :: split_char sep r
      else match split_char sep r with
           | [] => [String c EmptyString]
           | w :: ws => String c w :: ws
           end
  end.

Definition is_space (c : ascii) : bool :=
  let n := nat_of_ascii c in ((n =? 32) || (9 <=? n) && (n <=? 13))%nat.

Fixpoint lstrip (s : string) : string :=
  match s with
  | EmptyString => EmptyString
  | String c r => if is_space c then lstrip r else s
  end.

Fixpoint rstrip (s : string) : string :=
  match s with
  | EmptyString => EmptyString
  | String c r =>
      match rstrip r with
      | EmptyString => if is_space c then EmptyString else String c EmptyString
      | r' => String c r'
      end
  end.

(** [s.strip()] *)
Definition strip (s : string) : string := rstrip (lstrip s).

Definition upper_ascii (c : ascii) : ascii :=
  let n := nat_of_ascii c in
  if ((97 <=? n) && (n <=? 122))%nat then ascii_of_nat (n - 32) else c.

(** [s.capitalize()] on ASCII text. *)
Definition capitalize (s : string) : string :=
  match s with
  | EmptyString => EmptyString
  | String c r => String (upper_ascii c) (lower r)
  end.

(** A Python list of strings as a value. *)
Definition str_list (l : list string) : value := VList (map VStr l).

(** The collections of the database and the counter from which the driver
    draws the next [_id]. *)
Record store : Type := mkStore {
  users : list dict;
  cases : list dict;
  officer_firs : list dict;
  notifications : list dict;
  evidence : list dict;
  next_id : nat
}.

Definition set_users (st : store) (c : list dict) (n : nat) : store :=
  mkStore c (cases st) (officer_firs st) (notifications st) (evidence st) n.
Definition set_cases (st : store) (c : list dict) (n : nat) : store :=
  mkStore (users st) c (officer_firs st) (notifications st) (evidence st) n.
Definition set_officer_firs (st : store) (c : list dict) (n : nat) : store :=
  mkStore (users st) (cases st) c (notifications st) (evidence st) n.
Definition set_evidence (st : store) (c : list dict) (n : nat) : store :=
  mkStore (users st) (cases st) (officer_firs st) (notifications st) c n.

(** *** Collection operations (pymongo) *)

(** A document matches an equality filter when every field of the filter
    is present with an equal value (the filters of the handlers are on ids
    and strings). *)
Definition matches (query : dict) (doc : dict) : bool :=
  forallb (fun kv => match dict_get (fst kv) doc with
                     | Some x => value_eqb x (snd kv)
                     | None => false
                     end) query.

Definition find_one (col : list dict) (query : dict) : option dict :=
  List.find (matches query) col.

Definition find (col : list dict) (query : dict) : list dict :=
  filter (matches query) col.

(** [update_one(query, {"$set": u})]: the first match is updated. *)
Fixpoint update_one (col : list dict) (query u : dict) : list dict :=
  match col with
  | [] => []
  | d :: r => if matches query d then dict_update u d :: r
              else d :: update_one r query u
  end.

(** [delete_one(query)]: the first match is removed. *)
Fixpoint delete_one (col : list dict) (query : dict) : list dict :=
  match col with
  | [] => []
  | d :: r => if matches query d then r else d :: delete_one r query
  end.

(** [deleted_count] of that call. *)
Definition deleted_count (col : list dict) (query : dict) : nat :=
  match find_one col query with Some _ => 1 | None => 0 end.

(** The wall clock of one request: [datetime.utcnow()] and the epoch
    seconds PyJWT compares [exp] with.  Reads within one request are
    taken at the same instant. *)
Record clock : Type := mkClock { utcnow : datetime; timestamp : Z }.

(** An uploaded file ([werkzeug.FileStorage]); [size] is [len(file.read())]
    and [content] names the bytes handed to the blob store. *)
Record file_storage (bytes : Type) : Type := mkFile {
  filename : string;
  content_type : string;
  content : bytes
}.
Arguments mkFile {bytes}.
Arguments filename {bytes}.
Arguments content_type {bytes}.
Arguments content {bytes}.

(** The parts of [flask.request] the handlers read.  A missing header or
    form field is the empty string, as [.get(name, "")] returns. *)
Record request (bytes : Type) : Type := mkRequest {
  authorization : string;
  json : value;
  form : list (string * string);
  files : list (file_storage bytes)
}.
Arguments mkRequest {bytes}.
Arguments authorization {bytes}.
Arguments json {bytes}.
Arguments form {bytes}.
Arguments files {bytes}.

(** [request.form.get(k, "")] *)
Definition form_get {bytes} (req : request bytes) (k : string) : string :=
  match List.find (fun kv => fst kv =? k) (form req) with
  | Some kv => snd kv
  | None => ""
  end.

(** [request.get_json() or {}], the body being a JSON object or absent. *)
Definition json_or_empty {bytes} (req : request bytes) : dict :=
  match json req with VDict d => d | _ => [] end.

(** The exception classes of PyJWT seen by the handlers.  All three derive
    from [InvalidTokenError]. *)
Inductive jwt_error : Type :=
| DecodeError
| InvalidSignatureError
| ExpiredSignatureError.

(* ================================================================== *)
(** ** Exceptions *)
(* ================================================================== *)

(** A computation that may raise: [inl] carries [str(e)] of the exception
    (or its class name when it has no message of interest). *)
Definition result (A : Type) : Type := (string + A)%type.

Definition ret {A} (a : A) : result A := inr a.
Definition raise {A} (e : string) : result A := inl e.

Definition bind {A B} (m : result A) (k : A -> result B) : result B :=
  match m with inl e => inl e | inr a => k a end.

Notation "x <- m ;; k" := (bind m (fun x => k))
  (at level 61, m at next level, right associativity).

(** A view without [try]: an exception reaches Flask. *)
Definition view {S} (st : S) (r : result (response * S)) : response * S :=
  match r with inr out => out | inl e => (Unhandled e, st) end.

(** [d[k]] *)
Definition subscript (d : dict) (k : string) : result value :=
  match dict_get k d with
  | Some v => ret v
  | None => raise ("KeyError: '" ++ k ++ "'")
  end.

(** The receiver of a [str] method such as [.lower()] or [.capitalize()]. *)
Definition as_str (v : value) : result string :=
  match v with
  | VStr s => ret s
  | _ => raise "AttributeError"
  end.

(** [ObjectId(s)] where [s] comes from the URL, so is a string. *)
Definition to_ObjectId (s : string) : result string :=
  match ObjectId s with
  | Some o => ret o
  | None => raise (InvalidId_message s)
  end.

(** [k in x] for [x] a mapping or [None]. *)
Definition value_contains (k : string) (x : value) : result bool :=
  match x with
  | VDict d => ret (dict_contains k d)
  | _ => raise "TypeError"
  end.

Definition string_of_Z (z : Z) : string :=
  NilZero.string_of_int (Z.to_int z).

(** [str(t)] of a datetime. *)
Definition str_datetime (t : datetime) : string :=
  strftime_display t ++
  (if (microsecond t =? 0)%nat then "" else "." ++ pad 6 (microsecond t)).

(* ================================================================== *)
(** ** A small concrete instance of the outside libraries *)
(* ================================================================== *)

(** Stand-ins on which the handlers can be run: tokens are looked up in a
  table, a password hash is the password behind a tag, generated ids are
  the counter printed on 24 digits, and the blob store is the list of the
  names it holds. *)
Module Toy.

Definition bytes : Type := Z.
Definition len (b : bytes) : Z := b.

Definition id_alice : string := "aaaaaaaaaaaaaaaaaaaaaaaa".
Definition id_bob : string := "bbbbbbbbbbbbbbbbbbbbbbbb".
Definition id_carol : string := "cccccccccccccccccccccccc".
Definition id_dave : string := "dddddddddddddddddddddddd".
Definition id_root : string := "eeeeeeeeeeeeeeeeeeeeeeee".

Definition claims (user_id email role : string) (exp : Z) : dict :=
  [("user_id", VStr user_id); ("email", VStr email); ("role", VStr role);
   ("exp", VInt exp); ("iat", VInt 0)].

Definition tokens : list (string * dict) :=
  [("alice", claims id_alice "alice@x.com" "citizen" 5000);
   ("dave", claims id_dave "dave@x.com" "citizen" 5000);
   ("bob", claims id_bob "bob@x.com" "officer" 5000);
   ("carol", claims id_carol "carol@x.com" "officer" 5000);
   ("root", claims id_root "root@x.com" "admin" 5000);
   ("old", claims id_alice "alice@x.com" "citizen" 10);
   ("forged", claims id_root "root@x.com" "admin" 5000)].

Definition jwt_payload (token : string) : option dict :=
  match List.find (fun kv => fst kv =? token) tokens with
  | Some kv => Some (snd kv)
  | None => None
  end.

Definition jwt_signature_ok (token key : string) : bool :=
  negb (token =? "forged") && (key =? "k").

Definition jwt_encode (payload : dict) (key : string) : string :=
  match dict_get "email" payload with
  | Some (VStr e) => "jwt:" ++ e
  | _ => "jwt"
  end.

Definition generate_password_hash (p : string) : string := "hash:" ++ p.
Definition check_password_hash (h p : string) : bool := h =? "hash:" ++ p.
Definition secure_filename (s : string) : string := s.
Definition new_ObjectId (n : nat) : string := pad 24 n.
Definition py_repr (v : value) : string := "".

Definition gridfs : Type := list string.
Definition fs_put (fs : gridfs) (content : bytes) (name ctype : string)
    (t : datetime) : result (string * gridfs) :=
  ret (pad 24 (1000 + List.length fs), (fs ++ [name])%list).

Definition secret_key : string := "k".

Definition noon : clock := mkClock (mkDatetime 2024 5 17 12 0 0 0) 1000.

Definition get (token : string) : request bytes :=
  mkRequest ("Bearer " ++ token) VNone [] [].

Definition post (token : string) (body : dict) : request bytes :=
  mkRequest ("Bearer " ++ token) (VDict body) [] [].

Definition anonymous : request bytes := mkRequest "" VNone [] [].

Definition empty_store : store := mkStore [] [] [] [] [] 0.

Definition morning : datetime := mkDatetime 2024 5 17 9 3 0 0.

Definition user (id first_name email role : string) : dict :=
  [("_id", VObjectId id);
   ("first_name", VStr first_name);
   ("last_name", VStr "Doe");
   ("email", VStr email);
   ("phone", VStr "555-0100");
   ("password_hash", VStr (generate_password_hash "pw"));
   ("role", VStr role);
   ("created_at", VDatetime morning);
   ("updated_at", VDatetime morning)].

Definition case_id_1 : string := "111111111111111111111111".
Definition fir_id_1 : string := "222222222222222222222222".

(** A complaint filed by alice. *)
Definition case_1 : dict :=
  [("_id", VObjectId case_id_1);
   ("citizen_id", VObjectId id_alice);
   ("citizen_name", VStr "Alice Doe");
   ("citizen_email", VStr "alice@x.com");
   ("title", VStr "Stolen bicycle");
   ("description", VStr "Taken from the yard");
   ("category", VStr "Theft");
   ("location", VStr "Elm Street");
   ("status", VStr "Pending");
   ("priority", VStr "Normal");
   ("created_at", VDatetime morning);
   ("updated_at", VDatetime morning)].

(** An FIR registered by bob. *)
Definition fir_1 : dict :=
  [("_id", VObjectId fir_id_1);
   ("title", VStr "Break-in");
   ("category", VStr "Burglary");
   ("complainant_name", VStr "Erin");
   ("contact", VStr "555-0101");
   ("location", VStr "Oak Avenue");
   ("description", VStr "Window forced");
   ("officer_id", VStr id_bob);
   ("officer_name", VStr "Unknown Officer");
   ("status", VStr "Pending");
   ("priority", VStr "Normal");
   ("created_at", VDatetime morning);
   ("updated_at", VDatetime morning)].

Definition st : store :=
  mkStore [user id_alice "Alice" "alice@x.com" "citizen";
           user id_dave "Dave" "dave@x.com" "citizen";
           user id_bob "Bob" "bob@x.com" "officer";
           user id_carol "Carol" "carol@x.com" "officer";
           user id_root "Root" "root@x.com" "admin"]
          [case_1] [fir_1] [] [] 7.

(** The body of a request that registers an FIR and names neither a
    priority nor a status. *)
Definition fir_request : dict :=
  [("title", VStr "Noise");
   ("category", VStr "Disturbance");
   ("complainant_name", VStr "Frank");
   ("contact", VStr "555-0102");
   ("location", VStr "Pine Road");
   ("description", VStr "Loud music at night")].

(** The body with which an admin creates a user under alice's address. *)
Definition duplicate_user_request : dict :=
  [("email", VStr "alice@x.com"); ("role", VStr "citizen");
   ("password", VStr "other")].

Definition registration_request : dict :=
  [("first_name", VStr "Grace");
   ("last_name", VStr "Hopper");
   ("email", VStr "Grace@X.com");
   ("phone", VStr "555-0103");
   ("password", VStr "pw")].

Definition login_request (email : string) : request bytes :=
  mkRequest "" (VDict [("email", VStr email); ("password", VStr "pw");
                       ("role", VStr "citizen")]) [] [].

(** Three files for case 1; the second is above 10 MiB. *)
Definition evidence_files : list (file_storage bytes) :=
  [mkFile "photo.jpg" "image/jpeg" 2048%Z;
   mkFile "video.mp4" "video/mp4" 20000000%Z;
   mkFile "note.txt" "" 12%Z].

Definition evidence_request : request bytes :=
  mkRequest "Bearer bob" VNone [("case_id", " 111111111111111111111111 ")]
            evidence_files.

(** A user document with secrets at three places. *)
Definition account : dict :=
  [("email", VStr "a@x.com");
   ("password_hash", VStr "h");
   ("profile", VDict [("password_hash", VStr "h2"); ("age", VInt 30)]);
   ("sessions", VList [VDict [("password_hash", VStr "h3")]; VInt 1])].

(** A user document with ids, a timestamp and nested secrets. *)
Definition account_full : dict :=
  [("_id", VObjectId id_alice);
   ("password_hash", VStr "h");
   ("created_at", VDatetime (mkDatetime 2024 5 17 9 3 0 250));
   ("profile", VDict [("password_hash", VStr "h2"); ("age", VInt 30)]);
   ("sessions", VList [VDict [("password_hash", VStr "h3"); ("ip", VStr "::1")];
                       VObjectId id_bob])].

End Toy.

(** More sample data for the same instance. *)
Module Toy2.

(** The claims signed for the account that [Toy.registration_request]
    registers on [Toy.st] at [Toy.noon], and a PyJWT that reads them back
    from the token [Toy.jwt_encode] makes of them. *)
Definition grace_claims : dict :=
  [("user_id", VStr (Toy.new_ObjectId 7)); ("email", VStr "grace@x.com");
   ("role", VStr "citizen"); ("exp", VInt (1000 + 7 * 86400));
   ("iat", VInt 1000)].

Definition jwt_payload (token : string) : option dict :=
  if token =? "jwt:grace@x.com" then Some grace_claims
  else Toy.jwt_payload token.

Definition fs_delete (fs : Toy.gridfs) (file_id : value) : result Toy.gridfs :=
  ret (List.tl fs).

(** A header with something after the token. *)
Definition long_header : request Toy.bytes :=
  mkRequest "Bearer alice and more" VNone [] [].

(** The body of a crime report. *)
Definition case_request : dict :=
  [("title", VStr "Graffiti");
   ("category", VStr "Vandalism");
   ("location", VStr "Mill Lane");
   ("description", VStr "Paint on the bridge")].

Definition evidence_id_1 : string := "333333333333333333333333".

(** An evidence record uploaded by bob. *)
Definition evidence_1 : dict :=
  [("_id", VObjectId evidence_id_1);
   ("file_id", VObjectId "000000000000000000001000");
   ("filename", VStr "photo.jpg");
   ("original_filename", VStr "photo.jpg");
   ("content_type", VStr "image/jpeg");
   ("file_size", VInt 2048);
   ("case_id", VObjectId Toy.case_id_1);
   ("fir_id", VNone);
   ("officer_id", VStr Toy.id_bob);
   ("officer_name", VStr "");
   ("notes", VStr "");
   ("uploaded_at", VDatetime Toy.morning);
   ("status", VStr "active")].

Definition st_evidence : store :=
  mkStore (users Toy.st) (cases Toy.st) (officer_firs Toy.st) []
          [evidence_1] 7.

Definition alert_request : dict :=
  [("title", VStr "  Road closed "); ("message", VStr "Use the ring road")].

Definition blank_alert_request : dict :=
  [("title", VStr "   "); ("message", VStr "Use the ring road")].

(** A profile update that asks for another role. *)
Definition role_request : dict := [("role", VStr "admin")].

Definition password_request : dict := [("password", VStr "new")].

Definition status_request : dict :=
  [("status", VStr "Closed"); ("title", VStr "Renamed")].

Definition unknown_id : string := "999999999999999999999999".

End Toy2.

(* ================================================================== *)
(** ** The handlers *)
(* ================================================================== *)

Section Handlers.

(** PyJWT, werkzeug, the ObjectId generator, Python's [repr] and GridFS
    lie outside the repository; the handlers are written over them. *)

(** Uploaded bytes and [len]. *)
Variable bytes : Type.
Variable len : bytes -> Z.

(** The claims carried by a token ([None]: not a well-formed JWT) and
    whether its signature verifies under a key. *)
Variable jwt_payload : string -> option dict.
Variable jwt_signature_ok : string -> string -> bool.
Variable jwt_encode : dict -> string -> string.

Variable generate_password_hash : string -> string.
Variable check_password_hash : string -> string -> bool.
Variable secure_filename : string -> string.

(** The [n]-th id generated by the driver. *)
Variable new_ObjectId : nat -> string.

(** [repr] of a list or dict. *)
Variable py_repr : value -> string.

(** The blob store and [fs.put(content, filename=, content_type=,
    upload_date=)], which returns the id of the stored file or raises. *)
Variable gridfs : Type.
Variable fs_put :
  gridfs -> bytes -> string -> string -> datetime -> result (string * gridfs).

(** [SECRET_KEY] of the process. *)
Variable secret_key : string.

Local Abbreviation request := (request bytes).
Local Abbreviation file_storage := (file_storage bytes).

(** [str(v)] *)
Definition py_str (v : value) : string :=
  match v with
  | VNone => "None"
  | VBool true => "True"
  | VBool false => "False"
  | VInt z => string_of_Z z
  | VStr s => s
  | VObjectId o => o
  | VDatetime t => str_datetime t
  | _ => py_repr v
  end.

(** [insert_one(doc)]: a document without [_id] gets the next generated
    id, which is stored as its first field; a given [_id] must be new.
    Returns [inserted_id], the collection and the id counter. *)
Definition insert_one (col : list dict) (doc : dict) (n : nat)
  : result (value * list dict * nat) :=
  match dict_get "_id" doc with
  | Some id =>
      match find_one col [("_id", id)] with
      | Some _ => raise "DuplicateKeyError"
      | None => ret (id, (col ++ [doc])%list, n)
      end
  | None =>
      let id := VObjectId (new_ObjectId n) in
      ret (id, (col ++ [("_id", id) :: doc])%list, S n)
  end.

(** [jwt.decode(token, key, algorithms=["HS256"])] at time [now]. *)
Definition jwt_decode (token key : string) (now : Z) : jwt_error + dict :=
  match jwt_payload token with
  | None => inl DecodeError
  | Some claims =>
      if negb (jwt_signature_ok token key) then inl InvalidSignatureError
      else match dict_get "exp" claims with
           | None => inr claims
           | Some (VInt e) =>
               if (e <=? now)%Z then inl ExpiredSignatureError else inr claims
           | Some _ => inl DecodeError
           end
  end.

(** [auth_header.split(" ")[1]] *)
Definition bearer_token (auth_header : string) : string :=
  nth 1 (split_char " " auth_header) "".

(* ---------------------------------------------------------------- *)
(** *** utils/common.py (and its copies in app.py, case_routes.py and
    admin_routes.py) *)

Definition verify_token (clk : clock) (req : request) : option dict :=
  let auth_header := authorization req in
  if negb (startswith "Bearer " auth_header) then None
  else
    let token := bearer_token auth_header in
    match jwt_decode token secret_key (timestamp clk) with
    | inr payload => Some payload
    | inl ExpiredSignatureError => None
    | inl _ => None
    end.

(** [not payload] for the result of a [verify_token]. *)
Definition no_payload (p : option dict) : bool :=
  match p with
  | Some d => negb (truthy (VDict d))
  | None => true
  end.

(* ---------------------------------------------------------------- *)
(** *** models/user_model.py *)

Definition user_model_create_user (st : store) (clk : clock)
    (first_name last_name email phone password role : value)
  : result (value * store) :=
  e <- as_str email ;;
  match find_one (users st) [("email", VStr (lower e))] with
  | Some _ => ret (VDict [("error", VStr "Email already registered")], st)
  | None =>
      pw <- as_str password ;;
      let hashed_password := generate_password_hash pw in
      let user_doc :=
        [("first_name", first_name);
         ("last_name", last_name);
         ("email", VStr (lower e));
         ("phone", phone);
         ("password_hash", VStr hashed_password);
         ("role", role);
         ("created_at", VDatetime (utcnow clk));
         ("updated_at", VDatetime (utcnow clk))] in
      ins <- insert_one (users st) user_doc (next_id st) ;;
      let '(inserted_id, col, n) := ins in
      let user_doc := dict_set "_id" inserted_id user_doc in
      ret (Sanitizer.to_str_id (VDict user_doc), set_users st col n)
  end.

Definition get_user_by_id (st : store) (user_id : string) : result value :=
  oid <- to_ObjectId user_id ;;
  let user := find_one (users st) [("_id", VObjectId oid)] in
  ret (Sanitizer.to_str_id (match user with Some u => VDict u | None => VNone end)).

(* ---------------------------------------------------------------- *)
(** *** routes/auth_routes.py *)

Definition create_token (clk : clock) (user : dict) : result string :=
  id <- subscript user "_id" ;;
  email <- subscript user "email" ;;
  let payload :=
    [("user_id", VStr (py_str id));
     ("email", email);
     ("role", dict_get_default "role" (VStr "citizen") user);
     ("exp", VInt (timestamp clk + 7 * 86400));
     ("iat", VInt (timestamp clk))] in
  ret (jwt_encode payload secret_key).

Definition registration_required : list string :=
  ["first_name"; "last_name"; "email"; "phone"; "password"].

Definition handle_registration (st : store) (clk : clock)
    (data : dict) (role : string) : response * store :=
  let missing :=
    filter (fun field => negb (dict_contains field data)
                         || negb (truthy_opt (dict_get field data)))
           registration_required in
  match missing with
  | _ :: _ =>
      (Response (VDict [("error", VStr "Missing required fields");
                        ("fields", str_list missing)]) 400, st)
  | [] =>
      view st (
        first_name <- subscript data "first_name" ;;
        last_name <- subscript data "last_name" ;;
        email <- subscript data "email" ;;
        phone <- subscript data "phone" ;;
        password <- subscript data "password" ;;
        created <- user_model_create_user st clk first_name last_name email
                     phone password (VStr role) ;;
        let '(user, st') := created in
        has_error <- value_contains "error" user ;;
        if has_error then ret (Response user 400, st')
        else
          let user := match user with
                      | VDict d => dict_pop "password_hash" d
                      | _ => []
                      end in
          token <- create_token clk user ;;
          ret (Response
                 (VDict [("message",
                          VStr (capitalize role ++ " registered successfully"));
                         ("user", VDict user);
                         ("token", VStr token)]) 201, st'))
  end.

Definition register_citizen (st : store) (clk : clock) (req : request) :=
  handle_registration st clk (json_or_empty req) "citizen".
Definition register_officer (st : store) (clk : clock) (req : request) :=
  handle_registration st clk (json_or_empty req) "officer".
Definition register_admin (st : store) (clk : clock) (req : request) :=
  handle_registration st clk (json_or_empty req) "admin".

(** [check_password_hash(pwhash, password)] on stored and posted values. *)
Definition check_password (pwhash password : value) : result bool :=
  match pwhash, password with
  | VStr h, VStr p => ret (check_password_hash h p)
  | _, _ => raise "TypeError"
  end.

Definition login (st : store) (clk : clock) (req : request) : response :=
  let data := json_or_empty req in
  let email := dict_get "email" data in
  let password := dict_get "password" data in
  let role := dict_get "role" data in
  if negb (truthy_opt email) || negb (truthy_opt password)
     || negb (truthy_opt role)
  then Response (error_body "Email, password, and role are required") 400
  else
    match find_one (users st)
            [("email", opt_value email); ("role", opt_value role)] with
    | None =>
        Response (error_body ("No " ++ py_str (opt_value role)
                              ++ " account found for this email")) 404
    | Some user =>
        match (pwhash <- subscript user "password_hash" ;;
               ok <- check_password pwhash (opt_value password) ;;
               if negb ok then ret (Response (error_body "Invalid password") 401)
               else
                 id <- subscript user "_id" ;;
                 let user := dict_set "_id" (VStr (py_str id)) user in
                 let user := dict_pop "password_hash" user in
                 token <- create_token clk user ;;
                 r <- as_str (opt_value role) ;;
                 ret (Response
                        (VDict [("message", VStr (capitalize r ++ " login successful"));
                                ("user", VDict user);
                                ("token", VStr token)]) 200))
        with
        | inr resp => resp
        | inl e => Unhandled e
        end
    end.

Definition get_profile (st : store) (clk : clock) (req : request)
    (user_id : string) : response :=
  let auth_header := authorization req in
  if negb (startswith "Bearer " auth_header)
  then Response (error_body "Authorization header missing or invalid") 401
  else
    let token := bearer_token auth_header in
    match jwt_decode token secret_key (timestamp clk) with
    | inl ExpiredSignatureError => Response (error_body "Token has expired") 401
    | inl _ => Response (error_body "Invalid token") 401
    | inr payload =>
        match (uid <- subscript payload "user_id" ;;
               if negb (value_eqb uid (VStr user_id))
               then (role <- subscript payload "role" ;;
                     ret (negb (value_eqb role (VStr "admin"))))
               else ret false) with
        | inl e => Unhandled e
        | inr true => Response (error_body "Unauthorized access") 403
        | inr false =>
            match get_user_by_id st user_id with
            | inl e => Unhandled e
            | inr (VDict ((_ :: _) as user)) =>
                Response (VDict (dict_pop "password_hash" user)) 200
            | inr _ => Response (error_body "User not found") 404
            end
        end
    end.

(* ---------------------------------------------------------------- *)
(** *** routes/admin_routes.py *)

Definition require_admin (clk : clock) (req : request) : option dict :=
  let user := verify_token clk req in
  match user with
  | Some u =>
      if no_payload user
         || negb (value_eqb (opt_value (dict_get "role" u)) (VStr "admin"))
      then None else user
  | None => None
  end.

Definition unauthorized_401 : response :=
  Response (error_body "Unauthorized") 401.

Definition admin_routes_get_user (st : store) (clk : clock) (req : request)
    (user_id : string) : response * store :=
  match require_admin clk req with
  | None => (unauthorized_401, st)
  | Some admin =>
      match (oid <- to_ObjectId user_id ;;
             ret (find_one (users st) [("_id", VObjectId oid)])) with
      | inr (Some ((_ :: _) as user)) =>
          (Response (Sanitizer.serialize_doc (VDict user)) 200, st)
      | inr _ => (Response (error_body "User not found") 404, st)
      | inl _ => (Response (error_body "Invalid ID") 400, st)
      end
  end.

Definition admin_routes_create_user (st : store) (clk : clock)
    (req : request) : response * store :=
  match require_admin clk req with
  | None => (unauthorized_401, st)
  | Some admin =>
      let data := json_or_empty req in
      let required := ["email"; "role"] in
      if negb (forallb (fun field => dict_contains field data
                                     && truthy_opt (dict_get field data))
                       required)
      then (Response (error_body "Missing required fields") 400, st)
      else
        let new_user :=
          [("first_name", dict_get_default "first_name" (VStr "") data);
           ("last_name", dict_get_default "last_name" (VStr "") data);
           ("email", opt_value (dict_get "email" data));
           ("role", dict_get_default "role" (VStr "citizen") data);
           ("badge_number", dict_get_default "badge_number" (VStr "") data);
           ("department", dict_get_default "department" (VStr "") data);
           ("created_at", VDatetime (utcnow clk));
           ("last_login", VNone)] in
        if truthy_opt (dict_get "password" data) then
          view st (
            pw <- as_str (opt_value (dict_get "password" data)) ;;
            let new_user :=
              dict_set "password_hash" (VStr (generate_password_hash pw))
                       new_user in
            ins <- insert_one (users st) new_user (next_id st) ;;
            let '(inserted_id, col, n) := ins in
            let new_user := dict_set "_id" (VStr (py_str inserted_id)) new_user in
            let new_user := dict_pop "password_hash" new_user in
            ret (Response
                   (VDict [("message", VStr "User created successfully");
                           ("user", Sanitizer.serialize_doc (VDict new_user))])
                   201,
                 set_users st col n))
        else
          (Response (error_body "Password is required when creating a user")
                    400, st)
  end.

Definition admin_routes_delete_user (st : store) (clk : clock)
    (req : request) (user_id : string) : response * store :=
  match require_admin clk req with
  | None => (unauthorized_401, st)
  | Some admin =>
      match to_ObjectId user_id with
      | inr oid =>
          let q := [("_id", VObjectId oid)] in
          if (deleted_count (users st) q =? 0)%nat
          then (Response (error_body "User not found") 404, st)
          else (Response (VDict [("message", VStr "User deleted successfully")])
                         200,
                set_users st (delete_one (users st) q) (next_id st))
      | inl _ => (Response (error_body "Invalid ID") 400, st)
      end
  end.

Definition admin_routes_get_case (st : store) (clk : clock) (req : request)
    (case_id : string) : response * store :=
  match require_admin clk req with
  | None => (unauthorized_401, st)
  | Some admin =>
      match (oid <- to_ObjectId case_id ;;
             ret (find_one (cases st) [("_id", VObjectId oid)])) with
      | inr (Some ((_ :: _) as case)) =>
          (Response (Sanitizer.serialize_doc (VDict case)) 200, st)
      | inr _ => (Response (error_body "Case not found") 404, st)
      | inl _ => (Response (error_body "Invalid ID") 400, st)
      end
  end.

Definition admin_routes_delete_case (st : store) (clk : clock)
    (req : request) (case_id : string) : response * store :=
  match require_admin clk req with
  | None => (unauthorized_401, st)
  | Some admin =>
      match to_ObjectId case_id with
      | inr oid =>
          let q := [("_id", VObjectId oid)] in
          if (deleted_count (cases st) q =? 0)%nat
          then (Response (error_body "Case not found") 404, st)
          else (Response (VDict [("message", VStr "Case deleted successfully")])
                         200,
                set_cases st (delete_one (cases st) q) (next_id st))
      | inl _ => (Response (error_body "Invalid ID") 400, st)
      end
  end.

Definition admin_routes_delete_fir (st : store) (clk : clock)
    (req : request) (fir_id : string) : response * store :=
  match require_admin clk req with
  | None => (unauthorized_401, st)
  | Some admin =>
      match to_ObjectId fir_id with
      | inr oid =>
          let q := [("_id", VObjectId oid)] in
          if (deleted_count (officer_firs st) q =? 0)%nat
          then (Response (error_body "FIR not found") 404, st)
          else (Response (VDict [("message", VStr "FIR deleted successfully")])
                         200,
                set_officer_firs st (delete_one (officer_firs st) q) (next_id st))
      | inl _ => (Response (error_body "Invalid ID") 400, st)
      end
  end.

(* ---------------------------------------------------------------- *)
(** *** app.py: the [admin_api] blueprint *)

Definition admin_required (clk : clock) (req : request) : option dict :=
  let token_data := verify_token clk req in
  match token_data with
  | Some t =>
      if no_payload token_data
         || negb (value_eqb (opt_value (dict_get "role" t)) (VStr "admin"))
      then None else token_data
  | None => None
  end.

Definition unauthorized_403 : response :=
  Response (error_body "Unauthorized") 403.

Definition admin_get_user (st : store) (clk : clock) (req : request)
    (user_id : string) : response * store :=
  match admin_required clk req with
  | None => (unauthorized_403, st)
  | Some _ =>
      match (oid <- to_ObjectId user_id ;;
             match find_one (users st) [("_id", VObjectId oid)] with
             | Some ((_ :: _) as u) =>
                 id <- subscript u "_id" ;;
                 let u := dict_set "_id" (VStr (py_str id)) u in
                 ret (Response (VDict (dict_pop "password_hash" u)) 200)
             | _ => ret (Response (error_body "User not found") 404)
             end) with
      | inr r => (r, st)
      | inl _ => (Response (error_body "Invalid ID") 400, st)
      end
  end.

Definition admin_create_user (st : store) (clk : clock) (req : request)
  : response * store :=
  match admin_required clk req with
  | None => (unauthorized_403, st)
  | Some _ =>
      let data := json_or_empty req in
      if negb (dict_contains "email" data) || negb (dict_contains "role" data)
      then (Response (error_body "Missing required fields") 400, st)
      else
        let data := dict_set "created_at" (VDatetime (utcnow clk)) data in
        let data := dict_set "updated_at" (VDatetime (utcnow clk)) data in
        view st (
          ins <- insert_one (users st) data (next_id st) ;;
          let '(inserted_id, col, n) := ins in
          let data := dict_set "_id" (VStr (py_str inserted_id)) data in
          ret (Response (VDict data) 201, set_users st col n))
  end.

Definition admin_delete_user (st : store) (clk : clock) (req : request)
    (user_id : string) : response * store :=
  match admin_required clk req with
  | None => (unauthorized_403, st)
  | Some _ =>
      view st (
        oid <- to_ObjectId user_id ;;
        let q := [("_id", VObjectId oid)] in
        if (deleted_count (users st) q =? 0)%nat
        then ret (Response (error_body "User not found") 404, st)
        else ret (Response (VDict [("message", VStr "User deleted")]) 200,
                  set_users st (delete_one (users st) q) (next_id st)))
  end.

Definition admin_delete_case (st : store) (clk : clock) (req : request)
    (case_id : string) : response * store :=
  match admin_required clk req with
  | None => (unauthorized_403, st)
  | Some _ =>
      view st (
        oid <- to_ObjectId case_id ;;
        let q := [("_id", VObjectId oid)] in
        if (deleted_count (cases st) q =? 0)%nat
        then ret (Response (error_body "Case not found") 404, st)
        else ret (Response (VDict [("message", VStr "Case deleted")]) 200,
                  set_cases st (delete_one (cases st) q) (next_id st)))
  end.

(* ---------------------------------------------------------------- *)
(** *** routes/case_routes.py and routes/citizen_routes.py *)

(** [GET /api/cases/<case_id>].  The view does not read the request. *)
Definition case_routes_get_case (st : store) (req : request)
    (case_id : string) : response :=
  match (oid <- to_ObjectId case_id ;;
         match find_one (cases st) [("_id", VObjectId oid)] with
         | Some ((_ :: _) as case) =>
             ret (Response (Sanitizer.to_str_id (VDict case)) 200)
         | _ => ret (Response (error_body "Case not found") 404)
         end) with
  | inr r => r
  | inl e => Response (error_body e) 500
  end.

(** models/case_model.py *)
Definition get_cases_by_citizen (st : store) (citizen_id : string)
  : result (list value) :=
  oid <- to_ObjectId citizen_id ;;
  let cur := find (cases st) [("citizen_id", VObjectId oid)] in
  ret (map (fun c => Sanitizer.to_str_id (VDict c)) cur).

(** [GET /api/citizen/<citizen_id>/cases].  The view does not read the
    request either. *)
Definition view_complaints (st : store) (req : request)
    (citizen_id : string) : response :=
  match get_cases_by_citizen st citizen_id with
  | inr cases => Response (VList cases) 200
  | inl e => Unhandled e
  end.

(* ---------------------------------------------------------------- *)
(** *** models/officer_fir_model.py *)

(** The fields the [OfficerFIR] document class declares, each with its
    default: a fixed value, [datetime.utcnow], or none. *)
Inductive field_default : Type :=
| NoDefault
| DefaultValue (v : value)
| DefaultUtcnow.

Definition OfficerFIR_fields : list (string * field_default) :=
  [("title", NoDefault);
   ("category", DefaultValue (VStr "General"));
   ("suspect_name", NoDefault);
   ("contact", NoDefault);
   ("location", NoDefault);
   ("description", NoDefault);
   ("priority", DefaultValue (VStr "High"));
   ("officer", NoDefault);
   ("status", DefaultValue (VStr "Open"));
   ("created_at", DefaultUtcnow);
   ("updated_at", DefaultUtcnow)].

(** [OfficerFIR(...)] with keyword arguments: a declared field takes the given value, else
    its default; a field with neither is left unset. *)
Definition OfficerFIR (clk : clock) (kwargs : dict) : dict :=
  flat_map (fun fd =>
              match dict_get (fst fd) kwargs, snd fd with
              | Some v, _ => [(fst fd, v)]
              | None, DefaultValue v => [(fst fd, v)]
              | None, DefaultUtcnow => [(fst fd, VDatetime (utcnow clk))]
              | None, NoDefault => []
              end) OfficerFIR_fields.

(* ---------------------------------------------------------------- *)
(** *** routes/officer_routes.py *)

(** This copy catches [Exception]. *)
Definition officer_verify_token (clk : clock) (req : request) : option dict :=
  let auth_header := authorization req in
  if negb (startswith "Bearer " auth_header) then None
  else
    let token := bearer_token auth_header in
    match jwt_decode token secret_key (timestamp clk) with
    | inr payload => Some payload
    | inl _ => None
    end.

(** [ObjectId(x)] for [x] taken from the token: [None] makes a new id,
    a string is parsed, anything else is a [TypeError]. *)
Definition ObjectId_of_value (st : store) (x : option value) : result string :=
  match x with
  | None | Some VNone => ret (new_ObjectId (next_id st))
  | Some (VStr s) => to_ObjectId s
  | Some _ => raise "TypeError"
  end.

Definition fir_required_fields : list string :=
  ["title"; "category"; "complainant_name"; "contact"; "location";
   "description"].

Definition create_officer_fir (st : store) (clk : clock) (req : request)
  : response * store :=
  let payload := officer_verify_token clk req in
  match payload with
  | None => (unauthorized_401, st)
  | Some p =>
    if no_payload payload then (unauthorized_401, st)
    else
      let officer_id := dict_get "user_id" p in
      view st (
        oid <- ObjectId_of_value st officer_id ;;
        match find_one (users st)
                [("_id", VObjectId oid); ("role", VStr "officer")] with
        | Some ((_ :: _) as officer) =>
            let data := json_or_empty req in
            if negb (forallb (fun f => truthy_opt (dict_get f data))
                             fir_required_fields)
            then ret (Response (error_body "Missing required fields") 400, st)
            else
              title <- subscript data "title" ;;
              category <- subscript data "category" ;;
              complainant_name <- subscript data "complainant_name" ;;
              contact <- subscript data "contact" ;;
              location <- subscript data "location" ;;
              description <- subscript data "description" ;;
              let fir_doc :=
                [("title", title);
                 ("category", category);
                 ("complainant_name", complainant_name);
                 ("contact", contact);
                 ("location", location);
                 ("description", description);
                 ("officer_id", opt_value officer_id);
                 ("officer_name",
                  dict_get_default "name" (VStr "Unknown Officer") officer);
                 ("status", VStr "Pending");
                 ("priority", dict_get_default "priority" (VStr "Normal") data);
                 ("created_at", VDatetime (utcnow clk));
                 ("updated_at", VDatetime (utcnow clk))] in
              ins <- insert_one (officer_firs st) fir_doc (next_id st) ;;
              let '(inserted_id, col, n) := ins in
              let fir_doc := dict_set "_id" (VStr (py_str inserted_id)) fir_doc in
              ret (Response (VDict [("message", VStr "FIR created successfully");
                                    ("fir", VDict fir_doc)]) 201,
                   set_officer_firs st col n)
        | _ => ret (Response (error_body "Officer not found") 404, st)
        end)
  end.

(** [x.strftime("%Y-%m-%d %H:%M:%S")] *)
Definition strftime (x : value) : result value :=
  match x with
  | VDatetime t => ret (VStr (strftime_display t))
  | _ => raise "AttributeError"
  end.

Definition access_denied : response := Response (error_body "Access denied") 403.

Definition get_officer_fir (st : store) (clk : clock) (req : request)
    (fir_id : string) : response :=
  let payload := officer_verify_token clk req in
  match payload with
  | None => unauthorized_401
  | Some p =>
    if no_payload payload then unauthorized_401
    else
      let officer_id := dict_get "user_id" p in
      if negb (truthy_opt officer_id)
      then Response (error_body "Invalid token") 400
      else
        match to_ObjectId fir_id with
        | inl _ => Response (error_body "Invalid FIR ID") 400
        | inr oid =>
            match find_one (officer_firs st) [("_id", VObjectId oid)] with
            | Some ((_ :: _) as fir) =>
                if negb (value_eqb (opt_value (dict_get "officer_id" fir))
                                   (opt_value officer_id))
                then access_denied
                else
                  match (id <- subscript fir "_id" ;;
                         let fir := dict_set "_id" (VStr (py_str id)) fir in
                         let fir :=
                           dict_set "officer_id"
                             (VStr (py_str (dict_get_default "officer_id"
                                              (VStr "") fir))) fir in
                         created <-
                           (if truthy_opt (dict_get "created_at" fir)
                            then strftime (opt_value (dict_get "created_at" fir))
                            else ret (VStr "—")) ;;
                         let fir := dict_set "created_at" created fir in
                         if truthy_opt (dict_get "updated_at" fir)
                         then
                           updated <- strftime (opt_value (dict_get "updated_at" fir)) ;;
                           ret (dict_set "updated_at" updated fir)
                         else ret fir) with
                  | inr fir => Response (VDict fir) 200
                  | inl e => Unhandled e
                  end
            | _ => Response (error_body "FIR not found") 404
            end
        end
  end.

Definition fir_allowed_fields : list string :=
  ["status"; "priority"; "officer_notes"].

(** [{k: v for k, v in data.items() if k in allowed_fields and v}] *)
Definition fir_update_fields (data : dict) : dict :=
  filter (fun kv => existsb (String.eqb (fst kv)) fir_allowed_fields
                    && truthy (snd kv)) data.

Definition update_officer_fir (st : store) (clk : clock) (req : request)
    (fir_id : string) : response * store :=
  let payload := officer_verify_token clk req in
  match payload with
  | None => (unauthorized_401, st)
  | Some p =>
    if no_payload payload then (unauthorized_401, st)
    else
      let officer_id := dict_get "user_id" p in
      if negb (truthy_opt officer_id)
      then (Response (error_body "Invalid token") 400, st)
      else
        match to_ObjectId fir_id with
        | inl _ => (Response (error_body "Invalid FIR ID") 400, st)
        | inr oid =>
            let q := [("_id", VObjectId oid)] in
            match find_one (officer_firs st) q with
            | Some ((_ :: _) as fir) =>
                if negb (value_eqb (opt_value (dict_get "officer_id" fir))
                                   (opt_value officer_id))
                then (access_denied, st)
                else
                  let data := json_or_empty req in
                  let update_fields := fir_update_fields data in
                  match update_fields with
                  | [] => (Response (error_body "No valid fields to update") 400, st)
                  | _ =>
                      let update_fields :=
                        dict_set "updated_at" (VDatetime (utcnow clk)) update_fields in
                      let col := update_one (officer_firs st) q update_fields in
                      let st' := set_officer_firs st col (next_id st) in
                      match (match find_one col q with
                             | None => raise "TypeError"
                             | Some updated_fir =>
                                 id <- subscript updated_fir "_id" ;;
                                 let updated_fir :=
                                   dict_set "_id" (VStr (py_str id)) updated_fir in
                                 let updated_fir :=
                                   dict_set "officer_id"
                                     (VStr (py_str (dict_get_default "officer_id"
                                                      (VStr "") updated_fir)))
                                     updated_fir in
                                 if truthy_opt (dict_get "updated_at" updated_fir)
                                 then
                                   updated <- strftime (opt_value
                                                (dict_get "updated_at" updated_fir)) ;;
                                   ret (dict_set "updated_at" updated updated_fir)
                                 else ret updated_fir
                             end) with
                      | inr updated_fir =>
                          (Response (VDict [("message", VStr "FIR updated successfully");
                                            ("updated_fir", VDict updated_fir)]) 200,
                           st')
                      | inl e => (Unhandled e, st')
                      end
                  end
            | _ => (Response (error_body "FIR not found") 404, st)
            end
        end
  end.

Definition delete_officer_fir (st : store) (clk : clock) (req : request)
    (fir_id : string) : response * store :=
  let payload := officer_verify_token clk req in
  match payload with
  | None => (unauthorized_401, st)
  | Some p =>
    if no_payload payload then (unauthorized_401, st)
    else
      let officer_id := dict_get "user_id" p in
      view st (
        oid <- to_ObjectId fir_id ;;
        let q := [("_id", VObjectId oid)] in
        match find_one (officer_firs st) q with
        | Some ((_ :: _) as fir) =>
            if negb (value_eqb (opt_value (dict_get "officer_id" fir))
                               (opt_value officer_id))
            then ret (access_denied, st)
            else
              ret (Response (VDict [("message", VStr "FIR deleted successfully")])
                            200,
                   set_officer_firs st (delete_one (officer_firs st) q)
                                    (next_id st))
        | _ => ret (Response (error_body "FIR not found") 404, st)
        end)
  end.

(* ---------------------------------------------------------------- *)
(** *** routes/officer_routes.py: evidence upload *)

(** The size ceiling of the handler, [10 * 1024 * 1024]. *)
Definition max_file_size : Z := 10 * 1024 * 1024.

(** What the loop over the files carries: the blob store ([None] when
    GridFS is not available), the evidence collection, the id counter and
    the two result lists. *)
Record upload_state : Type := mkUpload {
  up_fs : option gridfs;
  up_evidence : list dict;
  up_next : nat;
  uploaded_files : list value;
  errors : list string
}.

Definition add_error (s : upload_state) (msg : string) : upload_state :=
  mkUpload (up_fs s) (up_evidence s) (up_next s) (uploaded_files s)
           (errors s ++ [msg])%list.

(** [ObjectId(x) if x else None] *)
Definition optional_ObjectId (x : string) : result value :=
  if truthy (VStr x) then (o <- to_ObjectId x ;; ret (VObjectId o))
  else ret VNone.

(** [file.content_type or "application/octet-stream"] *)
Definition content_type_or_default (file : file_storage) : string :=
  if truthy (VStr (content_type file)) then content_type file
  else "application/octet-stream".

(** One iteration of [for file in files]. *)
Definition upload_one (clk : clock) (payload : dict)
    (case_id fir_id notes : string) (officer_id : value)
    (s : upload_state) (file : file_storage) : upload_state :=
  if negb (truthy (VStr (filename file))) then s
  else
    let file_content := content file in
    let file_size := len file_content in
    if (file_size >? max_file_size)%Z
    then add_error s (filename file ++ ": File too large (max 10MB)")
    else
      match up_fs s with
      | None => add_error s (filename file ++ ": File storage not available")
      | Some fs =>
          match fs_put fs file_content (secure_filename (filename file))
                       (content_type_or_default file) (utcnow clk) with
          | inl e => add_error s (filename file ++ ": " ++ e)
          | inr (file_id, fs') =>
              let s := mkUpload (Some fs') (up_evidence s) (up_next s)
                                (uploaded_files s) (errors s) in
              match (cid <- optional_ObjectId case_id ;;
                     fid <- optional_ObjectId fir_id ;;
                     let evidence_doc :=
                       [("file_id", VObjectId file_id);
                        ("filename", VStr (secure_filename (filename file)));
                        ("original_filename", VStr (filename file));
                        ("content_type", VStr (content_type_or_default file));
                        ("file_size", VInt file_size);
                        ("case_id", cid);
                        ("fir_id", fid);
                        ("officer_id", officer_id);
                        ("officer_name", dict_get_default "name" (VStr "") payload);
                        ("notes", VStr notes);
                        ("uploaded_at", VDatetime (utcnow clk));
                        ("status", VStr "active")] in
                     insert_one (up_evidence s) evidence_doc (up_next s)) with
              | inl e => add_error s (filename file ++ ": " ++ e)
              | inr (evidence_id, col, n) =>
                  mkUpload (up_fs s) col n
                    (uploaded_files s ++
                     [VDict [("evidence_id", VStr (py_str evidence_id));
                             ("file_id", VStr file_id);
                             ("filename", VStr (filename file));
                             ("size", VInt file_size)]])%list
                    (errors s)
              end
          end
      end.

(** The whole loop. *)
Definition upload_all (clk : clock) (payload : dict)
    (case_id fir_id notes : string) (officer_id : value)
    (s : upload_state) (files : list file_storage) : upload_state :=
  fold_left (upload_one clk payload case_id fir_id notes officer_id) files s.

(** The checks on the case and on the FIR that precede the loop: [None]
    when both pass, else the response returned. *)
Definition check_case (st : store) (case_id : string) : option response :=
  if truthy (VStr case_id) then
    match to_ObjectId case_id with
    | inl _ => Some (Response (error_body "Invalid case ID") 400)
    | inr oid =>
        match find_one (cases st) [("_id", VObjectId oid)] with
        | Some (_ :: _) => None
        | _ => Some (Response (error_body "Case not found") 404)
        end
    end
  else None.

Definition check_fir (st : store) (fir_id : string) (officer_id : value)
  : option response :=
  if truthy (VStr fir_id) then
    match to_ObjectId fir_id with
    | inl _ => Some (Response (error_body "Invalid FIR ID") 400)
    | inr oid =>
        match find_one (officer_firs st) [("_id", VObjectId oid)] with
        | Some ((_ :: _) as fir) =>
            if negb (value_eqb (opt_value (dict_get "officer_id" fir)) officer_id)
            then Some access_denied
            else None
        | _ => Some (Response (error_body "FIR not found") 404)
        end
    end
  else None.

(** The response built from the two lists once the loop is over. *)
Definition upload_response (s : upload_state) : response :=
  match uploaded_files s with
  | [] => Response (VDict [("error", VStr "No files uploaded");
                           ("errors", str_list (errors s))]) 400
  | _ =>
      Response
        (VDict [("message",
                 VStr ("Successfully uploaded "
                       ++ string_of_nat (List.length (uploaded_files s))
                       ++ " file(s)"));
                ("uploaded_files", VList (uploaded_files s));
                ("errors", match errors s with
                           | [] => VNone
                           | _ => str_list (errors s)
                           end)]) 201
  end.

Definition upload_evidence (st : store) (fs : option gridfs) (clk : clock)
    (req : request) : response * store * option gridfs :=
  let payload := officer_verify_token clk req in
  match payload with
  | None => (unauthorized_401, st, fs)
  | Some p =>
    if no_payload payload then (unauthorized_401, st, fs)
    else
      let officer_id := dict_get "user_id" p in
      if negb (truthy_opt officer_id)
      then (Response (error_body "Invalid token") 400, st, fs)
      else
        let case_id := strip (form_get req "case_id") in
        let fir_id := strip (form_get req "fir_id") in
        let notes := strip (form_get req "notes") in
        let files := files req in
        if negb (truthy (VStr case_id)) && negb (truthy (VStr fir_id))
        then (Response (error_body "Either case_id or fir_id is required") 400,
              st, fs)
        else
          match files with
          | [] => (Response (error_body "No files provided") 400, st, fs)
          | _ =>
              match check_case st case_id with
              | Some r => (r, st, fs)
              | None =>
                  match check_fir st fir_id (opt_value officer_id) with
                  | Some r => (r, st, fs)
                  | None =>
                      let s := upload_all clk p case_id fir_id notes
                                 (opt_value officer_id)
                                 (mkUpload fs (evidence st) (next_id st) [] [])
                                 files in
                      (upload_response s,
                       set_evidence st (up_evidence s) (up_next s),
                       up_fs s)
                  end
              end
          end
  end.

(* ---------------------------------------------------------------- *)
(** *** The admin endpoints, by blueprint *)

(** The views of [admin_bp] (routes/admin_routes.py) modelled above. *)
Inductive admin_bp_endpoint : Type :=
| AdminBp_get_user (user_id : string)
| AdminBp_create_user
| AdminBp_delete_user (user_id : string)
| AdminBp_get_case (case_id : string)
| AdminBp_delete_case (case_id : string)
| AdminBp_delete_fir (fir_id : string).

Definition admin_bp_dispatch (ep : admin_bp_endpoint) (st : store)
    (clk : clock) (req : request) : response * store :=
  match ep with
  | AdminBp_get_user user_id => admin_routes_get_user st clk req user_id
  | AdminBp_create_user => admin_routes_create_user st clk req
  | AdminBp_delete_user user_id => admin_routes_delete_user st clk req user_id
  | AdminBp_get_case case_id => admin_routes_get_case st clk req case_id
  | AdminBp_delete_case case_id => admin_routes_delete_case st clk req case_id
  | AdminBp_delete_fir fir_id => admin_routes_delete_fir st clk req fir_id
  end.

(** The views of [admin_api] (app.py) modelled above. *)
Inductive admin_api_endpoint : Type :=
| AdminApi_get_user (user_id : string)
| AdminApi_create_user
| AdminApi_delete_user (user_id : string)
| AdminApi_delete_case (case_id : string).

Definition admin_api_dispatch (ep : admin_api_endpoint) (st : store)
    (clk : clock) (req : request) : response * store :=
  match ep with
  | AdminApi_get_user user_id => admin_get_user st clk req user_id
  | AdminApi_create_user => admin_create_user st clk req
  | AdminApi_delete_user user_id => admin_delete_user st clk req user_id
  | AdminApi_delete_case case_id => admin_delete_case st clk req case_id
  end.

(** Why a request is refused by the guard of an admin endpoint: it carries
    no token that verifies, or its claims do not give the admin role. *)
Definition not_authenticated (clk : clock) (req : request) : Prop :=
  no_payload (verify_token clk req) = true.

Definition authenticated_non_admin (clk : clock) (req : request) : Prop :=
  exists claims,
    verify_token clk req = Some claims
    /\ no_payload (Some claims) = false
    /\ value_eqb (opt_value (dict_get "role" claims)) (VStr "admin") = false.

(* ================================================================== *)
(** ** Further views of the same modules *)
(* ================================================================== *)

(** An [ObjectId] somewhere in a value: Flask's [jsonify] has no encoding
    for it and raises [TypeError]. *)
Fixpoint has_ObjectId (v : value) : bool :=
  match v with
  | VObjectId _ => true
  | VList l => existsb has_ObjectId l
  | VDict d => existsb (fun kv => has_ObjectId (snd kv)) d
  | _ => false
  end.

Fixpoint has_datetime (v : value) : bool :=
  match v with
  | VDatetime _ => true
  | VList l => existsb has_datetime l
  | VDict d => existsb (fun kv => has_datetime (snd kv)) d
  | _ => false
  end.

(** [jsonify(v), status] *)
Definition jsonify (v : value) (status : nat) : response :=
  if has_ObjectId v
  then Unhandled "TypeError: Object of type ObjectId is not JSON serializable"
  else Response v status.

(** [str(e)] for that [TypeError]. *)
Definition not_serializable : string :=
  "Object of type ObjectId is not JSON serializable".

(** [a or b] *)
Definition py_or (a b : value) : value := if truthy a then a else b.

(** The body of a request read with [request.get_json()] and used as a
    mapping, the body being a JSON object or absent. *)
Definition json_strict (req : request) : result dict :=
  match json req with
  | VDict d => ret d
  | _ => raise "TypeError"
  end.

(** A [$set] that would give the document another [_id]. *)
Definition modifies_id (u d : dict) : bool :=
  match dict_get "_id" u with
  | Some x => match dict_get "_id" d with
              | Some y => negb (value_eqb y x)
              | None => true
              end
  | None => false
  end.

(** [find_one_and_update(query, {"$set": u}, return_document=True)]: the
    updated document, or [None] when nothing matches. *)
Definition find_one_and_update (col : list dict) (query u : dict)
  : result (option dict * list dict) :=
  match find_one col query with
  | None => ret (None, col)
  | Some d =>
      if modifies_id u d then raise "WriteError"
      else ret (Some (dict_update u d), update_one col query u)
  end.

(* ---------------------------------------------------------------- *)
(** *** models/user_model.py and models/case_model.py *)

Definition update_user (st : store) (clk : clock) (user_id : string)
    (updates : dict) : result (value * store) :=
  let updates := dict_set "updated_at" (VDatetime (utcnow clk)) updates in
  oid <- to_ObjectId user_id ;;
  out <- find_one_and_update (users st) [("_id", VObjectId oid)] updates ;;
  let '(res, col) := out in
  ret (Sanitizer.to_str_id (match res with Some d => VDict d | None => VNone end),
       set_users st col (next_id st)).

Definition create_case (st : store) (clk : clock) (citizen_id : string)
    (title description category location status : value)
  : result (value * store) :=
  oid <- to_ObjectId citizen_id ;;
  let case_doc :=
    [("citizen_id", VObjectId oid);
     ("title", title);
     ("description", description);
     ("category", category);
     ("location", location);
     ("status", status);
     ("created_at", VDatetime (utcnow clk));
     ("updated_at", VDatetime (utcnow clk))] in
  ins <- insert_one (cases st) case_doc (next_id st) ;;
  let '(inserted_id, col, n) := ins in
  let case_doc := dict_set "_id" inserted_id case_doc in
  ret (Sanitizer.to_str_id (VDict case_doc), set_cases st col n).

Definition get_case_by_id (st : store) (case_id : string) : result value :=
  oid <- to_ObjectId case_id ;;
  let case := find_one (cases st) [("_id", VObjectId oid)] in
  ret (Sanitizer.to_str_id (match case with Some c => VDict c | None => VNone end)).

(* ---------------------------------------------------------------- *)
(** *** routes/citizen_routes.py *)

Definition get_citizen_profile (st : store) (req : request)
    (citizen_id : string) : response :=
  match get_user_by_id st citizen_id with
  | inl e => Unhandled e
  | inr (VDict ((_ :: _) as user)) =>
      if negb (value_eqb (opt_value (dict_get "role" user)) (VStr "citizen"))
      then jsonify (error_body "Citizen not found") 404
      else jsonify (VDict (dict_pop "password_hash" user)) 200
  | inr _ => jsonify (error_body "Citizen not found") 404
  end.

Definition update_citizen_profile (st : store) (clk : clock) (req : request)
    (citizen_id : string) : response * store :=
  view st (
    data <- json_strict req ;;
    out <- update_user st clk citizen_id data ;;
    let '(updated, st') := out in
    ret (jsonify updated 200, st')).

Definition complaint_required : list string :=
  ["title"; "description"; "category"; "location"].

Definition file_complaint (st : store) (clk : clock) (req : request)
    (citizen_id : string) : response * store :=
  view st (
    data <- json_strict req ;;
    if negb (forallb (fun k => dict_contains k data) complaint_required)
    then ret (jsonify (error_body "Missing fields") 400, st)
    else
      title <- subscript data "title" ;;
      description <- subscript data "description" ;;
      category <- subscript data "category" ;;
      location <- subscript data "location" ;;
      out <- create_case st clk citizen_id title description category location
               (VStr "Pending") ;;
      let '(case, st') := out in
      ret (jsonify case 201, st')).

(* ---------------------------------------------------------------- *)
(** *** routes/case_routes.py *)

(** The view runs inside [try]: an exception, the one of [jsonify]
    included, gives 500 with [str(e)], after what was stored. *)
Definition create_new_case (st : store) (clk : clock) (req : request)
  : response * store :=
  let payload := verify_token clk req in
  match payload with
  | None => (jsonify (error_body "Unauthorized or invalid token") 401, st)
  | Some p =>
    if no_payload payload
    then (jsonify (error_body "Unauthorized or invalid token") 401, st)
    else
      let user_id := dict_get "user_id" p in
      let user_email := dict_get "email" p in
      let data := json_or_empty req in
      let title := opt_value (dict_get "title" data) in
      let category := opt_value (dict_get "category" data) in
      let location := opt_value (dict_get "location" data) in
      let description := opt_value (dict_get "description" data) in
      if negb (forallb truthy [title; category; location; description])
      then (jsonify (error_body "Missing fields") 400, st)
      else
        match (oid <- ObjectId_of_value st user_id ;;
               match find_one (users st)
                       [("_id", VObjectId oid); ("role", VStr "citizen")] with
               | Some ((_ :: _) as citizen) =>
                   let case_doc :=
                     [("citizen_id", VObjectId oid);
                      ("citizen_name",
                       VStr (strip (py_str (dict_get_default "first_name" (VStr "") citizen)
                                    ++ " "
                                    ++ py_str (dict_get_default "last_name" (VStr "") citizen))));
                      ("citizen_email", opt_value user_email);
                      ("title", title);
                      ("description", description);
                      ("category", category);
                      ("location", location);
                      ("status", VStr "Pending");
                      ("priority", VStr "Normal");
                      ("created_at", VDatetime (utcnow clk));
                      ("updated_at", VDatetime (utcnow clk))] in
                   ins <- insert_one (cases st) case_doc (next_id st) ;;
                   let '(inserted_id, col, n) := ins in
                   let case_doc := dict_set "_id" inserted_id case_doc in
                   let body :=
                     VDict [("message", VStr "Crime report submitted successfully");
                            ("case", Sanitizer.to_str_id (VDict case_doc))] in
                   if has_ObjectId body
                   then ret (jsonify (error_body not_serializable) 500,
                             set_cases st col n)
                   else ret (jsonify body 201, set_cases st col n)
               | _ => ret (jsonify (error_body "Citizen not found") 404, st)
               end) with
        | inr out => out
        | inl e => (jsonify (error_body e) 500, st)
        end
  end.

Definition delete_case_route (st : store) (req : request) (case_id : string)
  : response * store :=
  match to_ObjectId case_id with
  | inl e => (jsonify (error_body e) 500, st)
  | inr oid =>
      let q := [("_id", VObjectId oid)] in
      if (deleted_count (cases st) q =? 0)%nat
      then (jsonify (error_body "Case not found") 404, st)
      else (jsonify (VDict [("message", VStr "Case deleted successfully")]) 200,
            set_cases st (delete_one (cases st) q) (next_id st))
  end.

(* ---------------------------------------------------------------- *)
(** *** routes/officer_routes.py: cases, alerts, team, evidence *)

(** [assigned and str(assigned) != officer_id] *)
Definition assigned_to_other (case : dict) (officer_id : option value) : bool :=
  let assigned := dict_get "assigned_to" case in
  truthy_opt assigned
  && negb (value_eqb (VStr (py_str (opt_value assigned))) (opt_value officer_id)).

Definition view_case_details (st : store) (clk : clock) (req : request)
    (case_id : string) : response :=
  let payload := officer_verify_token clk req in
  match payload with
  | None => jsonify (error_body "Unauthorized") 401
  | Some p =>
    if no_payload payload then jsonify (error_body "Unauthorized") 401
    else
      let officer_id := dict_get "user_id" p in
      match to_ObjectId case_id with
      | inl e => Unhandled e
      | inr oid =>
          match find_one (cases st) [("_id", VObjectId oid)] with
          | Some ((_ :: _) as case) =>
              if assigned_to_other case officer_id
              then jsonify (error_body "Access denied") 403
              else
                match subscript case "_id" with
                | inl e => Unhandled e
                | inr id => jsonify (VDict (dict_set "_id" (VStr (py_str id)) case)) 200
                end
          | _ => jsonify (error_body "Case not found") 404
          end
      end
  end.

Definition case_allowed_fields : list string :=
  ["status"; "priority"; "officer_notes"].

Definition update_case_status (st : store) (clk : clock) (req : request)
    (case_id : string) : response * store :=
  let payload := officer_verify_token clk req in
  match payload with
  | None => (jsonify (error_body "Unauthorized") 401, st)
  | Some p =>
    if no_payload payload then (jsonify (error_body "Unauthorized") 401, st)
    else
      let data := json_or_empty req in
      let update_data :=
        filter (fun kv => existsb (String.eqb (fst kv)) case_allowed_fields) data in
      match update_data with
      | [] => (jsonify (error_body "No valid fields to update") 400, st)
      | _ =>
          let update_data :=
            dict_set "updated_at" (VDatetime (utcnow clk)) update_data in
          let update_data :=
            dict_set "updated_by" (opt_value (dict_get "user_id" p)) update_data in
          view st (
            oid <- to_ObjectId case_id ;;
            let q := [("_id", VObjectId oid)] in
            match find_one (cases st) q with
            | Some ((_ :: _) as case) =>
                if assigned_to_other case (dict_get "user_id" p)
                then ret (jsonify (error_body "Access denied") 403, st)
                else
                  let st' := set_cases st (update_one (cases st) q update_data)
                                       (next_id st) in
                  updated_case <- get_case_by_id st' case_id ;;
                  ret (jsonify updated_case 200, st')
            | _ => ret (jsonify (error_body "Case not found") 404, st)
            end)
      end
  end.

(** [data.get(k, "").strip()] *)
Definition stripped_field (k : string) (data : dict) : result string :=
  s <- as_str (dict_get_default k (VStr "") data) ;;
  ret (strip s).

Definition set_notifications (st : store) (c : list dict) (n : nat) : store :=
  mkStore (users st) (cases st) (officer_firs st) c (evidence st) n.

Definition send_alert (st : store) (clk : clock) (req : request)
  : response * store :=
  let payload := officer_verify_token clk req in
  match payload with
  | None => (jsonify (error_body "Unauthorized") 401, st)
  | Some p =>
    if no_payload payload then (jsonify (error_body "Unauthorized") 401, st)
    else
      let data := json_or_empty req in
      view st (
        title <- stripped_field "title" data ;;
        message <- stripped_field "message" data ;;
        if negb (truthy (VStr title)) || negb (truthy (VStr message))
        then ret (jsonify (error_body "Both title and message are required") 400, st)
        else
          let alert :=
            [("title", VStr title);
             ("message", VStr message);
             ("sent_by", opt_value (dict_get "email" p));
             ("sent_at", VDatetime (utcnow clk));
             ("read", VBool false)] in
          ins <- insert_one (notifications st) alert (next_id st) ;;
          let '(_, col, n) := ins in
          ret (jsonify (VDict [("success", VBool true);
                               ("message", VStr "Alert sent successfully")]) 201,
               set_notifications st col n))
  end.

(** [o.get("name") or o.get("email", "").split("@")[0].capitalize() or
    "Officer"]: the address is looked at only when there is no name. *)
Definition team_name (o : dict) : result value :=
  let name := opt_value (dict_get "name" o) in
  if truthy name then ret name
  else
    email <- as_str (dict_get_default "email" (VStr "") o) ;;
    ret (py_or (VStr (capitalize (nth 0 (split_char "@" email) "")))
               (VStr "Officer")).

(** One entry of the team list, for an officer other than the caller. *)
Definition team_entry (o : dict) : result value :=
  id <- subscript o "_id" ;;
  name <- team_name o ;;
  ret (VDict [("id", VStr (py_str id));
              ("name", name);
              ("email", dict_get_default "email" (VStr "N/A") o);
              ("status", dict_get_default "status" (VStr "Offline") o);
              ("photo",
               py_or (opt_value (dict_get "photo" o))
                     (VStr "https://cdn-icons-png.flaticon.com/512/149/149071.png"))]).

(** The loop [for o in officers] of [get_team_officers]. *)
Fixpoint team_of (user_id : value) (officers : list dict) : result (list value) :=
  match officers with
  | [] => ret []
  | o :: rest =>
      id <- subscript o "_id" ;;
      if value_eqb (VStr (py_str id)) user_id then team_of user_id rest
      else
        entry <- team_entry o ;;
        team <- team_of user_id rest ;;
        ret (entry :: team)
  end.

Definition get_team_officers (st : store) (clk : clock) (req : request)
  : response :=
  let payload := officer_verify_token clk req in
  match payload with
  | None => jsonify (error_body "Unauthorized") 401
  | Some p =>
    if no_payload payload then jsonify (error_body "Unauthorized") 401
    else
      let user_id := opt_value (dict_get "user_id" p) in
      let officers := find (users st) [("role", VStr "officer")] in
      match team_of user_id officers with
      | inl e => Unhandled e
      | inr team => jsonify (VList team) 200
      end
  end.

(** [fs.delete(file_id)] *)
Variable fs_delete : gridfs -> value -> result gridfs.

Definition delete_evidence (st : store) (fs : option gridfs) (clk : clock)
    (req : request) (evidence_id : string) : response * store * option gridfs :=
  let payload := officer_verify_token clk req in
  match payload with
  | None => (jsonify (error_body "Unauthorized") 401, st, fs)
  | Some p =>
    if no_payload payload then (jsonify (error_body "Unauthorized") 401, st, fs)
    else
      match to_ObjectId evidence_id with
      | inl _ => (jsonify (error_body "Invalid evidence ID") 400, st, fs)
      | inr oid =>
          let q := [("_id", VObjectId oid)] in
          match find_one (evidence st) q with
          | Some ((_ :: _) as ev) =>
              let officer_id := dict_get "user_id" p in
              if negb (value_eqb (opt_value (dict_get "officer_id" ev))
                                 (opt_value officer_id))
              then (jsonify (error_body "Access denied") 403, st, fs)
              else
                let file_id := dict_get "file_id" ev in
                let fs' :=
                  match fs with
                  | Some g =>
                      if truthy_opt file_id then
                        match fs_delete g (opt_value file_id) with
                        | inr g' => Some g'
                        | inl _ => fs
                        end
                      else fs
                  | None => fs
                  end in
                (jsonify (VDict [("message", VStr "Evidence deleted successfully")]) 200,
                 set_evidence st (delete_one (evidence st) q) (next_id st), fs')
          | _ => (jsonify (error_body "Evidence not found") 404, st, fs)
          end
      end
  end.

(* ---------------------------------------------------------------- *)
(** *** routes/admin_routes.py: user update *)

Definition admin_user_allowed : list string :=
  ["first_name"; "last_name"; "email"; "role"; "badge_number"; "department";
   "password"].

(** The loop [for field in allowed] that builds [update_fields]. *)
Fixpoint admin_update_fields (allowed : list string) (data acc : dict)
  : result dict :=
  match allowed with
  | [] => ret acc
  | field :: rest =>
      match dict_get field data with
      | Some v =>
          if negb (value_eqb v (VStr "")) then
            if field =? "password" then
              pw <- as_str v ;;
              admin_update_fields rest data
                (dict_set "password_hash" (VStr (generate_password_hash pw)) acc)
            else admin_update_fields rest data (dict_set field v acc)
          else admin_update_fields rest data acc
      | None => admin_update_fields rest data acc
      end
  end.

Definition admin_routes_update_user (st : store) (clk : clock) (req : request)
    (user_id : string) : response * store :=
  match require_admin clk req with
  | None => (unauthorized_401, st)
  | Some admin =>
      let data := json_or_empty req in
      view st (
        update_fields <- admin_update_fields admin_user_allowed data [] ;;
        match update_fields with
        | [] => ret (jsonify (error_body "No fields to update") 400, st)
        | _ =>
            match to_ObjectId user_id with
            | inl _ => ret (jsonify (error_body "Invalid ID") 400, st)
            | inr oid =>
                let q := [("_id", VObjectId oid)] in
                let col := update_one (users st) q update_fields in
                let updated_user := find_one col q in
                let body :=
                  VDict [("message", VStr "User updated");
                         ("user",
                          Sanitizer.serialize_doc
                            (match updated_user with
                             | Some u => VDict u
                             | None => VNone
                             end))] in
                if has_ObjectId body
                then ret (jsonify (error_body "Invalid ID") 400,
                          set_users st col (next_id st))
                else ret (jsonify body 200, set_users st col (next_id st))
            end
        end)
  end.

(* ---------------------------------------------------------------- *)
(** *** Notions used in the statements *)

(** No stored user has an address equal to [e] up to case. *)
Definition email_unused (st : store) (e : string) : Prop :=
  forall u s, In u (users st) -> dict_get "email" u = Some (VStr s) ->
              lower s <> lower e.

(** The document [create_user] of models/user_model.py stores for a new
    account. *)
Definition new_user_doc (st : store) (clk : clock)
    (first_name last_name phone : value) (e pw role : string) : dict :=
  [("_id", VObjectId (new_ObjectId (next_id st)));
   ("first_name", first_name);
   ("last_name", last_name);
   ("email", VStr (lower e));
   ("phone", phone);
   ("password_hash", VStr (generate_password_hash pw));
   ("role", VStr role);
   ("created_at", VDatetime (utcnow clk));
   ("updated_at", VDatetime (utcnow clk))].

(** A file above the ceiling, and the entry it leaves in [errors]. *)
Definition oversized (file : file_storage) : bool :=
  (len (content file) >? max_file_size)%Z.

Definition too_large_message (file : file_storage) : string :=
  filename file ++ ": File too large (max 10MB)".

Definition named (file : file_storage) : Prop := filename file <> "".

(** The blob store accepts every write. *)
Definition fs_put_succeeds : Prop :=
  forall fs c name ctype t, exists id fs', fs_put fs c name ctype t = inr (id, fs').

(** A loop state moved behind results already collected. *)
Definition rebase (u : list value) (e : list string) (r : upload_state)
  : upload_state :=
  mkUpload (up_fs r) (up_evidence r) (up_next r)
           (u ++ uploaded_files r)%list (e ++ errors r)%list.

(** A token holds no space. *)
Definition space_free (s : string) : bool :=
  all_chars (fun c => negb (Ascii.eqb c " ")) s.

(** The claims [create_token] signs for the account registered on [st]. *)
Definition registration_claims (st : store) (clk : clock) (e role : string)
  : dict :=
  [("user_id", VStr (new_ObjectId (next_id st)));
   ("email", VStr (lower e));
   ("role", VStr role);
   ("exp", VInt (timestamp clk + 7 * 86400));
   ("iat", VInt (timestamp clk))].

(** An evidence record within the size ceiling. *)
Definition size_ok (ev : dict) : Prop :=
  exists z, dict_get "file_size" ev = Some (VInt z) /\ (z <= max_file_size)%Z.

(** The views of [officer_bp] modelled here, all behind the same token
    check. *)
Inductive officer_bp_endpoint : Type :=
| OfficerBp_create_fir
| OfficerBp_get_fir (fir_id : string)
| OfficerBp_update_fir (fir_id : string)
| OfficerBp_delete_fir (fir_id : string)
| OfficerBp_upload_evidence
| OfficerBp_delete_evidence (evidence_id : string)
| OfficerBp_view_case (case_id : string)
| OfficerBp_update_case (case_id : string)
| OfficerBp_send_alert
| OfficerBp_team.

Definition officer_bp_dispatch (ep : officer_bp_endpoint) (st : store)
    (fs : option gridfs) (clk : clock) (req : request)
  : response * store * option gridfs :=
  match ep with
  | OfficerBp_create_fir => (create_officer_fir st clk req, fs)
  | OfficerBp_get_fir fir_id => (get_officer_fir st clk req fir_id, st, fs)
  | OfficerBp_update_fir fir_id => (update_officer_fir st clk req fir_id, fs)
  | OfficerBp_delete_fir fir_id => (delete_officer_fir st clk req fir_id, fs)
  | OfficerBp_upload_evidence => upload_evidence st fs clk req
  | OfficerBp_delete_evidence evidence_id => delete_evidence st fs clk req evidence_id
  | OfficerBp_view_case case_id => (view_case_details st clk req case_id, st, fs)
  | OfficerBp_update_case case_id => (update_case_status st clk req case_id, fs)
  | OfficerBp_send_alert => (send_alert st clk req, fs)
  | OfficerBp_team => (get_team_officers st clk req, st, fs)
  end.

(** The user returned by a successful registration: the stored document
    through [to_str_id], less its hash. *)
Definition registered_user (st : store) (clk : clock)
    (first_name last_name phone : value) (e role : string) : dict :=
  [("first_name", Sanitizer.to_str_id_field Sanitizer.to_str_id first_name);
   ("last_name", Sanitizer.to_str_id_field Sanitizer.to_str_id last_name);
   ("email", VStr (lower e));
   ("phone", Sanitizer.to_str_id_field Sanitizer.to_str_id phone);
   ("role", VStr role);
   ("created_at", VDatetime (utcnow clk));
   ("updated_at", VDatetime (utcnow clk));
   ("_id", VStr (new_ObjectId (next_id st)))].

(* ================================================================== *)
(** * Properties *)
(* ================================================================== *)

(** A statement depends on the outside libraries it mentions and on no
    other. *)
Set Default Proof Using "Type".

(* ================================================================== *)
(** ** Mappings and collections *)
(* ================================================================== *)

Lemma value_eqb_VStr (x : value) (s : string) :
  value_eqb x (VStr s) = true -> x = VStr s.
Proof.
  destruct x; simpl; try discriminate.
  intros H. apply String.eqb_eq in H. now subst.
Qed.

Lemma value_eqb_VObjectId (x : value) (o : string) :
  value_eqb x (VObjectId o) = true -> x = VObjectId o.
Proof.
  destruct x; simpl; try discriminate.
  intros H. apply String.eqb_eq in H. now subst.
Qed.

Lemma value_eqb_VStr_refl (s : string) : value_eqb (VStr s) (VStr s) = true.
Proof. simpl. apply String.eqb_refl. Qed.

Lemma value_eqb_VStr_neq (s t : string) :
  s <> t -> value_eqb (VStr s) (VStr t) = false.
Proof. intros H. simpl. now apply String.eqb_neq. Qed.

Lemma truthy_VStr (s : string) : s <> "" -> truthy (VStr s) = true.
Proof. intros H. simpl. apply negb_true_iff. now apply String.eqb_neq. Qed.

Lemma dict_get_set_same (k : string) (v : value) (d : dict) :
  dict_get k (dict_set k v d) = Some v.
Proof.
  induction d as [|[k' v'] r IH]; simpl.
  - now rewrite String.eqb_refl.
  - destruct (k' =? k) eqn:E; simpl.
    + now rewrite String.eqb_refl.
    + now rewrite E.
Qed.

Lemma dict_get_set_other (k k' : string) (v : value) (d : dict) :
  (k' =? k) = false ->
  dict_get k (dict_set k' v d) = dict_get k d.
Proof.
  intros Hk. induction d as [|[k0 v0] r IH]; simpl.
  - now rewrite Hk.
  - destruct (k0 =? k') eqn:E; simpl.
    + apply String.eqb_eq in E. subst k0. now rewrite Hk.
    + destruct (k0 =? k); [reflexivity|exact IH].
Qed.

Lemma dict_get_Some_nonempty (k : string) (d : dict) (v : value) :
  dict_get k d = Some v -> d <> [].
Proof. destruct d; [discriminate|discriminate]. Qed.

Lemma dict_get_contains (k : string) (d : dict) (v : value) :
  dict_get k d = Some v -> dict_contains k d = true.
Proof.
  unfold dict_contains. induction d as [|[k' v'] r IH]; simpl; [discriminate|].
  destruct (k' =? k); simpl; auto.
Qed.

Lemma no_payload_with_field (k : string) (claims : dict) (v : value) :
  dict_get k claims = Some v -> no_payload (Some claims) = false.
Proof. destruct claims; [discriminate|reflexivity]. Qed.

Lemma find_one_matches (col : list dict) (q d : dict) :
  find_one col q = Some d -> matches q d = true /\ In d col.
Proof.
  unfold find_one. intros H. apply find_some in H. destruct H as [H1 H2]. split; assumption.
Qed.

(** A document found by its [_id] holds that id. *)
Lemma find_one_by_id (col : list dict) (x : value) (d : dict) :
  find_one col [("_id", x)] = Some d ->
  exists y, dict_get "_id" d = Some y /\ value_eqb y x = true.
Proof.
  intros H. apply find_one_matches in H as [H _].
  unfold matches in H. simpl in H.
  destruct (dict_get "_id" d) as [y|]; [|discriminate].
  exists y. split; [reflexivity|]. now rewrite andb_true_r in H.
Qed.

Lemma find_one_app_None (col : list dict) (q d : dict) :
  find_one col q = None ->
  find_one (col ++ [d]) q = if matches q d then Some d else None.
Proof.
  unfold find_one. induction col as [|c r IH]; simpl; [reflexivity|].
  destruct (matches q c); [discriminate|]. exact IH.
Qed.

Lemma find_one_None_forall (col : list dict) (q : dict) :
  find_one col q = None <-> Forall (fun d => matches q d = false) col.
Proof.
  unfold find_one. induction col as [|c r IH]; simpl.
  - split; auto.
  - destruct (matches q c) eqn:E.
    + split; [discriminate|]. intros H. inversion H; congruence.
    + rewrite IH. split; intros H; [now constructor|now inversion H].
Qed.

(* ================================================================== *)
(** ** Token verification and the admin guards *)
(* ================================================================== *)

(** Whatever PyJWT raises, the helpers answer [None]. *)
Lemma verify_token_None_on_error (clk : clock) (req : request) (err : jwt_error) :
  jwt_decode (bearer_token (authorization req)) secret_key (timestamp clk)
  = inl err ->
  verify_token clk req = None /\ officer_verify_token clk req = None.
Proof.
  intros H. unfold verify_token, officer_verify_token.
  destruct (startswith "Bearer " (authorization req)); simpl; [|easy].
  rewrite H. now destruct err.
Qed.

Lemma verify_token_None_without_bearer (clk : clock) (req : request) :
  startswith "Bearer " (authorization req) = false ->
  verify_token clk req = None /\ officer_verify_token clk req = None.
Proof.
  intros H. unfold verify_token, officer_verify_token. now rewrite H.
Qed.

(** A token accepted by [verify_token] decoded without error: the helper
    is total and its only outcomes are the claims or [None]. *)
Lemma verify_token_Some (clk : clock) (req : request) (claims : dict) :
  verify_token clk req = Some claims ->
  jwt_decode (bearer_token (authorization req)) secret_key (timestamp clk)
  = inr claims.
Proof.
  unfold verify_token.
  destruct (startswith "Bearer " (authorization req)); simpl; [|discriminate].
  destruct (jwt_decode _ _ _) as [[]|p]; congruence.
Qed.

Lemma jwt_decode_expired (token : string) (claims : dict) (e now : Z) :
  jwt_payload token = Some claims ->
  dict_get "exp" claims = Some (VInt e) ->
  (e <= now)%Z ->
  jwt_decode token secret_key now
  = inl (if jwt_signature_ok token secret_key
         then ExpiredSignatureError else InvalidSignatureError).
Proof.
  intros Hp He Hle. unfold jwt_decode. rewrite Hp.
  destruct (jwt_signature_ok token secret_key); simpl; [|reflexivity].
  rewrite He. apply Z.leb_le in Hle. now rewrite Hle.
Qed.


Lemma require_admin_refuses (clk : clock) (req : request) :
  not_authenticated clk req \/ authenticated_non_admin clk req ->
  require_admin clk req = None /\ admin_required clk req = None.
Proof.
  unfold not_authenticated, authenticated_non_admin, require_admin, admin_required.
  intros [H|(c & Hv & Hp & Hr)].
  - destruct (verify_token clk req) as [u|]; [|easy]. now rewrite H.
  - rewrite Hv, Hp, Hr. easy.
Qed.

Lemma require_admin_accepts (clk : clock) (req : request) (admin : dict) :
  require_admin clk req = Some admin ->
  verify_token clk req = Some admin
  /\ value_eqb (opt_value (dict_get "role" admin)) (VStr "admin") = true.
Proof.
  unfold require_admin. destruct (verify_token clk req) as [u|]; [|discriminate].
  destruct (no_payload (Some u)); simpl; [discriminate|].
  destruct (value_eqb _ _) eqn:E; simpl; [|discriminate].
  intros H. inversion H; subst. auto.
Qed.


(* ================================================================== *)
(** ** Reading cases *)
(* ================================================================== *)

(** C2 (amended): the case-read views check neither the caller nor the
    owner.  For every stored case and every request, whatever credentials
    it carries, [get_case] answers 200 with the case document, and
    [view_complaints] answers 200 with the cases of the citizen id given in
    the path. *)
Theorem C2_case_reads_unguarded
    (st : store) (req : request) (case_id oid : string) (case : dict) :
  ObjectId case_id = Some oid ->
  find_one (cases st) [("_id", VObjectId oid)] = Some case ->
  case_routes_get_case st req case_id
  = Response (Sanitizer.to_str_id (VDict case)) 200
  /\ forall citizen_id cid,
       ObjectId citizen_id = Some cid ->
       view_complaints st req citizen_id
       = Response
           (VList (map (fun c => Sanitizer.to_str_id (VDict c))
                       (find (cases st) [("citizen_id", VObjectId cid)])))
           200.
Proof.
  intros Hid Hfind. split.
  - unfold case_routes_get_case, to_ObjectId. rewrite Hid. simpl.
    rewrite Hfind.
    destruct (find_one_by_id _ _ _ Hfind) as (y & Hy & _).
    destruct case; [discriminate|reflexivity].
  - intros citizen_id cid Hc.
    unfold view_complaints, get_cases_by_citizen, to_ObjectId.
    now rewrite Hc.
Qed.

(* ================================================================== *)
(** ** Officer FIRs: ownership *)
(* ================================================================== *)

Lemma dict_get_update_other (k : string) (u d : dict) :
  ~ In k (dict_keys u) ->
  dict_get k (dict_update u d) = dict_get k d.
Proof.
  unfold dict_update. revert d.
  induction u as [|[k' v] r IH]; intros d Hk; simpl; [reflexivity|].
  simpl in Hk. rewrite IH by (intros H; apply Hk; right; exact H).
  apply dict_get_set_other. apply String.eqb_neq. intros E. apply Hk. left. exact E.
Qed.

Lemma dict_set_absent (k : string) (v : value) (d : dict) :
  ~ In k (dict_keys d) -> dict_set k v d = (d ++ [(k, v)])%list.
Proof.
  induction d as [|[k' v'] r IH]; intros Hk; simpl; [reflexivity|].
  simpl in Hk. destruct (k' =? k) eqn:E.
  - apply String.eqb_eq in E. exfalso. apply Hk. left. exact E.
  - rewrite IH by (intros H; apply Hk; right; exact H). reflexivity.
Qed.

Lemma dict_update_app (u1 u2 d : dict) :
  dict_update (u1 ++ u2)%list d = dict_update u2 (dict_update u1 d).
Proof. unfold dict_update. apply fold_left_app. Qed.

Lemma fir_update_fields_keys (data : dict) (k : string) :
  In k (dict_keys (fir_update_fields data)) -> In k fir_allowed_fields.
Proof.
  unfold dict_keys, fir_update_fields. intros H.
  apply in_map_iff in H as ([k' v] & Hk & Hin). simpl in Hk. subst k'.
  apply filter_In in Hin as [_ Hin]. cbn [fst snd] in Hin.
  apply andb_prop in Hin as [Hin _].
  apply existsb_exists in Hin as (a & Ha & E).
  apply String.eqb_eq in E. now subst.
Qed.

Lemma fir_update_keeps (k : string) (now : datetime) (data fir : dict) :
  ~ In k ("updated_at" :: fir_allowed_fields) ->
  dict_get k (dict_update (dict_set "updated_at" (VDatetime now)
                             (fir_update_fields data)) fir)
  = dict_get k fir.
Proof.
  intros Hk.
  assert (Hu : ~ In "updated_at" (dict_keys (fir_update_fields data))).
  { intros H. apply fir_update_fields_keys in H. simpl in H.
    repeat (destruct H as [H|H]; [discriminate|]). exact H. }
  rewrite (dict_set_absent _ _ _ Hu), dict_update_app.
  unfold dict_update at 1. simpl fold_left.
  rewrite dict_get_set_other.
  - apply dict_get_update_other. intros H.
    apply fir_update_fields_keys in H. apply Hk. now right.
  - apply String.eqb_neq. intros E. apply Hk. now left.
Qed.

Lemma fir_update_stamps (now : datetime) (data fir : dict) :
  dict_get "updated_at"
    (dict_update (dict_set "updated_at" (VDatetime now)
                    (fir_update_fields data)) fir)
  = Some (VDatetime now).
Proof.
  assert (Hu : ~ In "updated_at" (dict_keys (fir_update_fields data))).
  { intros H. apply fir_update_fields_keys in H. simpl in H.
    repeat (destruct H as [H|H]; [discriminate|]). exact H. }
  rewrite (dict_set_absent _ _ _ Hu), dict_update_app.
  unfold dict_update at 1. simpl fold_left.
  apply dict_get_set_same.
Qed.

Lemma matches_by_id (x : value) (d d' : dict) :
  dict_get "_id" d' = dict_get "_id" d ->
  matches [("_id", x)] d' = matches [("_id", x)] d.
Proof. intros H. unfold matches. simpl. now rewrite H. Qed.

Lemma find_one_update_one (col : list dict) (x : value) (u fir : dict) :
  (forall d, dict_get "_id" (dict_update u d) = dict_get "_id" d) ->
  find_one col [("_id", x)] = Some fir ->
  find_one (update_one col [("_id", x)] u) [("_id", x)]
  = Some (dict_update u fir).
Proof.
  intros Hu. unfold find_one.
  induction col as [|c r IH]; cbn [List.find update_one]; [discriminate|].
  destruct (matches [("_id", x)] c) eqn:E; cbn [List.find].
  - intros H. injection H as <-.
    now rewrite (matches_by_id x c _ (Hu c)), E.
  - rewrite E. exact IH.
Qed.


(* ================================================================== *)
(** ** Officer FIRs: creation *)
(* ================================================================== *)

Lemma OfficerFIR_defaults (clk : clock) (kwargs : dict) :
  dict_get "priority" kwargs = None ->
  dict_get "status" kwargs = None ->
  dict_get "priority" (OfficerFIR clk kwargs) = Some (VStr "High")
  /\ dict_get "status" (OfficerFIR clk kwargs) = Some (VStr "Open").
Proof.
  intros Hp Hs. unfold OfficerFIR, OfficerFIR_fields.
  cbn [flat_map fst snd]. rewrite Hp, Hs.
  destruct (dict_get "title" kwargs), (dict_get "category" kwargs),
    (dict_get "suspect_name" kwargs), (dict_get "contact" kwargs),
    (dict_get "location" kwargs), (dict_get "description" kwargs),
    (dict_get "officer" kwargs); split; reflexivity.
Qed.

(** C6 (amended): the defaults "High" and "Open" are those declared by the
    [OfficerFIR] document class, which the creation endpoint does not use.
    Every FIR stored by [create_officer_fir] has status "Pending", whatever
    the request says, and the priority given in the request, or "Normal"
    when the request gives none. *)
Theorem C6_created_fir_status_priority
    (st st' : store) (clk : clock) (req : request) (body : value) :
  create_officer_fir st clk req = (Response body 201, st') ->
  (exists fir,
      officer_firs st' = (officer_firs st ++ [fir])%list
      /\ dict_get "status" fir = Some (VStr "Pending")
      /\ dict_get "priority" fir
         = Some (dict_get_default "priority" (VStr "Normal") (json_or_empty req))
      /\ (dict_get "priority" (json_or_empty req) = None ->
          dict_get "priority" fir = Some (VStr "Normal")))
  /\ (forall kwargs,
         dict_get "priority" kwargs = None ->
         dict_get "status" kwargs = None ->
         dict_get "priority" (OfficerFIR clk kwargs) = Some (VStr "High")
         /\ dict_get "status" (OfficerFIR clk kwargs) = Some (VStr "Open")).
Proof.
  intros H. split; [|apply OfficerFIR_defaults].
  unfold create_officer_fir in H.
  destruct (officer_verify_token clk req) as [p|]; [|discriminate].
  destruct (no_payload (Some p)); [discriminate|].
  unfold view, subscript in H.
  destruct (ObjectId_of_value st (dict_get "user_id" p)) as [e|oid];
    cbn [bind ret raise negb] in H; [discriminate|].
  destruct (find_one (users st) _) as [[|kv officer]|];
    cbn [bind ret raise negb] in H; try discriminate.
  destruct (forallb _ fir_required_fields);
    cbn [bind ret raise negb] in H; [|discriminate].
  destruct (dict_get "title" (json_or_empty req));
    cbn [bind ret raise] in H; [|discriminate].
  destruct (dict_get "category" (json_or_empty req));
    cbn [bind ret raise] in H; [|discriminate].
  destruct (dict_get "complainant_name" (json_or_empty req));
    cbn [bind ret raise] in H; [|discriminate].
  destruct (dict_get "contact" (json_or_empty req));
    cbn [bind ret raise] in H; [|discriminate].
  destruct (dict_get "location" (json_or_empty req));
    cbn [bind ret raise] in H; [|discriminate].
  destruct (dict_get "description" (json_or_empty req));
    cbn [bind ret raise] in H; [|discriminate].
  unfold insert_one in H. cbn in H.
  injection H as _ <-.
  eexists. split; [reflexivity|].
  split; [reflexivity|]. split; [reflexivity|].
  intros Hp. cbn. unfold dict_get_default. now rewrite Hp.
Qed.

(* ================================================================== *)
(** ** Registration and login *)
(* ================================================================== *)

Lemma lower_ascii_idem (c : ascii) : lower_ascii (lower_ascii c) = lower_ascii c.
Proof.
  unfold lower_ascii. destruct (is_upper c) eqn:E; [|now rewrite E].
  unfold is_upper in *. rewrite nat_ascii_embedding.
  - apply andb_prop in E as [E1 E2].
    apply Nat.leb_le in E1. apply Nat.leb_le in E2.
    replace ((nat_of_ascii c + 32 <=? 90)%nat) with false
      by (symmetry; apply Nat.leb_gt; lia).
    now rewrite andb_false_r.
  - apply andb_prop in E as [E1 E2]. apply Nat.leb_le in E2. lia.
Qed.

Lemma lower_idem (s : string) : lower (lower s) = lower s.
Proof.
  induction s as [|c r IH]; simpl; [reflexivity|].
  now rewrite lower_ascii_idem, IH.
Qed.

Lemma lower_ascii_changes_upper (c : ascii) :
  is_upper c = true -> lower_ascii c <> c.
Proof.
  intros E H. unfold lower_ascii in H. rewrite E in H.
  apply (f_equal nat_of_ascii) in H.
  unfold is_upper in E. apply andb_prop in E as [E1 E2].
  apply Nat.leb_le in E1. apply Nat.leb_le in E2.
  rewrite nat_ascii_embedding in H; lia.
Qed.

(** An address with an upper-case letter is not its own lower-case form. *)
Lemma lower_changes_upper (s : string) : has_upper s = true -> lower s <> s.
Proof.
  induction s as [|c r IH]; simpl; [discriminate|].
  intros H E. injection E as Ec Er.
  apply orb_prop in H as [H|H].
  - now apply (lower_ascii_changes_upper c).
  - now apply IH.
Qed.

Lemma has_upper_nonempty (s : string) : has_upper s = true -> s <> "".
Proof. destruct s; [discriminate|discriminate]. Qed.

Lemma lower_empty (s : string) : lower s = "" -> s = "".
Proof. destruct s; [reflexivity|discriminate]. Qed.

Lemma email_unused_no_match (st : store) (e e' : string) (rest : dict) :
  email_unused st e -> lower e' = lower e ->
  find_one (users st) (("email", VStr e') :: rest) = None.
Proof.
  intros Hfree He. apply find_one_None_forall. apply Forall_forall.
  intros u Hu. unfold matches. cbn [forallb fst snd].
  destruct (dict_get "email" u) as [x|] eqn:Ex; [|reflexivity].
  destruct (value_eqb x (VStr e')) eqn:Eeq; [|reflexivity].
  apply value_eqb_VStr in Eeq. subst x.
  now destruct (Hfree u e' Hu Ex).
Qed.

(** The registration path refuses an address it already holds and leaves
    the store as it was. *)
Lemma registration_rejects_duplicate
    (st : store) (clk : clock) (e : string) (u : dict)
    (first_name last_name phone password role : value) :
  find_one (users st) [("email", VStr (lower e))] = Some u ->
  user_model_create_user st clk first_name last_name (VStr e) phone password role
  = ret (VDict [("error", VStr "Email already registered")], st).
Proof.
  intros H. unfold user_model_create_user. cbn [as_str bind ret].
  now rewrite H.
Qed.

Lemma registration_stores_lowercase
    (st : store) (clk : clock) (data : dict) (role e pw : string)
    (first_name last_name phone : value) :
  dict_get "first_name" data = Some first_name -> truthy first_name = true ->
  dict_get "last_name" data = Some last_name -> truthy last_name = true ->
  dict_get "phone" data = Some phone -> truthy phone = true ->
  dict_get "email" data = Some (VStr e) -> e <> "" ->
  dict_get "password" data = Some (VStr pw) -> pw <> "" ->
  find_one (users st) [("email", VStr (lower e))] = None ->
  exists body,
    handle_registration st clk data role
    = (Response body 201,
       set_users st
         (users st ++ [new_user_doc st clk first_name last_name phone e pw role])
         (S (next_id st))).
Proof.
  intros Hfn Tfn Hln Tln Hph Tph He Te Hpw Tpw Hnew.
  unfold handle_registration, registration_required.
  cbn [filter].
  rewrite (dict_get_contains _ _ _ Hfn), (dict_get_contains _ _ _ Hln),
    (dict_get_contains _ _ _ He), (dict_get_contains _ _ _ Hph),
    (dict_get_contains _ _ _ Hpw).
  rewrite Hfn, Hln, He, Hph, Hpw. cbn [truthy_opt].
  rewrite Tfn, Tln, Tph, (truthy_VStr _ Te), (truthy_VStr _ Tpw).
  cbn [negb orb]. unfold subscript. rewrite Hfn, Hln, He, Hph, Hpw.
  cbn [bind ret]. unfold user_model_create_user. cbn [as_str bind ret].
  rewrite Hnew. cbn [as_str bind ret]. unfold insert_one. cbn.
  eexists. reflexivity.
Qed.

(** C10: registration stores the address in lower case and login looks it
    up as typed.  Let a user register with an address [e] that has an
    upper-case letter and is not yet held, in any spelling, by a stored
    user.  A login with any spelling [e'] of that address, the right
    password and the right role is answered 404 "No <role> account found
    for this email" unless [e'] is the lower-case form, and 200 when it is;
    [e] itself is not the lower-case form. *)
Theorem C10_login_email_case_sensitive
    (st : store) (clk : clock) (data : dict) (role e pw : string)
    (first_name last_name phone : value) :
  (forall p, check_password_hash (generate_password_hash p) p = true) ->
  dict_get "first_name" data = Some first_name -> truthy first_name = true ->
  dict_get "last_name" data = Some last_name -> truthy last_name = true ->
  dict_get "phone" data = Some phone -> truthy phone = true ->
  dict_get "email" data = Some (VStr e) ->
  dict_get "password" data = Some (VStr pw) -> pw <> "" ->
  role <> "" ->
  has_upper e = true ->
  email_unused st e ->
  exists body st',
    handle_registration st clk data role = (Response body 201, st')
    /\ lower e <> e
    /\ forall (clk' : clock) (req : request) (e' : string),
         lower e' = lower e ->
         dict_get "email" (json_or_empty req) = Some (VStr e') ->
         dict_get "password" (json_or_empty req) = Some (VStr pw) ->
         dict_get "role" (json_or_empty req) = Some (VStr role) ->
         (e' <> lower e ->
          login st' clk' req
          = Response (error_body ("No " ++ role
                                  ++ " account found for this email")) 404)
         /\ (e' = lower e -> status_of (login st' clk' req) = Some 200).
Proof.
  intros Hcheck Hfn Tfn Hln Tln Hph Tph He Hpw Tpw Trole Hup Hfree.
  pose proof (has_upper_nonempty _ Hup) as Te.
  assert (Hnew : find_one (users st) [("email", VStr (lower e))] = None).
  { apply email_unused_no_match with (e := e); [exact Hfree|apply lower_idem]. }
  destruct (registration_stores_lowercase st clk data role e pw _ _ _
              Hfn Tfn Hln Tln Hph Tph He Te Hpw Tpw Hnew) as [body Hreg].
  eexists body, _. split; [exact Hreg|].
  split; [now apply lower_changes_upper|].
  intros clk' req e' Hsame Hemail Hpass Hrole.
  assert (Te' : e' <> "").
  { intros ->. simpl in Hsame. symmetry in Hsame. apply lower_empty in Hsame.
    contradiction. }
  assert (Hfind :
    find_one (users st ++ [new_user_doc st clk first_name last_name phone e pw role])
             [("email", VStr e'); ("role", VStr role)]
    = if lower e =? e'
      then Some (new_user_doc st clk first_name last_name phone e pw role)
      else None).
  { rewrite find_one_app_None
      by (apply email_unused_no_match with (e := e); assumption).
    unfold matches, new_user_doc. cbn [forallb fst snd dict_get].
    cbn. rewrite String.eqb_refl. now rewrite !andb_true_r. }
  unfold login. rewrite Hemail, Hpass, Hrole. cbn [truthy_opt opt_value].
  rewrite (truthy_VStr _ Te'), (truthy_VStr _ Tpw), (truthy_VStr _ Trole).
  cbn [negb orb users set_users]. rewrite Hfind.
  split.
  - intros Hne.
    assert (E : (lower e =? e') = false) by (apply String.eqb_neq; congruence).
    rewrite E. reflexivity.
  - intros ->. rewrite String.eqb_refl.
    unfold new_user_doc, subscript. cbn [dict_get String.eqb Ascii.eqb Bool.eqb].
    cbn. rewrite Hcheck. reflexivity.
Qed.

(* ================================================================== *)
(** ** Evidence upload *)
(* ================================================================== *)

Section UploadLoop.

Variables (clk : clock) (payload : dict) (case_id fir_id notes : string)
          (officer_id : value).

Local Abbreviation step := (upload_one clk payload case_id fir_id notes officer_id).
Local Abbreviation loop := (upload_all clk payload case_id fir_id notes officer_id).

Lemma upload_one_oversized (s : upload_state) (f : file_storage) :
  named f -> oversized f = true ->
  step s f = add_error s (too_large_message f).
Proof.
  intros Hn Ho. unfold upload_one. rewrite (truthy_VStr _ Hn). cbn [negb].
  unfold oversized in Ho. now rewrite Ho.
Qed.

Lemma upload_one_frame (fs : option gridfs) (ev : list dict) (n : nat)
    (u : list value) (e : list string) (f : file_storage) :
  step (mkUpload fs ev n u e) f = rebase u e (step (mkUpload fs ev n [] []) f).
Proof.
  unfold upload_one, rebase, add_error. cbn [up_fs up_evidence up_next uploaded_files errors].
  destruct (negb (truthy (VStr (filename f)))); cbn [up_fs up_evidence up_next uploaded_files errors];
    [now rewrite !app_nil_r|].
  destruct (len (content f) >? max_file_size)%Z; cbn [up_fs up_evidence up_next uploaded_files errors];
    [now rewrite !app_nil_r|].
  destruct fs as [g|]; cbn [up_fs up_evidence up_next uploaded_files errors];
    [|now rewrite !app_nil_r].
  destruct (fs_put g _ _ _ _) as [err|[file_id g']];
    cbn [up_fs up_evidence up_next uploaded_files errors];
    [now rewrite !app_nil_r|].
  destruct (optional_ObjectId case_id) as [err|cid]; cbn [bind];
    cbn [up_fs up_evidence up_next uploaded_files errors];
    [now rewrite !app_nil_r|].
  destruct (optional_ObjectId fir_id) as [err|fid]; cbn [bind];
    cbn [up_fs up_evidence up_next uploaded_files errors];
    [now rewrite !app_nil_r|].
  destruct (insert_one ev _ n) as [err|[[evidence_id col] m]];
    cbn [up_fs up_evidence up_next uploaded_files errors];
    now rewrite !app_nil_r.
Qed.

Lemma rebase_rebase (u u' : list value) (e e' : list string) (r : upload_state) :
  rebase u e (rebase u' e' r) = rebase (u ++ u') (e ++ e') r.
Proof. unfold rebase. cbn. now rewrite !app_assoc. Qed.

Lemma upload_all_frame (files : list file_storage) :
  forall fs ev n u e,
    loop (mkUpload fs ev n u e) files
    = rebase u e (loop (mkUpload fs ev n [] []) files).
Proof.
  unfold upload_all.
  induction files as [|f r IH]; intros fs ev n u e; cbn [fold_left].
  - unfold rebase. cbn. now rewrite !app_nil_r.
  - rewrite upload_one_frame.
    destruct (step (mkUpload fs ev n [] []) f) as [fs1 ev1 n1 u1 e1].
    unfold rebase at 1. cbn [up_fs up_evidence up_next uploaded_files errors].
    rewrite (IH fs1 ev1 n1 (u ++ u1)%list (e ++ e1)%list).
    rewrite (IH fs1 ev1 n1 u1 e1).
    now rewrite rebase_rebase.
Qed.

(** A named file above the ceiling adds its entry to [errors] and nothing
    else: the files after it are handled as if it had not been in the
    batch. *)
Lemma upload_all_skips_oversized
    (s : upload_state) (l1 l2 : list file_storage) (f : file_storage) :
  named f -> oversized f = true ->
  let r := loop s (l1 ++ f :: l2) in
  let r0 := loop s (l1 ++ l2) in
  up_fs r = up_fs r0 /\ up_evidence r = up_evidence r0
  /\ up_next r = up_next r0 /\ uploaded_files r = uploaded_files r0
  /\ exists e1 e2,
       errors r0 = (e1 ++ e2)%list
       /\ errors r = (e1 ++ too_large_message f :: e2)%list.
Proof.
  intros Hn Ho. cbv zeta. unfold upload_all.
  rewrite !fold_left_app. cbn [fold_left].
  rewrite (upload_one_oversized _ _ Hn Ho).
  fold (loop s l1).
  destruct (loop s l1) as [fs1 ev1 n1 u1 e1].
  unfold add_error. cbn [up_fs up_evidence up_next uploaded_files errors].
  fold (loop (mkUpload fs1 ev1 n1 u1 (e1 ++ [too_large_message f])) l2).
  fold (loop (mkUpload fs1 ev1 n1 u1 e1) l2).
  rewrite (upload_all_frame l2 fs1 ev1 n1 u1 (e1 ++ [too_large_message f])).
  rewrite (upload_all_frame l2 fs1 ev1 n1 u1 e1).
  unfold rebase. cbn [up_fs up_evidence up_next uploaded_files errors].
  repeat split.
  exists e1, (errors (loop (mkUpload fs1 ev1 n1 [] []) l2)).
  split; [reflexivity|]. now rewrite <- app_assoc.
Qed.

(** Every stored record comes with an entry of [uploaded_files]. *)
Lemma upload_one_records (s : upload_state) (f : file_storage) :
  (uploaded_files (step s f) = uploaded_files s
   /\ up_evidence (step s f) = up_evidence s)
  \/ (exists x d, uploaded_files (step s f) = (uploaded_files s ++ [x])%list
                  /\ up_evidence (step s f) = (up_evidence s ++ [d])%list).
Proof.
  unfold upload_one, add_error.
  destruct (negb (truthy (VStr (filename f)))); [now left|].
  destruct (len (content f) >? max_file_size)%Z; [now left|].
  destruct (up_fs s) as [g|]; [|now left].
  destruct (fs_put g _ _ _ _) as [err|[file_id g']]; [now left|].
  cbn [up_fs up_evidence up_next uploaded_files errors].
  destruct (optional_ObjectId case_id) as [err|cid]; cbn [bind]; [now left|].
  destruct (optional_ObjectId fir_id) as [err|fid]; cbn [bind]; [now left|].
  unfold insert_one. cbn. right. eauto.
Qed.

Lemma upload_all_records (files : list file_storage) (s : upload_state) :
  exists xs ds,
    uploaded_files (loop s files) = (uploaded_files s ++ xs)%list
    /\ up_evidence (loop s files) = (up_evidence s ++ ds)%list
    /\ List.length xs = List.length ds.
Proof.
  unfold upload_all. revert s.
  induction files as [|f r IH]; intros s; cbn [fold_left].
  - exists [], []. now rewrite !app_nil_r.
  - destruct (IH (step s f)) as (xs & ds & Hx & Hd & Hl).
    destruct (upload_one_records s f) as [[Hu He]|(x & d & Hu & He)].
    + exists xs, ds. now rewrite Hx, Hd, Hu, He.
    + exists (x :: xs), (d :: ds).
      rewrite Hx, Hd, Hu, He, <- !app_assoc. cbn. now rewrite Hl.
Qed.

(** With a blob store that takes every write, the named files of a batch
    split into one error entry per file above the ceiling and one upload
    per other file. *)
Lemma upload_all_partition (cid fid : value) (files : list file_storage) :
  fs_put_succeeds ->
  optional_ObjectId case_id = inr cid ->
  optional_ObjectId fir_id = inr fid ->
  Forall named files ->
  forall s g,
    up_fs s = Some g ->
    let r := loop s files in
    errors r = (errors s ++ map too_large_message (filter oversized files))%list
    /\ List.length (uploaded_files r)
       = List.length (uploaded_files s)
         + List.length (filter (fun f => negb (oversized f)) files)
    /\ exists g', up_fs r = Some g'.
Proof.
  intros Hput Hc Hf Hnamed. unfold upload_all.
  induction Hnamed as [|f r Hn Hr IH]; intros s g Hg; cbn [fold_left filter map].
  - rewrite app_nil_r, Nat.add_0_r. eauto.
  - destruct (oversized f) eqn:Ho; cbn [negb].
    + rewrite (upload_one_oversized _ _ Hn Ho).
      destruct (IH (add_error s (too_large_message f)) g Hg) as (He & Hu & Hfs).
      cbn [map]. rewrite He, Hu. unfold add_error.
      cbn [errors uploaded_files]. rewrite <- app_assoc. eauto.
    + assert (Hstep : exists x d g',
                 step s f = mkUpload (Some g') (up_evidence s ++ [d])
                              (S (up_next s)) (uploaded_files s ++ [x]) (errors s)).
      { unfold upload_one. rewrite (truthy_VStr _ Hn). cbn [negb].
        unfold oversized in Ho. rewrite Ho, Hg.
        destruct (Hput g (content f) (secure_filename (filename f))
                    (content_type_or_default f) (utcnow clk))
          as (id & g' & Hp).
        rewrite Hp. cbn [up_fs up_evidence up_next uploaded_files errors].
        rewrite Hc, Hf. cbn [bind]. unfold insert_one. cbn. eauto. }
      destruct Hstep as (x & d & g' & Hstep). rewrite Hstep.
      destruct (IH (mkUpload (Some g') (up_evidence s ++ [d]) (S (up_next s))
                      (uploaded_files s ++ [x]) (errors s)) g' eq_refl)
        as (He & Hu & Hfs).
      rewrite He, Hu. cbn [errors uploaded_files length].
      rewrite length_app. cbn [length]. split; [reflexivity|]. split; [lia|exact Hfs].
Qed.

End UploadLoop.

Lemma filter_split_length {A} (p : A -> bool) (l : list A) :
  List.length (filter p l) + List.length (filter (fun x => negb (p x)) l)
  = List.length l.
Proof.
  induction l as [|a r IH]; cbn; [reflexivity|].
  destruct (p a); cbn; lia.
Qed.

Lemma upload_response_status (s : upload_state) :
  (uploaded_files s <> [] ->
   upload_response s
   = Response
       (VDict [("message",
                VStr ("Successfully uploaded "
                      ++ string_of_nat (List.length (uploaded_files s))
                      ++ " file(s)"));
               ("uploaded_files", VList (uploaded_files s));
               ("errors", match errors s with
                          | [] => VNone
                          | _ => str_list (errors s)
                          end)]) 201)
  /\ (uploaded_files s = [] ->
      upload_response s
      = Response (VDict [("error", VStr "No files uploaded");
                         ("errors", str_list (errors s))]) 400).
Proof.
  unfold upload_response. destruct (uploaded_files s); split; congruence.
Qed.

Lemma check_case_passed (st : store) (c : string) :
  check_case st c = None -> exists cid, optional_ObjectId c = inr cid.
Proof.
  unfold check_case, optional_ObjectId.
  destruct (truthy (VStr c)); [|eauto].
  destruct (to_ObjectId c); [discriminate|]. cbn. eauto.
Qed.

Lemma check_fir_passed (st : store) (c : string) (officer_id : value) :
  check_fir st c officer_id = None -> exists fid, optional_ObjectId c = inr fid.
Proof.
  unfold check_fir, optional_ObjectId.
  destruct (truthy (VStr c)); [|eauto].
  destruct (to_ObjectId c); [discriminate|]. cbn. eauto.
Qed.

(** The handler either returns before the loop, leaving the store as it
    was, or runs the loop over all the files and answers from its two
    lists. *)
Lemma upload_evidence_cases (st : store) (fs : option gridfs) (clk : clock)
    (req : request) :
  (exists r, upload_evidence st fs clk req = (r, st, fs)
             /\ status_of r <> Some 201)
  \/ (exists claims s,
        officer_verify_token clk req = Some claims
        /\ s = upload_all clk claims (strip (form_get req "case_id"))
                 (strip (form_get req "fir_id")) (strip (form_get req "notes"))
                 (opt_value (dict_get "user_id" claims))
                 (mkUpload fs (evidence st) (next_id st) [] [])
                 (files req)
        /\ check_case st (strip (form_get req "case_id")) = None
        /\ check_fir st (strip (form_get req "fir_id"))
             (opt_value (dict_get "user_id" claims)) = None
        /\ upload_evidence st fs clk req
           = (upload_response s,
              set_evidence st (up_evidence s) (up_next s), up_fs s)).
Proof.
  unfold upload_evidence.
  destruct (officer_verify_token clk req) as [p|];
    [|left; eexists; split; [reflexivity|discriminate]].
  destruct (no_payload (Some p));
    [left; eexists; split; [reflexivity|discriminate]|].
  destruct (negb (truthy_opt (dict_get "user_id" p)));
    [left; eexists; split; [reflexivity|discriminate]|].
  destruct (negb (truthy (VStr (strip (form_get req "case_id"))))
            && negb (truthy (VStr (strip (form_get req "fir_id")))));
    [left; eexists; split; [reflexivity|discriminate]|].
  destruct (files req) as [|f r] eqn:Ef;
    [left; eexists; split; [reflexivity|discriminate]|].
  destruct (check_case st _) as [resp|] eqn:Ec.
  { left. exists resp. split; [reflexivity|].
    unfold check_case in Ec.
    destruct (truthy _); [|discriminate].
    destruct (to_ObjectId _); [injection Ec as <-; discriminate|].
    destruct (find_one _ _) as [[|? ?]|]; try discriminate;
      injection Ec as <-; discriminate. }
  destruct (check_fir st _ _) as [resp|] eqn:Efir.
  { left. exists resp. split; [reflexivity|].
    unfold check_fir in Efir.
    destruct (truthy _); [|discriminate].
    destruct (to_ObjectId _); [injection Efir as <-; discriminate|].
    destruct (find_one _ _) as [[|? ?]|]; try discriminate;
      try (injection Efir as <-; discriminate).
    destruct (negb _); [|discriminate].
    injection Efir as <-. discriminate. }
  right. exists p. eexists. repeat split; try reflexivity; assumption.
Qed.


(* ================================================================== *)
(** ** More on mappings and collections *)
(* ================================================================== *)

Lemma dict_get_pop_same_in (k : string) (d : dict) :
  dict_get k (dict_pop k d) = None.
Proof.
  unfold dict_pop. induction d as [|[k' v] r IH]; simpl; [reflexivity|].
  destruct (k' =? k) eqn:E; simpl; [exact IH|]. now rewrite E.
Qed.

Lemma dict_get_map_values (k : string) (g : value -> value) (d : dict) :
  dict_get k (map (fun kv => (fst kv, g (snd kv))) d)
  = option_map g (dict_get k d).
Proof.
  induction d as [|[k' v] r IH]; simpl; [reflexivity|].
  destruct (k' =? k); [reflexivity|exact IH].
Qed.

Lemma dict_get_pop_other (k k' : string) (d : dict) :
  (k' =? k) = false -> dict_get k' (dict_pop k d) = dict_get k' d.
Proof.
  intros Hk. unfold dict_pop.
  induction d as [|[k0 v] r IH]; simpl; [reflexivity|].
  destruct (k0 =? k) eqn:E; simpl.
  - apply String.eqb_eq in E. subst k0.
    rewrite String.eqb_sym, Hk. exact IH.
  - destruct (k0 =? k'); [reflexivity|exact IH].
Qed.

Lemma dict_keys_map_values (g : value -> value) (d : dict) :
  dict_keys (map (fun kv => (fst kv, g (snd kv))) d) = dict_keys d.
Proof. unfold dict_keys. rewrite map_map. reflexivity. Qed.

Lemma dict_keys_pop (k : string) (d : dict) :
  dict_keys (dict_pop k d) = filter (fun k' => negb (k' =? k)) (dict_keys d).
Proof.
  unfold dict_keys, dict_pop.
  induction d as [|[k' v] r IH]; simpl; [reflexivity|].
  destruct (k' =? k); simpl; now rewrite IH.
Qed.

Lemma dict_get_None_keys (k : string) (d : dict) :
  dict_get k d = None -> ~ In k (dict_keys d).
Proof.
  induction d as [|[k' v] r IH]; cbn [dict_get dict_keys map In fst];
    [intros _ H; exact H|].
  destruct (k' =? k) eqn:E; [discriminate|].
  intros H [F|F].
  - apply String.eqb_neq in E. contradiction.
  - exact (IH H F).
Qed.

Lemma update_one_no_match (col : list dict) (q u : dict) :
  find_one col q = None -> update_one col q u = col.
Proof.
  unfold find_one. induction col as [|c r IH]; cbn [List.find update_one];
    [reflexivity|].
  destruct (matches q c); [discriminate|]. intros H. now rewrite IH.
Qed.

Lemma update_one_length (col : list dict) (q u : dict) :
  List.length (update_one col q u) = List.length col.
Proof.
  induction col as [|c r IH]; cbn [update_one]; [reflexivity|].
  destruct (matches q c); cbn [length]; [reflexivity|now rewrite IH].
Qed.

(** Position by position, an update leaves a document as it was or applies
    the [$set] to it. *)
Lemma update_one_nth (col : list dict) (q u : dict) (i : nat) (d' : dict) :
  nth_error (update_one col q u) i = Some d' ->
  exists d, nth_error col i = Some d /\ (d' = d \/ d' = dict_update u d).
Proof.
  revert i. induction col as [|c r IH]; intros i; cbn [update_one].
  - destruct i; discriminate.
  - destruct (matches q c).
    + destruct i as [|i]; cbn [nth_error]; intros H.
      * injection H as <-. eauto.
      * eauto.
    + destruct i as [|i]; cbn [nth_error]; intros H.
      * injection H as <-. eauto.
      * apply IH. exact H.
Qed.

Lemma delete_one_length (col : list dict) (q : dict) (d : dict) :
  find_one col q = Some d ->
  S (List.length (delete_one col q)) = List.length col.
Proof.
  unfold find_one. induction col as [|c r IH]; cbn [List.find delete_one];
    [discriminate|].
  destruct (matches q c); [reflexivity|].
  intros H. cbn [length]. now rewrite IH.
Qed.

Lemma delete_one_incl (col : list dict) (q : dict) (d : dict) :
  In d (delete_one col q) -> In d col.
Proof.
  induction col as [|c r IH]; cbn [delete_one]; [intros H; exact H|].
  destruct (matches q c); cbn [In]; [now right|].
  intros [H|H]; [now left|right; now apply IH].
Qed.

Lemma delete_one_keeps (col : list dict) (q : dict) (d : dict) :
  In d col -> matches q d = false -> In d (delete_one col q).
Proof.
  induction col as [|c r IH]; cbn [delete_one In]; [intros H _; exact H|].
  intros [->|H] Hm.
  - rewrite Hm. now left.
  - destruct (matches q c); [exact H|]. right. now apply IH.
Qed.


(* ================================================================== *)
(** ** Tokens: the header, issue and verification *)
(* ================================================================== *)

Lemma split_char_space_free (t : string) :
  space_free t = true -> split_char " " t = [t].
Proof.
  induction t as [|c r IH]; [reflexivity|].
  unfold space_free. cbn [all_chars]. intros H.
  apply andb_prop in H as [Hc Hr]. apply negb_true_iff in Hc.
  cbn [split_char]. rewrite Hc, (IH Hr). reflexivity.
Qed.

Lemma split_char_first_word (t rest : string) :
  space_free t = true ->
  split_char " " (t ++ " " ++ rest) = t :: split_char " " rest.
Proof.
  induction t as [|c r IH]; [reflexivity|].
  unfold space_free. cbn [all_chars]. intros H.
  apply andb_prop in H as [Hc Hr]. apply negb_true_iff in Hc.
  cbn [append split_char]. rewrite Hc.
  change (r ++ String " " rest) with (r ++ " " ++ rest).
  rewrite (IH Hr). reflexivity.
Qed.

Lemma startswith_append (p s : string) : startswith p (p ++ s) = true.
Proof.
  unfold startswith. induction p as [|a p IH]; [now destruct s|].
  cbn [append String.prefix]. destruct (ascii_dec a a) as [_|N]; [exact IH|].
  now destruct N.
Qed.

Lemma bearer_token_after_prefix (x : string) :
  bearer_token ("Bearer " ++ x) = nth 0 (split_char " " x) "".
Proof. reflexivity. Qed.

Lemma bearer_token_of (t : string) :
  space_free t = true ->
  bearer_token ("Bearer " ++ t) = t
  /\ forall rest, bearer_token ("Bearer " ++ t ++ " " ++ rest) = t.
Proof.
  intros H. split.
  - rewrite bearer_token_after_prefix, (split_char_space_free _ H). reflexivity.
  - intros rest.
    rewrite bearer_token_after_prefix, (split_char_first_word _ _ H). reflexivity.
Qed.

Lemma verify_token_of_header
    (clk : clock) (req : request) (t : string) :
  space_free t = true ->
  (authorization req = "Bearer " ++ t
   \/ exists rest, authorization req = "Bearer " ++ t ++ " " ++ rest) ->
  verify_token clk req
  = match jwt_decode t secret_key (timestamp clk) with
    | inr claims => Some claims
    | inl _ => None
    end.
Proof.
  intros Ht Hh. destruct (bearer_token_of t Ht) as [B1 B2].
  unfold verify_token.
  destruct Hh as [E|[rest E]]; rewrite E.
  - rewrite B1, startswith_append.
    cbn [negb]. destruct (jwt_decode _ _ _) as [[]|]; reflexivity.
  - rewrite B2, startswith_append.
    cbn [negb]. destruct (jwt_decode _ _ _) as [[]|]; reflexivity.
Qed.

(** X4: [verify_token] takes as token the text between the first and the
    second space of the header: for a token without a space, the headers
    "Bearer <token>" and "Bearer <token> <anything>" both give what
    [jwt.decode] gives on the token, claims or [None]. *)
Theorem verify_token_reads_second_word
    (clk : clock) (req : request) (t : string) :
  space_free t = true ->
  (authorization req = "Bearer " ++ t
   \/ exists rest, authorization req = "Bearer " ++ t ++ " " ++ rest) ->
  verify_token clk req
  = match jwt_decode t secret_key (timestamp clk) with
    | inr claims => Some claims
    | inl _ => None
    end.
Proof. intros Ht Hh. now apply verify_token_of_header. Qed.

Lemma registration_response
    (st : store) (clk : clock) (data : dict) (role e pw : string)
    (first_name last_name phone : value) :
  dict_get "first_name" data = Some first_name -> truthy first_name = true ->
  dict_get "last_name" data = Some last_name -> truthy last_name = true ->
  dict_get "phone" data = Some phone -> truthy phone = true ->
  dict_get "email" data = Some (VStr e) -> e <> "" ->
  dict_get "password" data = Some (VStr pw) -> pw <> "" ->
  find_one (users st) [("email", VStr (lower e))] = None ->
  handle_registration st clk data role
  = (Response
       (VDict [("message", VStr (capitalize role ++ " registered successfully"));
               ("user", VDict (registered_user st clk first_name last_name phone e role));
               ("token",
                VStr (jwt_encode (registration_claims st clk e role) secret_key))])
       201,
     set_users st
       (users st ++ [new_user_doc st clk first_name last_name phone e pw role])
       (S (next_id st))).
Proof.
  intros Hfn Tfn Hln Tln Hph Tph He Te Hpw Tpw Hnew.
  unfold handle_registration, registration_required.
  cbn [filter].
  rewrite (dict_get_contains _ _ _ Hfn), (dict_get_contains _ _ _ Hln),
    (dict_get_contains _ _ _ He), (dict_get_contains _ _ _ Hph),
    (dict_get_contains _ _ _ Hpw).
  rewrite Hfn, Hln, He, Hph, Hpw. cbn [truthy_opt].
  rewrite Tfn, Tln, Tph, (truthy_VStr _ Te), (truthy_VStr _ Tpw).
  cbn [negb orb]. unfold subscript. rewrite Hfn, Hln, He, Hph, Hpw.
  cbn [bind ret]. unfold user_model_create_user. cbn [as_str bind ret].
  rewrite Hnew. cbn [as_str bind ret]. unfold insert_one. cbn.
  reflexivity.
Qed.


(** X6: whatever the request, a registration that is answered 201 has
    stored one more user, whose document holds the hash of the posted
    password under ["password_hash"], no ["password"] field, the posted
    address in lower case and the role of the endpoint; the user in the
    response has no ["password_hash"] field. *)
Theorem registration_keeps_the_secret
    (st st' : store) (clk : clock) (data : dict) (role : string) (body : value) :
  handle_registration st clk data role = (Response body 201, st') ->
  exists (e pw : string) (doc user : dict) (token : string),
    dict_get "email" data = Some (VStr e)
    /\ dict_get "password" data = Some (VStr pw)
    /\ users st' = (users st ++ [doc])%list
    /\ dict_get "password_hash" doc = Some (VStr (generate_password_hash pw))
    /\ dict_get "password" doc = None
    /\ dict_get "email" doc = Some (VStr (lower e))
    /\ dict_get "role" doc = Some (VStr role)
    /\ body = VDict [("message", VStr (capitalize role ++ " registered successfully"));
                     ("user", VDict user);
                     ("token", VStr token)]
    /\ dict_get "password_hash" user = None.
Proof.
  intros H. unfold handle_registration in H.
  destruct (filter _ registration_required); [|discriminate].
  unfold view, subscript in H.
  destruct (dict_get "first_name" data) as [fn|]; cbn [bind ret raise] in H;
    [|discriminate].
  destruct (dict_get "last_name" data) as [ln|]; cbn [bind ret raise] in H;
    [|discriminate].
  destruct (dict_get "email" data) as [em|]; cbn [bind ret raise] in H;
    [|discriminate].
  destruct (dict_get "phone" data) as [ph|]; cbn [bind ret raise] in H;
    [|discriminate].
  destruct (dict_get "password" data) as [pwv|]; cbn [bind ret raise] in H;
    [|discriminate].
  unfold user_model_create_user in H.
  destruct em as [| | |e| | | |]; cbn [as_str bind ret raise] in H;
    try discriminate.
  destruct (find_one (users st) _); cbn [bind ret raise value_contains] in H.
  { cbn in H. discriminate. }
  destruct pwv as [| | |pw| | | |]; cbn [as_str bind ret raise] in H;
    try discriminate.
  unfold insert_one in H. cbn in H.
  injection H as <- <-.
  exists e, pw. do 3 eexists.
  repeat split; reflexivity.
Qed.

(* ================================================================== *)
(** ** Profiles, login and the admin user views *)
(* ================================================================== *)

(** X7: [get_profile] answers 200 only to a token that [jwt.decode]
    accepts and whose [user_id] is the id in the path or whose role is
    "admin"; the document it returns has no ["password_hash"] field. *)
Theorem get_profile_self_or_admin
    (st : store) (clk : clock) (req : request) (user_id : string) (body : value) :
  get_profile st clk req user_id = Response body 200 ->
  exists claims d,
    jwt_decode (bearer_token (authorization req)) secret_key (timestamp clk)
    = inr claims
    /\ (dict_get "user_id" claims = Some (VStr user_id)
        \/ dict_get "role" claims = Some (VStr "admin"))
    /\ body = VDict d
    /\ dict_get "password_hash" d = None.
Proof.
  unfold get_profile. intros H.
  destruct (negb (startswith "Bearer " (authorization req))); [discriminate|].
  destruct (jwt_decode _ _ _) as [[]|claims]; try discriminate.
  unfold subscript in H.
  destruct (dict_get "user_id" claims) as [uid|] eqn:Eu;
    cbn [bind ret raise] in H; [|discriminate].
  assert (Hauth : dict_get "user_id" claims = Some (VStr user_id)
                  \/ dict_get "role" claims = Some (VStr "admin")).
  { rewrite Eu. destruct (value_eqb uid (VStr user_id)) eqn:E.
    - left. apply value_eqb_VStr in E. now subst.
    - right. cbn [negb] in H.
      destruct (dict_get "role" claims) as [r|]; cbn [bind ret raise] in H;
        [|discriminate].
      destruct (value_eqb r (VStr "admin")) eqn:Er; cbn [negb] in H;
        [|discriminate].
      apply value_eqb_VStr in Er. now subst. }
  assert (Hrest : match get_user_by_id st user_id with
                  | inl e => Unhandled e
                  | inr (VDict ((_ :: _) as user)) =>
                      Response (VDict (dict_pop "password_hash" user)) 200
                  | inr _ => Response (error_body "User not found") 404
                  end = Response body 200).
  { destruct (negb (value_eqb uid (VStr user_id))).
    - destruct (dict_get "role" claims) as [r|]; cbn [bind ret raise] in H;
        [|discriminate].
      destruct (negb (value_eqb r (VStr "admin"))); [discriminate|exact H].
    - exact H. }
  clear H.
  destruct (get_user_by_id st user_id) as [e|[| | | | | | |[|kv r]]];
    try discriminate.
  injection Hrest as <-.
  exists claims, (dict_pop "password_hash" (kv :: r)).
  split; [reflexivity|]. split; [exact Hauth|]. split; [reflexivity|].
  apply dict_get_pop_same_in.
Qed.


(** X9: an admin creation answered 201 has stored one more user, whose
    document holds the hash of the posted password and the address exactly
    as posted; the user in the response has no ["password_hash"] field.
    Without a password the request is answered 400 and nothing is stored. *)
Theorem admin_create_user_hashes_password
    (st : store) (clk : clock) (req : request) :
  (forall body st',
      admin_routes_create_user st clk req = (Response body 201, st') ->
      exists (pw : string) (email : value) (doc user : dict),
        dict_get "password" (json_or_empty req) = Some (VStr pw)
        /\ dict_get "email" (json_or_empty req) = Some email
        /\ users st' = (users st ++ [doc])%list
        /\ dict_get "password_hash" doc = Some (VStr (generate_password_hash pw))
        /\ dict_get "password" doc = None
        /\ dict_get "email" doc = Some email
        /\ body = VDict [("message", VStr "User created successfully");
                         ("user", VDict user)]
        /\ dict_get "password_hash" user = None)
  /\ (forall admin email role,
         require_admin clk req = Some admin ->
         dict_get "email" (json_or_empty req) = Some email -> truthy email = true ->
         dict_get "role" (json_or_empty req) = Some role -> truthy role = true ->
         truthy_opt (dict_get "password" (json_or_empty req)) = false ->
         admin_routes_create_user st clk req
         = (Response (error_body "Password is required when creating a user") 400,
            st)).
Proof.
  split.
  - intros body st' H. unfold admin_routes_create_user in H.
    destruct (require_admin clk req); [|discriminate].
    destruct (negb (forallb _ ["email"; "role"])) eqn:Ereq; [discriminate|].
    apply negb_false_iff in Ereq. cbn [forallb] in Ereq.
    apply andb_prop in Ereq as [Eemail _].
    apply andb_prop in Eemail as [_ Eemail].
    destruct (dict_get "email" (json_or_empty req)) as [email|] eqn:Ee;
      [|discriminate].
    destruct (dict_get "password" (json_or_empty req)) as [pwv|];
      cbn [truthy_opt] in H; [|discriminate].
    destruct (truthy pwv); [|discriminate].
    unfold view in H. cbn [opt_value] in H.
    destruct pwv as [| | |pw| | | |]; cbn [as_str bind ret raise] in H;
      try discriminate.
    unfold insert_one in H. cbn in H.
    injection H as <- <-.
    exists pw, email. do 2 eexists.
    repeat split; reflexivity.
  - intros admin email role Ha He Te Hr Tr Hp.
    unfold admin_routes_create_user. rewrite Ha. cbn [forallb].
    rewrite (dict_get_contains _ _ _ He), (dict_get_contains _ _ _ Hr), He, Hr.
    cbn [truthy_opt]. rewrite Te, Tr. cbn [andb negb]. now rewrite Hp.
Qed.

(** The loop over the allowed fields never produces a ["password"] key. *)
Lemma admin_update_fields_no_password (data : dict) (allowed : list string) :
  forall acc u,
    admin_update_fields allowed data acc = inr u ->
    dict_get "password" acc = None ->
    dict_get "password" u = None.
Proof.
  induction allowed as [|field rest IH]; intros acc u H Hacc;
    cbn [admin_update_fields] in H.
  - injection H as <-. exact Hacc.
  - destruct (dict_get field data) as [v|]; [|now apply (IH acc)].
    destruct (negb (value_eqb v (VStr ""))); [|now apply (IH acc)].
    destruct (field =? "password") eqn:Ef.
    + destruct (as_str v) as [e|pw]; cbn [bind] in H; [discriminate|].
      apply (IH _ _ H). rewrite dict_get_set_other; [exact Hacc|reflexivity].
    + apply (IH _ _ H). rewrite dict_get_set_other; [exact Hacc|exact Ef].
Qed.

Lemma admin_update_fields_keeps_hash (data : dict) (allowed : list string)
    (pw : string) :
  dict_get "password" data = Some (VStr pw) ->
  ~ In "password_hash" allowed ->
  forall acc u,
    admin_update_fields allowed data acc = inr u ->
    dict_get "password_hash" acc = Some (VStr (generate_password_hash pw)) ->
    dict_get "password_hash" u = Some (VStr (generate_password_hash pw)).
Proof.
  intros Hpw. induction allowed as [|field rest IH]; intros Hnot acc u H Hacc;
    cbn [admin_update_fields] in H.
  - injection H as <-. exact Hacc.
  - assert (Hrest : ~ In "password_hash" rest) by (intros F; apply Hnot; now right).
    assert (Hfield : (field =? "password_hash") = false).
    { apply String.eqb_neq. intros ->. apply Hnot. now left. }
    destruct (dict_get field data) as [v|] eqn:Ev; [|now apply (IH Hrest acc)].
    destruct (negb (value_eqb v (VStr ""))); [|now apply (IH Hrest acc)].
    destruct (field =? "password") eqn:Ef.
    + apply String.eqb_eq in Ef. subst field. rewrite Hpw in Ev.
      injection Ev as <-. cbn [as_str bind ret] in H.
      apply (IH Hrest _ _ H). apply dict_get_set_same.
    + apply (IH Hrest _ _ H). rewrite dict_get_set_other; [exact Hacc|exact Hfield].
Qed.

Lemma admin_update_fields_hashes (data : dict) (pw : string) (u : dict) :
  dict_get "password" data = Some (VStr pw) -> pw <> "" ->
  admin_update_fields admin_user_allowed data [] = inr u ->
  dict_get "password_hash" u = Some (VStr (generate_password_hash pw)).
Proof.
  intros Hpw Tpw.
  assert (Hgen : forall allowed acc,
             ~ In "password_hash" allowed -> In "password" allowed ->
             admin_update_fields allowed data acc = inr u ->
             dict_get "password_hash" u = Some (VStr (generate_password_hash pw))).
  { induction allowed as [|field rest IH]; intros acc Hnot Hin H; [destruct Hin|].
    cbn [admin_update_fields] in H.
    assert (Hrest : ~ In "password_hash" rest) by (intros F; apply Hnot; now right).
    destruct (field =? "password") eqn:Ef.
    - apply String.eqb_eq in Ef. subst field. rewrite Hpw in H.
      assert (E : negb (value_eqb (VStr pw) (VStr "")) = true).
      { apply negb_true_iff. now apply value_eqb_VStr_neq. }
      rewrite E in H. cbn [as_str bind ret] in H.
      apply (admin_update_fields_keeps_hash data rest pw Hpw Hrest _ _ H).
      apply dict_get_set_same.
    - destruct Hin as [F|Hin]; [apply String.eqb_neq in Ef; congruence|].
      destruct (dict_get field data) as [v|]; [|now apply (IH acc)].
      destruct (negb (value_eqb v (VStr ""))); [|now apply (IH acc)].
      now apply (IH (dict_set field v acc)). }
  apply (Hgen admin_user_allowed []).
  - unfold admin_user_allowed. cbn [In].
    intros F. repeat (destruct F as [F|F]; [discriminate|]). exact F.
  - unfold admin_user_allowed. cbn [In]. auto 10.
Qed.

(** X10: an admin update never writes a ["password"] field: a user that
    has none before the request has none after it, whatever the request;
    a posted password reaches the store only as its hash.  For an id that no
    user has, the request is still answered 200, with a null user, and the
    users are left as they were. *)
Theorem admin_update_user_never_stores_password
    (st : store) (clk : clock) (req : request) (user_id : string) :
  (forall r st' i d d',
      admin_routes_update_user st clk req user_id = (r, st') ->
      nth_error (users st) i = Some d ->
      nth_error (users st') i = Some d' ->
      dict_get "password" d = None ->
      dict_get "password" d' = None)
  /\ (forall pw u,
         dict_get "password" (json_or_empty req) = Some (VStr pw) -> pw <> "" ->
         admin_update_fields admin_user_allowed (json_or_empty req) [] = inr u ->
         dict_get "password_hash" u = Some (VStr (generate_password_hash pw))
         /\ dict_get "password" u = None)
  /\ (forall admin u oid,
         require_admin clk req = Some admin ->
         admin_update_fields admin_user_allowed (json_or_empty req) [] = inr u ->
         u <> [] ->
         ObjectId user_id = Some oid ->
         find_one (users st) [("_id", VObjectId oid)] = None ->
         exists st',
           admin_routes_update_user st clk req user_id
           = (Response (VDict [("message", VStr "User updated");
                               ("user", VNone)]) 200, st')
           /\ users st' = users st).
Proof.
  split; [|split].
  - intros r st' i d d' H Hd Hd' Hnone.
    unfold admin_routes_update_user in H.
    destruct (require_admin clk req);
      [|injection H as _ <-; rewrite Hd in Hd'; now injection Hd' as <-].
    unfold view in H.
    destruct (admin_update_fields admin_user_allowed (json_or_empty req) [])
      as [e|u] eqn:Eu; cbn [bind] in H;
      [injection H as _ <-; rewrite Hd in Hd'; now injection Hd' as <-|].
    destruct u as [|f fs];
      [injection H as _ <-; rewrite Hd in Hd'; now injection Hd' as <-|].
    destruct (to_ObjectId user_id) as [e|oid];
      [injection H as _ <-; rewrite Hd in Hd'; now injection Hd' as <-|].
    destruct (has_ObjectId _) in H; cbn [ret] in H;
      injection H as _ <-; cbn [users set_users] in Hd';
      (destruct (update_one_nth _ _ _ _ _ Hd') as (dd & Hdd & [->| ->]);
       rewrite Hd in Hdd; injection Hdd as <-; [exact Hnone|];
       rewrite dict_get_update_other; [exact Hnone|];
       apply dict_get_None_keys;
       now apply (admin_update_fields_no_password _ _ _ _ Eu)).
  - intros pw u Hpw Tpw Hu. split.
    + now apply (admin_update_fields_hashes _ _ _ Hpw Tpw).
    + now apply (admin_update_fields_no_password _ _ _ _ Hu).
  - intros admin u oid Ha Hu Hne Hid Hfind.
    unfold admin_routes_update_user. rewrite Ha, Hu. unfold view. cbn [bind].
    destruct u as [|f fs]; [congruence|].
    unfold to_ObjectId. rewrite Hid. cbn [ret].
    rewrite (update_one_no_match _ _ _ Hfind), Hfind.
    eexists. split; reflexivity.
Qed.

(** X24: the user creation of the [admin_api] blueprint (app.py) stores
    the posted body as it is.  For an admin and a body with an email and a
    role and no [_id], the answer is 201 and both the stored document and
    the returned one give every posted field its posted value: a posted
    ["password"] is kept in the clear and no ["password_hash"] is
    computed. *)
Theorem admin_api_create_user_stores_the_body
    (st : store) (clk : clock) (req : request) (admin : dict) :
  admin_required clk req = Some admin ->
  dict_contains "email" (json_or_empty req) = true ->
  dict_contains "role" (json_or_empty req) = true ->
  dict_get "_id" (json_or_empty req) = None ->
  exists (doc body : dict) (st' : store),
    admin_create_user st clk req = (Response (VDict body) 201, st')
    /\ users st' = (users st ++ [doc])%list
    /\ forall k,
         ~ In k ["_id"; "created_at"; "updated_at"] ->
         dict_get k doc = dict_get k (json_or_empty req)
         /\ dict_get k body = dict_get k (json_or_empty req).
Proof.
  intros Ha He Hr Hid.
  unfold admin_create_user. rewrite Ha, He, Hr. cbn [negb orb].
  unfold view, insert_one.
  rewrite !dict_get_set_other by reflexivity. rewrite Hid. cbn [bind ret].
  do 3 eexists. split; [reflexivity|]. split; [reflexivity|].
  intros k Hk.
  assert (K0 : ("_id" =? k) = false)
    by (apply String.eqb_neq; intros <-; apply Hk; cbn [In]; auto).
  assert (K1 : ("created_at" =? k) = false)
    by (apply String.eqb_neq; intros <-; apply Hk; cbn [In]; auto).
  assert (K2 : ("updated_at" =? k) = false)
    by (apply String.eqb_neq; intros <-; apply Hk; cbn [In]; auto).
  split.
  - cbn [dict_get]. rewrite K0. now rewrite !dict_get_set_other.
  - now rewrite !dict_get_set_other.
Qed.

(* ================================================================== *)
(** ** The officer blueprint *)
(* ================================================================== *)

(** X11: every view of the officer blueprint answers 401 "Unauthorized" to
    a request whose token does not verify, and leaves the collections and
    the blob store as they were. *)
Theorem officer_views_need_a_token
    (ep : officer_bp_endpoint) (st : store) (fs : option gridfs)
    (clk : clock) (req : request) :
  no_payload (officer_verify_token clk req) = true ->
  officer_bp_dispatch ep st fs clk req
  = (Response (error_body "Unauthorized") 401, st, fs).
Proof.
  intros H.
  destruct ep; cbn [officer_bp_dispatch];
    unfold create_officer_fir, get_officer_fir, update_officer_fir,
      delete_officer_fir, upload_evidence, delete_evidence, view_case_details,
      update_case_status, send_alert, get_team_officers;
    destruct (officer_verify_token clk req); try rewrite H; reflexivity.
Qed.

(** X12: an FIR update answered 200 touches the FIR collection only; it
    holds as many FIRs as before, and in each of them every field other
    than status, priority, officer_notes and updated_at has the value it
    had. *)
Theorem update_officer_fir_frame
    (st st' : store) (clk : clock) (req : request) (fir_id : string)
    (body : value) :
  update_officer_fir st clk req fir_id = (Response body 200, st') ->
  users st' = users st /\ cases st' = cases st
  /\ evidence st' = evidence st /\ notifications st' = notifications st
  /\ List.length (officer_firs st') = List.length (officer_firs st)
  /\ forall i d',
       nth_error (officer_firs st') i = Some d' ->
       exists d,
         nth_error (officer_firs st) i = Some d
         /\ forall k, ~ In k ["updated_at"; "status"; "priority"; "officer_notes"] ->
                      dict_get k d' = dict_get k d.
Proof.
  intros H. unfold update_officer_fir in H.
  destruct (officer_verify_token clk req) as [p|]; [|discriminate].
  destruct (no_payload (Some p)); [discriminate|].
  destruct (negb (truthy_opt (dict_get "user_id" p))); [discriminate|].
  destruct (to_ObjectId fir_id) as [e|oid]; [discriminate|].
  destruct (find_one (officer_firs st) _) as [[|kv fir]|]; try discriminate.
  destruct (negb (value_eqb _ _)); [discriminate|].
  destruct (fir_update_fields (json_or_empty req)) as [|f fs] eqn:Ef;
    [discriminate|].
  rewrite <- Ef in H.
  match type of H with
  | match ?m with _ => _ end = _ => destruct m as [e|upd]
  end; [discriminate|].
  injection H as _ <-. cbn [users cases evidence notifications officer_firs
                            set_officer_firs].
  repeat (split; [reflexivity|]).
  split; [apply update_one_length|].
  intros i d' Hd'.
  destruct (update_one_nth _ _ _ _ _ Hd') as (dd & Hdd & [->| ->]);
    exists dd; (split; [exact Hdd|]); intros k Hk; [reflexivity|].
  apply fir_update_keeps. exact Hk.
Qed.

(** X13: the officer who created an FIR can read it back.  After a
    creation answered 201, a request of the same officer for the id given
    in the response is answered 200 with that FIR: the id, the officer, the
    title as posted and status "Pending".  Generated ids are taken to be
    well-formed and new to the collection. *)
Theorem created_fir_reads_back
    (st st' : store) (clk clk' : clock) (req req' : request)
    (claims claims' : dict) (o : string) (body : value) :
  officer_verify_token clk req = Some claims ->
  dict_get "user_id" claims = Some (VStr o) ->
  officer_verify_token clk' req' = Some claims' ->
  dict_get "user_id" claims' = Some (VStr o) ->
  ObjectId (new_ObjectId (next_id st)) = Some (new_ObjectId (next_id st)) ->
  find_one (officer_firs st) [("_id", VObjectId (new_ObjectId (next_id st)))]
  = None ->
  create_officer_fir st clk req = (Response body 201, st') ->
  exists fir fir',
    body = VDict [("message", VStr "FIR created successfully");
                  ("fir", VDict fir)]
    /\ dict_get "_id" fir = Some (VStr (new_ObjectId (next_id st)))
    /\ get_officer_fir st' clk' req' (new_ObjectId (next_id st))
       = Response (VDict fir') 200
    /\ dict_get "_id" fir' = Some (VStr (new_ObjectId (next_id st)))
    /\ dict_get "officer_id" fir' = Some (VStr o)
    /\ dict_get "title" fir' = dict_get "title" (json_or_empty req)
    /\ dict_get "status" fir' = Some (VStr "Pending").
Proof.
  intros Hp Ho Hp' Ho' Hid Hfresh H.
  assert (To : truthy (VStr o) = true).
  { unfold create_officer_fir in H. rewrite Hp, Ho in H.
    rewrite (no_payload_with_field _ _ _ Ho) in H.
    cbn [ObjectId_of_value] in H. unfold view, to_ObjectId in H.
    destruct o; [discriminate|reflexivity]. }
  unfold create_officer_fir in H. rewrite Hp, Ho in H.
  rewrite (no_payload_with_field _ _ _ Ho) in H.
  unfold view, subscript in H.
  destruct (ObjectId_of_value st (Some (VStr o))) as [e|oid];
    cbn [bind ret raise negb] in H; [discriminate|].
  destruct (find_one (users st) _) as [[|kv officer]|];
    cbn [bind ret raise negb] in H; try discriminate.
  destruct (forallb _ fir_required_fields);
    cbn [bind ret raise negb] in H; [|discriminate].
  destruct (dict_get "title" (json_or_empty req)) as [title|];
    cbn [bind ret raise] in H; [|discriminate].
  destruct (dict_get "category" (json_or_empty req));
    cbn [bind ret raise] in H; [|discriminate].
  destruct (dict_get "complainant_name" (json_or_empty req));
    cbn [bind ret raise] in H; [|discriminate].
  destruct (dict_get "contact" (json_or_empty req));
    cbn [bind ret raise] in H; [|discriminate].
  destruct (dict_get "location" (json_or_empty req));
    cbn [bind ret raise] in H; [|discriminate].
  destruct (dict_get "description" (json_or_empty req));
    cbn [bind ret raise] in H; [|discriminate].
  unfold insert_one in H. cbn in H.
  injection H as <- <-.
  do 2 eexists. split; [reflexivity|]. split; [reflexivity|].
  unfold get_officer_fir. rewrite Hp', Ho'.
  rewrite (no_payload_with_field _ _ _ Ho').
  cbn [truthy_opt]. rewrite To. cbn [negb].
  unfold to_ObjectId. rewrite Hid. cbn [ret officer_firs set_officer_firs].
  rewrite (find_one_app_None _ _ _ Hfresh).
  cbn. rewrite ?String.eqb_refl. cbn. rewrite ?String.eqb_refl. cbn.
  repeat split; reflexivity.
Qed.

(* ================================================================== *)
(** ** Evidence records *)
(* ================================================================== *)

(** What the loop guarantees of a record it stores. *)
Local Abbreviation evidence_of officer_id :=
  (fun d : dict =>
     size_ok d
     /\ dict_get "officer_id" d = Some officer_id
     /\ dict_get "status" d = Some (VStr "active")).

Lemma upload_one_appends (clk : clock) (payload : dict)
    (case_id fir_id notes : string) (officer_id : value)
    (s : upload_state) (f : file_storage) :
  exists ds,
    up_evidence (upload_one clk payload case_id fir_id notes officer_id s f)
    = (up_evidence s ++ ds)%list
    /\ Forall (evidence_of officer_id) ds.
Proof.
  unfold upload_one, add_error.
  destruct (negb (truthy (VStr (filename f))));
    [exists []; split; [now rewrite app_nil_r|constructor]|].
  destruct (len (content f) >? max_file_size)%Z eqn:Esize;
    [exists []; split; [cbn; now rewrite app_nil_r|constructor]|].
  destruct (up_fs s) as [g|];
    [|exists []; split; [cbn; now rewrite app_nil_r|constructor]].
  destruct (fs_put g _ _ _ _) as [e|[file_id g']];
    [exists []; split; [cbn; now rewrite app_nil_r|constructor]|].
  destruct (optional_ObjectId case_id) as [e|cid]; cbn [bind];
    [exists []; split; [cbn; now rewrite app_nil_r|constructor]|].
  destruct (optional_ObjectId fir_id) as [e|fid]; cbn [bind];
    [exists []; split; [cbn; now rewrite app_nil_r|constructor]|].
  unfold insert_one. cbn.
  eexists. split; [reflexivity|].
  constructor; [|constructor].
  split; [|split; reflexivity].
  exists (len (content f)). split; [reflexivity|].
  destruct (Z.gtb_spec (len (content f)) max_file_size); [discriminate|assumption].
Qed.

Lemma upload_all_appends (clk : clock) (payload : dict)
    (case_id fir_id notes : string) (officer_id : value)
    (files : list file_storage) :
  forall s,
  exists ds,
    up_evidence (upload_all clk payload case_id fir_id notes officer_id s files)
    = (up_evidence s ++ ds)%list
    /\ Forall (evidence_of officer_id) ds.
Proof.
  unfold upload_all.
  induction files as [|f r IH]; intros s; cbn [fold_left].
  - exists []. split; [now rewrite app_nil_r|constructor].
  - destruct (IH (upload_one clk payload case_id fir_id notes officer_id s f))
      as (ds2 & E2 & F2).
    destruct (upload_one_appends clk payload case_id fir_id notes officer_id s f)
      as (ds1 & E1 & F1).
    exists (ds1 ++ ds2)%list. split.
    + rewrite E2, E1. now rewrite app_assoc.
    + apply Forall_app. split; assumption.
Qed.

(** X14: whatever the request and its answer, an upload only appends to
    the evidence collection, and every record it appends is within the
    10 MB ceiling, is marked active and carries the [user_id] of the
    caller's token as its officer.  Users, cases and FIRs are untouched. *)
Theorem upload_evidence_appends_own_records
    (st st' : store) (fs fs' : option gridfs) (clk : clock) (req : request)
    (r : response) :
  upload_evidence st fs clk req = (r, st', fs') ->
  users st' = users st /\ cases st' = cases st
  /\ officer_firs st' = officer_firs st
  /\ exists ds,
       evidence st' = (evidence st ++ ds)%list
       /\ Forall (fun d =>
                    size_ok d
                    /\ dict_get "status" d = Some (VStr "active")
                    /\ exists claims,
                         officer_verify_token clk req = Some claims
                         /\ dict_get "officer_id" d = dict_get "user_id" claims)
                 ds.
Proof.
  intros H.
  assert (Early : forall P : dict -> Prop,
             users st = users st /\ cases st = cases st
             /\ officer_firs st = officer_firs st
             /\ exists ds, evidence st = (evidence st ++ ds)%list /\ Forall P ds).
  { intros P. repeat (split; [reflexivity|]).
    exists []. split; [now rewrite app_nil_r|constructor]. }
  unfold upload_evidence in H.
  destruct (officer_verify_token clk req) as [p|] eqn:Hc;
    [|injection H as _ <- _; apply Early].
  destruct (no_payload (Some p)); [injection H as _ <- _; apply Early|].
  destruct (dict_get "user_id" p) as [v|] eqn:Hv; cbn [truthy_opt negb] in H;
    [|injection H as _ <- _; apply Early].
  destruct (truthy v); cbn [negb] in H; [|injection H as _ <- _; apply Early].
  destruct (negb _ && negb _); [injection H as _ <- _; apply Early|].
  destruct (files req) as [|f0 fl] eqn:Ef; [injection H as _ <- _; apply Early|].
  rewrite <- Ef in H.
  destruct (check_case st _); [injection H as _ <- _; apply Early|].
  destruct (check_fir st _ _); [injection H as _ <- _; apply Early|].
  injection H as _ <- _. cbn [users cases officer_firs evidence set_evidence].
  repeat (split; [reflexivity|]).
  destruct (upload_all_appends clk p (strip (form_get req "case_id"))
              (strip (form_get req "fir_id")) (strip (form_get req "notes"))
              (opt_value (Some v)) (files req)
              (mkUpload fs (evidence st) (next_id st) [] []))
    as (ds & Eds & Fds).
  cbn [up_evidence] in Eds.
  exists ds. split; [exact Eds|].
  eapply Forall_impl; [|exact Fds].
  intros d (Hsize & Hoff & Hst). split; [exact Hsize|]. split; [exact Hst|].
  exists p. split; [reflexivity|]. rewrite Hoff, Hv. reflexivity.
Qed.

(** X15: evidence is deleted by its uploader only.  A deletion answered
    200 was asked with a token whose [user_id] equals the record's
    [officer_id]; it removes one record and keeps every record with another
    id; users, cases and FIRs are untouched.  When the two ids differ the
    answer is 403 and nothing changes. *)
Theorem delete_evidence_uploader_only
    (st : store) (fs : option gridfs) (clk : clock) (req : request)
    (evidence_id : string) :
  (forall body st' fs',
      delete_evidence st fs clk req evidence_id = (Response body 200, st', fs') ->
      exists claims oid ev,
        officer_verify_token clk req = Some claims
        /\ ObjectId evidence_id = Some oid
        /\ find_one (evidence st) [("_id", VObjectId oid)] = Some ev
        /\ value_eqb (opt_value (dict_get "officer_id" ev))
                     (opt_value (dict_get "user_id" claims)) = true
        /\ S (List.length (evidence st')) = List.length (evidence st)
        /\ (forall d, In d (evidence st') -> In d (evidence st))
        /\ (forall d, In d (evidence st) ->
                      matches [("_id", VObjectId oid)] d = false ->
                      In d (evidence st'))
        /\ users st' = users st /\ cases st' = cases st
        /\ officer_firs st' = officer_firs st)
  /\ (forall claims oid ev,
         officer_verify_token clk req = Some claims ->
         claims <> [] ->
         ObjectId evidence_id = Some oid ->
         find_one (evidence st) [("_id", VObjectId oid)] = Some ev ->
         ev <> [] ->
         value_eqb (opt_value (dict_get "officer_id" ev))
                   (opt_value (dict_get "user_id" claims)) = false ->
         delete_evidence st fs clk req evidence_id
         = (Response (error_body "Access denied") 403, st, fs)).
Proof.
  split.
  - intros body st' fs' H. unfold delete_evidence in H.
    destruct (officer_verify_token clk req) as [p|]; [|discriminate].
    destruct (no_payload (Some p)); [discriminate|].
    unfold to_ObjectId in H.
    destruct (ObjectId evidence_id) as [oid|]; cbn [ret raise] in H;
      [|discriminate].
    destruct (find_one (evidence st) _) as [[|kv ev]|] eqn:Ef; try discriminate.
    destruct (value_eqb _ _) eqn:Eo; cbn [negb] in H; [|discriminate].
    injection H as _ <- _. cbn [users cases officer_firs evidence set_evidence].
    exists p, oid, (kv :: ev).
    split; [reflexivity|]. split; [reflexivity|]. split; [exact Ef|].
    split; [exact Eo|].
    split; [now apply (delete_one_length _ _ _ Ef)|].
    split; [intros d; apply delete_one_incl|].
    split; [intros d; apply delete_one_keeps|].
    repeat split; reflexivity.
  - intros claims oid ev Hc Hne Hid Hf Hev Ho.
    unfold delete_evidence. rewrite Hc.
    destruct claims as [|c cl]; [congruence|]. cbn [no_payload truthy negb].
    unfold to_ObjectId. rewrite Hid. cbn [ret]. rewrite Hf.
    destruct ev as [|kv ev']; [congruence|]. rewrite Ho. reflexivity.
Qed.

(* ================================================================== *)
(** ** Cases *)
(* ================================================================== *)

Lemma delete_one_app_None (col : list dict) (q d : dict) :
  find_one col q = None -> matches q d = true ->
  delete_one (col ++ [d]) q = col.
Proof.
  unfold find_one. induction col as [|c r IH]; intros Hf Hm.
  - change (delete_one ([] ++ [d]) q) with (if matches q d then [] else [d]).
    now rewrite Hm.
  - change (delete_one ((c :: r) ++ [d]) q)
      with (if matches q c then (r ++ [d])%list else c :: delete_one (r ++ [d]) q).
    cbn [List.find] in Hf.
    destruct (matches q c); [discriminate|]. now rewrite IH.
Qed.

(** What [create_new_case] stores and returns when it answers 201. *)
Lemma create_new_case_stored
    (st st' : store) (clk : clock) (req : request) (body : value) :
  create_new_case st clk req = (Response body 201, st') ->
  exists (citizen : string) (stored : dict),
    cases st' = (cases st ++ [stored])%list
    /\ stored = ([("_id", VObjectId (new_ObjectId (next_id st)));
                  ("citizen_id", VObjectId citizen)]
                 ++ List.skipn 2 stored)%list
    /\ dict_get "assigned_to" stored = None
    /\ dict_get "status" stored = Some (VStr "Pending")
    /\ dict_get "title" stored = dict_get "title" (json_or_empty req)
    /\ users st' = users st
    /\ exists case,
         body = VDict [("message", VStr "Crime report submitted successfully");
                       ("case", VDict case)]
         /\ forall k, dict_get k case
                      = option_map (Sanitizer.to_str_id_field Sanitizer.to_str_id)
                          (dict_get k stored).
Proof.
  intros H. unfold create_new_case in H.
  destruct (verify_token clk req) as [p|]; [|discriminate].
  destruct (no_payload (Some p)); [discriminate|].
  destruct (negb (forallb truthy _)) eqn:Ereq; [discriminate|].
  apply negb_false_iff in Ereq. cbn [forallb] in Ereq.
  apply andb_prop in Ereq as [Et _].
  destruct (dict_get "title" (json_or_empty req)) as [title|] eqn:Etitle;
    [|discriminate].
  destruct (ObjectId_of_value st (dict_get "user_id" p)) as [e|oid];
    cbn [bind ret raise] in H; [discriminate|].
  destruct (find_one (users st) _) as [[|kv citizen]|];
    cbn [bind ret raise] in H; try discriminate.
  unfold insert_one in H. cbn [dict_get String.eqb Ascii.eqb Bool.eqb bind ret] in H.
  match type of H with
  | context [if has_ObjectId ?b then _ else _] =>
      destruct (has_ObjectId b) eqn:Ehas
  end; [discriminate|].
  unfold jsonify in H. rewrite Ehas in H.
  injection H as <- <-.
  exists oid. eexists. split; [reflexivity|].
  split; [reflexivity|]. split; [reflexivity|]. split; [reflexivity|].
  split; [reflexivity|]. split; [reflexivity|].
  eexists. split; [reflexivity|].
  intros k. cbn [opt_value dict_set String.eqb Ascii.eqb Bool.eqb].
  cbn [Sanitizer.to_str_id map fst snd dict_get option_map].
  destruct ("_id" =? k) eqn:E0.
  - apply String.eqb_eq in E0. subst k. reflexivity.
  - repeat match goal with
           | |- context [if ?s =? k then _ else _] =>
               destruct (s =? k); [reflexivity|]
           end.
    reflexivity.
Qed.

(** X16: a case filed through [POST /api/cases] is read back by
    [GET /api/cases/<id>] with the fields of the creation response, and
    after [DELETE /api/cases/<id>], answered 200, the collection is what it
    was before the filing and the same read answers 404.  Neither the read
    nor the deletion looks at the request.  Generated ids are taken to be
    well-formed and new to the collection. *)
Theorem filed_case_round_trip
    (st st' : store) (clk : clock) (req req' : request) (body : value) :
  ObjectId (new_ObjectId (next_id st)) = Some (new_ObjectId (next_id st)) ->
  find_one (cases st) [("_id", VObjectId (new_ObjectId (next_id st)))] = None ->
  create_new_case st clk req = (Response body 201, st') ->
  exists case,
    body = VDict [("message", VStr "Crime report submitted successfully");
                  ("case", VDict case)]
    /\ dict_get "_id" case = Some (VStr (new_ObjectId (next_id st)))
    /\ dict_get "status" case = Some (VStr "Pending")
    /\ (exists fetched,
           case_routes_get_case st' req' (new_ObjectId (next_id st))
           = Response (VDict fetched) 200
           /\ forall k, dict_get k fetched = dict_get k case)
    /\ exists st'',
         delete_case_route st' req' (new_ObjectId (next_id st))
         = (Response (VDict [("message", VStr "Case deleted successfully")]) 200,
            st'')
         /\ cases st'' = cases st
         /\ case_routes_get_case st'' req' (new_ObjectId (next_id st))
            = Response (error_body "Case not found") 404.
Proof.
  intros Hid Hfresh H.
  destruct (create_new_case_stored _ _ _ _ _ H)
    as (citizen & stored & Hcases & Eshape & _ & Hstatus & _ & _ & case & -> & Hcase).
  assert (Hm : matches [("_id", VObjectId (new_ObjectId (next_id st)))] stored = true).
  { rewrite Eshape. unfold matches. cbn. now rewrite String.eqb_refl. }
  assert (Hfound : find_one (cases st') [("_id", VObjectId (new_ObjectId (next_id st)))]
                   = Some stored).
  { rewrite Hcases, (find_one_app_None _ _ _ Hfresh), Hm. reflexivity. }
  exists case. split; [reflexivity|].
  split; [rewrite Hcase, Eshape; reflexivity|].
  split; [rewrite Hcase, Hstatus; reflexivity|].
  split.
  - unfold case_routes_get_case, to_ObjectId. rewrite Hid. cbn [bind ret].
    rewrite Hfound.
    destruct stored as [|s0 sr]; [discriminate Eshape|].
    eexists. split; [reflexivity|].
    intros k. rewrite Hcase. apply dict_get_map_values.
  - unfold delete_case_route, to_ObjectId. rewrite Hid. cbn [ret].
    unfold deleted_count. rewrite Hfound. cbn [Nat.eqb].
    unfold jsonify. cbn [has_ObjectId existsb snd orb].
    eexists. split; [reflexivity|]. cbn [cases set_cases].
    rewrite Hcases, (delete_one_app_None _ _ _ Hfresh Hm).
    split; [reflexivity|].
    unfold case_routes_get_case, to_ObjectId. rewrite Hid. cbn [bind ret cases set_cases].
    now rewrite Hfresh.
Qed.

(** X17: the officer view of a case cannot show a filed case.  The
    document stored by [POST /api/cases] keeps its [citizen_id] as an
    [ObjectId]; [view_case_details] converts only [_id] before [jsonify],
    so for every caller with a token the request ends in a [TypeError]
    instead of a response. *)
Theorem officer_view_of_filed_case_raises
    (st st' : store) (clk clk' : clock) (req req' : request) (body : value)
    (claims : dict) :
  ObjectId (new_ObjectId (next_id st)) = Some (new_ObjectId (next_id st)) ->
  find_one (cases st) [("_id", VObjectId (new_ObjectId (next_id st)))] = None ->
  create_new_case st clk req = (Response body 201, st') ->
  officer_verify_token clk' req' = Some claims -> claims <> [] ->
  view_case_details st' clk' req' (new_ObjectId (next_id st))
  = Unhandled "TypeError: Object of type ObjectId is not JSON serializable".
Proof.
  intros Hid Hfresh H Hc Hne.
  destruct (create_new_case_stored _ _ _ _ _ H)
    as (citizen & stored & Hcases & Eshape & Hassigned & _).
  assert (Hm : matches [("_id", VObjectId (new_ObjectId (next_id st)))] stored = true).
  { rewrite Eshape. unfold matches. cbn. now rewrite String.eqb_refl. }
  unfold view_case_details. rewrite Hc.
  destruct claims as [|c cl]; [congruence|]. cbn [no_payload truthy negb].
  unfold to_ObjectId. rewrite Hid. cbn [ret].
  rewrite Hcases, (find_one_app_None _ _ _ Hfresh), Hm.
  unfold assigned_to_other. rewrite Hassigned. cbn [truthy_opt andb].
  rewrite Eshape. cbn [app]. reflexivity.
Qed.

(* ================================================================== *)
(** ** The citizen blueprint *)
(* ================================================================== *)

Lemma dict_keys_set_in (k x : string) (v : value) (d : dict) :
  In x (dict_keys (dict_set k v d)) -> x = k \/ In x (dict_keys d).
Proof.
  unfold dict_keys. induction d as [|[k0 v0] r IH]; cbn [dict_set map fst In].
  - intros [H|H]; [now left|destruct H].
  - destruct (k0 =? k) eqn:E; cbn [map fst In].
    + intros [H|H]; [now left|right; now right].
    + intros [H|H]; [right; now left|].
      destruct (IH H) as [F|F]; [now left|right; now right].
Qed.

Lemma NoDup_dict_set (k : string) (v : value) (d : dict) :
  NoDup (dict_keys d) -> NoDup (dict_keys (dict_set k v d)).
Proof.
  induction d as [|[k0 v0] r IH]; intros H.
  - cbn. constructor; [intros F; exact F|constructor].
  - cbn [dict_set]. inversion H as [|? ? Hnot Hr]; subst.
    destruct (k0 =? k) eqn:E.
    + apply String.eqb_eq in E. subst k0. cbn. now constructor.
    + change (NoDup (k0 :: dict_keys (dict_set k v r))).
      constructor; [|now apply IH].
      intros F. apply dict_keys_set_in in F as [F|F].
      * apply String.eqb_neq in E. congruence.
      * exact (Hnot F).
Qed.

(** [d.update(u)] for [u] with distinct keys: each key of [u] ends up with
    the value [u] gives it. *)
Lemma dict_get_update_in (u : dict) :
  NoDup (dict_keys u) ->
  forall (d : dict) (k : string) (v : value),
    dict_get k u = Some v -> dict_get k (dict_update u d) = Some v.
Proof.
  induction u as [|[k0 v0] r IH]; intros Hnd d k v Hk; [discriminate|].
  inversion Hnd as [|? ? Hnot Hr]; subst.
  change (dict_update ((k0, v0) :: r) d) with (dict_update r (dict_set k0 v0 d)).
  cbn [dict_get] in Hk. destruct (k0 =? k) eqn:E.
  - apply String.eqb_eq in E. subst k0. injection Hk as ->.
    rewrite dict_get_update_other by exact Hnot. apply dict_get_set_same.
  - now apply IH.
Qed.


Lemma find_app (col : list dict) (q d : dict) :
  find (col ++ [d]) q
  = (find col q ++ if matches q d then [d] else [])%list.
Proof. unfold find. rewrite filter_app. reflexivity. Qed.

(** X19: a complaint filed through the citizen blueprint shows up in the
    citizen's list.  When [file_complaint] answers 201 the path id is
    well-formed, one case with status "Pending" and that citizen id has
    been appended, no user has been looked up or changed, and
    [view_complaints] for the same id then answers with its former list
    followed by the new case, whose fields are those of the creation
    response. *)
Theorem filed_complaint_is_listed
    (st st' : store) (clk : clock) (req req' : request) (citizen_id : string)
    (body : value) :
  file_complaint st clk req citizen_id = (Response body 201, st') ->
  exists (oid : string) (stored case : dict) (before : list value),
    ObjectId citizen_id = Some oid
    /\ cases st' = (cases st ++ [stored])%list
    /\ users st' = users st
    /\ dict_get "citizen_id" stored = Some (VObjectId oid)
    /\ dict_get "status" stored = Some (VStr "Pending")
    /\ body = VDict case
    /\ view_complaints st req' citizen_id = Response (VList before) 200
    /\ exists listed,
         view_complaints st' req' citizen_id
         = Response (VList (before ++ [VDict listed])) 200
         /\ forall k, dict_get k listed = dict_get k case.
Proof.
  intros H. unfold file_complaint, view in H.
  destruct (json_strict req) as [e|data]; cbn [bind] in H; [discriminate|].
  destruct (negb (forallb _ complaint_required)); cbn [bind ret] in H;
    [discriminate|].
  unfold subscript in H.
  destruct (dict_get "title" data) as [title|]; cbn [bind ret raise] in H;
    [|discriminate].
  destruct (dict_get "description" data) as [description|];
    cbn [bind ret raise] in H; [|discriminate].
  destruct (dict_get "category" data) as [category|];
    cbn [bind ret raise] in H; [|discriminate].
  destruct (dict_get "location" data) as [location|];
    cbn [bind ret raise] in H; [|discriminate].
  unfold create_case, to_ObjectId in H.
  destruct (ObjectId citizen_id) as [oid|] eqn:Hoid; cbn [bind ret raise] in H;
    [|discriminate].
  unfold insert_one in H. cbn [dict_get String.eqb Ascii.eqb Bool.eqb bind ret] in H.
  unfold jsonify in H.
  match type of H with
  | (if ?c then _ else _, _) = _ => destruct c; [discriminate|]
  end.
  injection H as <- <-.
  exists oid. do 3 eexists.
  split; [reflexivity|]. split; [reflexivity|]. split; [reflexivity|].
  split; [reflexivity|]. split; [reflexivity|]. split; [reflexivity|].
  unfold view_complaints, get_cases_by_citizen, to_ObjectId. rewrite Hoid.
  cbn [bind ret cases set_cases]. split; [reflexivity|].
  rewrite find_app.
  match goal with
  | |- context [matches ?q ?d] =>
      replace (matches q d) with true
        by (unfold matches; cbn; now rewrite String.eqb_refl)
  end.
  rewrite map_app. cbn [map].
  eexists. split; [reflexivity|].
  intros k. cbn [dict_set String.eqb Ascii.eqb Bool.eqb].
  cbn [Sanitizer.to_str_id map fst snd dict_get].
  destruct ("_id" =? k) eqn:E0.
  - apply String.eqb_eq in E0. subst k. reflexivity.
  - repeat match goal with
           | |- context [if ?s =? k then _ else _] =>
               destruct (s =? k); [reflexivity|]
           end.
    reflexivity.
Qed.

(** X20: [get_citizen_profile] serves citizens only, to any caller.  An
    answer with status 200 is the document of a stored user whose role is
    "citizen", through [to_str_id] and without its hash; the request is not
    read. *)
Theorem get_citizen_profile_citizens_only
    (st : store) (req : request) (citizen_id : string) (body : value) :
  get_citizen_profile st req citizen_id = Response body 200 ->
  exists (oid : string) (u d : dict),
    ObjectId citizen_id = Some oid
    /\ find_one (users st) [("_id", VObjectId oid)] = Some u
    /\ Sanitizer.to_str_id (VDict u) = VDict d
    /\ dict_get "role" d = Some (VStr "citizen")
    /\ body = VDict (dict_pop "password_hash" d)
    /\ dict_get "password_hash" (dict_pop "password_hash" d) = None.
Proof.
  unfold get_citizen_profile, get_user_by_id, to_ObjectId. intros H.
  destruct (ObjectId citizen_id) as [oid|]; cbn [bind ret raise] in H;
    [|discriminate].
  destruct (find_one (users st) _) as [u|] eqn:Ef; [|discriminate].
  destruct (Sanitizer.to_str_id (VDict u)) as [| | | | | | |d] eqn:Eu;
    try discriminate.
  destruct d as [|kv r]; [discriminate|].
  destruct (value_eqb _ _) eqn:Er; cbn [negb] in H; [|discriminate].
  unfold jsonify in H.
  destruct (has_ObjectId _); [discriminate|]. injection H as <-.
  exists oid, u, (kv :: r).
  split; [reflexivity|]. split; [exact Ef|]. split; [exact Eu|].
  split.
  - apply value_eqb_VStr in Er.
    destruct (dict_get "role" (kv :: r)); [cbn in Er; now subst|discriminate].
  - split; [reflexivity|apply dict_get_pop_same_in].
Qed.

(* ================================================================== *)
(** ** Officer views of cases, the team list and alerts *)
(* ================================================================== *)

(** X21: a case update by an officer, answered 200, keeps the number of
    cases and leaves every field of every case as it was, except status,
    priority, officer_notes, updated_at and updated_by; users are
    untouched. *)
Theorem update_case_status_frame
    (st st' : store) (clk : clock) (req : request) (case_id : string)
    (body : value) :
  update_case_status st clk req case_id = (Response body 200, st') ->
  users st' = users st /\ officer_firs st' = officer_firs st
  /\ List.length (cases st') = List.length (cases st)
  /\ forall i d',
       nth_error (cases st') i = Some d' ->
       exists d,
         nth_error (cases st) i = Some d
         /\ forall k,
              ~ In k ["updated_by"; "updated_at"; "status"; "priority";
                      "officer_notes"] ->
              dict_get k d' = dict_get k d.
Proof.
  intros H. unfold update_case_status in H.
  destruct (officer_verify_token clk req) as [p|]; [|discriminate].
  destruct (no_payload (Some p)); [discriminate|].
  destruct (filter _ (json_or_empty req)) as [|f fs] eqn:Ef; [discriminate|].
  rewrite <- Ef in H. unfold view in H.
  destruct (to_ObjectId case_id) as [e|oid]; cbn [bind ret raise] in H;
    [discriminate|].
  destruct (find_one (cases st) _) as [[|kv case]|]; try discriminate.
  destruct (assigned_to_other _ _); [discriminate|].
  destruct (get_case_by_id _ case_id) as [e|updated]; cbn [bind ret] in H;
    [discriminate|].
  injection H as _ <-. cbn [users cases officer_firs set_cases].
  split; [reflexivity|]. split; [reflexivity|].
  split; [apply update_one_length|].
  intros i d' Hd'.
  destruct (update_one_nth _ _ _ _ _ Hd') as (dd & Hdd & [->| ->]);
    exists dd; (split; [exact Hdd|]); intros k Hk; [reflexivity|].
  apply dict_get_update_other. intros Hin.
  apply dict_keys_set_in in Hin as [->|Hin]; [apply Hk; now left|].
  apply dict_keys_set_in in Hin as [->|Hin]; [apply Hk; right; now left|].
  unfold dict_keys in Hin. apply in_map_iff in Hin as ([k' v] & Ek & Hin).
  cbn [fst] in Ek. subst k'. apply filter_In in Hin as [_ Hin].
  cbn [fst] in Hin.
  apply orb_prop in Hin as [E|Hin];
    [apply String.eqb_eq in E; subst k; apply Hk; cbn [In]; auto 10|].
  apply orb_prop in Hin as [E|Hin];
    [apply String.eqb_eq in E; subst k; apply Hk; cbn [In]; auto 10|].
  apply orb_prop in Hin as [E|Hin];
    [apply String.eqb_eq in E; subst k; apply Hk; cbn [In]; auto 10|].
  discriminate.
Qed.

(** The officers other than the caller, in the order of the collection. *)
Local Abbreviation others user_id :=
  (filter (fun o : dict =>
             negb (value_eqb (VStr (py_str (opt_value (dict_get "_id" o))))
                             user_id))).

(** An entry of the team list stands for an officer. *)
Local Abbreviation entry_of :=
  (fun (o : dict) (e : value) =>
     exists d,
       e = VDict d
       /\ dict_keys d = ["id"; "name"; "email"; "status"; "photo"]
       /\ dict_get "id" d = Some (VStr (py_str (opt_value (dict_get "_id" o))))
       /\ dict_get "email" d = Some (dict_get_default "email" (VStr "N/A") o)).

Lemma team_of_others (user_id : value) (officers : list dict) :
  forall team,
    team_of user_id officers = inr team ->
    Forall2 entry_of (others user_id officers) team.
Proof.
  induction officers as [|o r IH]; intros team H; cbn [team_of] in H.
  - injection H as <-. constructor.
  - unfold subscript in H.
    destruct (dict_get "_id" o) as [id|] eqn:Eid; cbn [bind ret raise] in H;
      [|discriminate].
    cbn [filter]. rewrite Eid. cbn [opt_value].
    destruct (value_eqb (VStr (py_str id)) user_id); cbn [negb].
    + now apply IH.
    + unfold team_entry, subscript in H. rewrite Eid in H. cbn [bind ret] in H.
      destruct (team_name o) as [e|name]; cbn [bind ret] in H; [discriminate|].
      destruct (team_of user_id r) as [e|rest]; cbn [bind ret] in H;
        [discriminate|].
      injection H as <-. constructor; [|now apply IH].
      eexists. split; [reflexivity|]. rewrite Eid.
      repeat split; reflexivity.
Qed.

(** X22: the team list is the officers other than the caller.  An answer
    with status 200 lists, in the order of the collection, one entry for
    each user with role "officer" whose id is not the [user_id] of the
    token; an entry has the five fields id, name, email, status and photo,
    and so never a hash. *)
Theorem team_list_excludes_the_caller
    (st : store) (clk : clock) (req : request) (body : value) :
  get_team_officers st clk req = Response body 200 ->
  exists claims team,
    officer_verify_token clk req = Some claims
    /\ body = VList team
    /\ Forall2
         (fun (o : dict) (e : value) =>
            exists d,
              e = VDict d
              /\ dict_keys d = ["id"; "name"; "email"; "status"; "photo"]
              /\ dict_get "id" d
                 = Some (VStr (py_str (opt_value (dict_get "_id" o))))
              /\ dict_get "email" d
                 = Some (dict_get_default "email" (VStr "N/A") o))
         (filter (fun o : dict =>
                    negb (value_eqb
                            (VStr (py_str (opt_value (dict_get "_id" o))))
                            (opt_value (dict_get "user_id" claims))))
                 (find (users st) [("role", VStr "officer")]))
         team.
Proof.
  intros H. unfold get_team_officers in H.
  destruct (officer_verify_token clk req) as [p|]; [|discriminate].
  destruct (no_payload (Some p)); [discriminate|].
  destruct (team_of _ _) as [e|team] eqn:Et; [discriminate|].
  unfold jsonify in H. destruct (has_ObjectId _); [discriminate|].
  injection H as <-.
  exists p, team. split; [reflexivity|]. split; [reflexivity|].
  now apply team_of_others.
Qed.

End Handlers.

(* ================================================================== *)
(** ** Facts about the sanitizers *)
(* ================================================================== *)

Import Sanitizer.

Lemma dict_pop_map (k : string) (g : value -> value) (d : dict) :
  dict_pop k (map (fun kv => (fst kv, g (snd kv))) d)
  = map (fun kv => (fst kv, g (snd kv))) (dict_pop k d).
Proof.
  unfold dict_pop. induction d as [|[k' v] r IH]; simpl; [reflexivity|].
  destruct (k' =? k); simpl; now rewrite IH.
Qed.

Lemma dict_pop_absent (k : string) (d : dict) :
  dict_contains k d = false -> dict_pop k d = d.
Proof.
  unfold dict_contains, dict_pop.
  induction d as [|[k' v] r IH]; simpl; [reflexivity|].
  destruct (k' =? k); simpl; [discriminate|].
  intros H. now rewrite IH.
Qed.

Lemma dict_pop_idem (k : string) (d : dict) :
  dict_pop k (dict_pop k d) = dict_pop k d.
Proof.
  unfold dict_pop. induction d as [|[k' v] r IH]; simpl; [reflexivity|].
  destruct (k' =? k) eqn:E; simpl; [exact IH|].
  now rewrite E, IH.
Qed.

(** [serialize_doc] in the order of the source: falsy gives [None]; else
    ["password_hash"] is popped if present and the remaining fields are
    converted. *)
Lemma serialize_doc_eq (d : dict) :
  serialize_doc (VDict d) =
  if negb (truthy (VDict d)) then VNone
  else
    let doc := if dict_contains "password_hash" d
               then dict_pop "password_hash" d else d in
    VDict (map (fun kv => (fst kv, serialize_doc_field serialize_doc (snd kv))) doc).
Proof.
  destruct d as [|kv r]; [reflexivity|].
  cbn [truthy negb]. cbv zeta.
  change (serialize_doc (VDict (kv :: r))) with
    (VDict (dict_pop "password_hash"
       (map (fun kv => (fst kv, serialize_doc_field serialize_doc (snd kv))) (kv :: r)))).
  rewrite dict_pop_map.
  destruct (dict_contains "password_hash" (kv :: r)) eqn:E; [reflexivity|].
  now rewrite (dict_pop_absent _ _ E).
Qed.

Lemma to_str_id_as_field (d : dict) :
  to_str_id (VDict d) = to_str_id_field to_str_id (VDict d).
Proof. reflexivity. Qed.

Lemma serialize_doc_as_field (d : dict) :
  serialize_doc (VDict d) = serialize_doc_field serialize_doc (VDict d).
Proof. reflexivity. Qed.

(** The result of either sanitizer on a mapping is [None] or a mapping. *)
Lemma to_str_id_shape (v : value) :
  to_str_id v = VNone \/ exists d, to_str_id v = VDict d.
Proof.
  destruct v as [| | | | | | l|[|kv r]]; simpl; eauto.
Qed.

Lemma serialize_doc_shape (v : value) :
  serialize_doc v = VNone \/ exists d, serialize_doc v = VDict d.
Proof.
  destruct v as [| | | | | | l|[|kv r]]; simpl; eauto.
Qed.

(** *** Secrets *)

Lemma serialize_field_no_secret (v : value) :
  flat_lists v = true ->
  has_secret (serialize_doc_field serialize_doc v) = false.
Proof.
  induction v as [| | | | | |l IH|d IH] using value_nested_ind;
    intros Hflat; try reflexivity.
  - (* a sequence: its elements are not sequences *)
    simpl in *. induction l as [|i r IHr]; [reflexivity|].
    simpl in Hflat. apply andb_prop in Hflat as [Hi Hr].
    apply andb_prop in Hi as [Hnl Hfi].
    inversion IH as [|? ? Pi Pr]; subst.
    simpl. rewrite (IHr Pr Hr), orb_false_r.
    destruct i; try reflexivity; try discriminate.
    exact (Pi Hfi).
  - (* a mapping *)
    rewrite <- serialize_doc_as_field.
    destruct d as [|kv r]; [reflexivity|].
    change (serialize_doc (VDict (kv :: r))) with
      (VDict (dict_pop "password_hash"
         (map (fun kv => (fst kv, serialize_doc_field serialize_doc (snd kv))) (kv :: r)))).
    remember (kv :: r) as d eqn:Ed. clear Ed kv r.
    simpl in Hflat. rewrite dict_pop_map. simpl.
    induction d as [|[k v] r IHr]; [reflexivity|].
    simpl in Hflat. apply andb_prop in Hflat as [Hv Hr].
    inversion IH as [|? ? Pv Pr]; subst. simpl in Pv.
    unfold dict_pop in *. simpl.
    destruct (k =? "password_hash") eqn:Ek; simpl.
    + exact (IHr Pr Hr).
    + rewrite Ek, (Pv Hv). simpl. exact (IHr Pr Hr).
Qed.

Lemma to_str_id_field_keeps_secret (v : value) :
  has_secret (to_str_id_field to_str_id v) = has_secret v.
Proof.
  induction v as [| | | | | |l IH|d IH] using value_nested_ind;
    try reflexivity.
  - simpl. induction IH as [|i r Pi Pr IHr]; [reflexivity|].
    simpl. rewrite IHr. f_equal.
    destruct i; try reflexivity. exact Pi.
  - rewrite <- to_str_id_as_field.
    destruct d as [|kv r]; [reflexivity|].
    change (to_str_id (VDict (kv :: r))) with
      (VDict (map (fun kv => (fst kv, to_str_id_field to_str_id (snd kv))) (kv :: r))).
    remember (kv :: r) as d eqn:Ed. clear Ed kv r.
    simpl. induction IH as [|[k v] r Pv Pr IHr]; [reflexivity|].
    simpl in *. now rewrite IHr, Pv.
Qed.

(** *** Idempotence *)

Lemma to_str_id_field_idem (v : value) :
  to_str_id_field to_str_id (to_str_id_field to_str_id v)
  = to_str_id_field to_str_id v.
Proof.
  induction v as [| | | | | |l IH|d IH] using value_nested_ind;
    try reflexivity.
  - simpl. f_equal. rewrite map_map.
    induction IH as [|i r Pi Pr IHr]; [reflexivity|].
    simpl. rewrite IHr. f_equal.
    destruct i; try reflexivity.
    (* a mapping among the elements *)
    change (to_str_id_item to_str_id (VDict d)) with (to_str_id (VDict d)).
    destruct (to_str_id_shape (VDict d)) as [E|[d' E]].
    + rewrite E. reflexivity.
    + rewrite E. change (to_str_id_item to_str_id (VDict d'))
        with (to_str_id_field to_str_id (VDict d')).
      rewrite <- E. exact Pi.
  - rewrite <- to_str_id_as_field.
    destruct d as [|kv r]; [reflexivity|].
    change (to_str_id (VDict (kv :: r))) with
      (VDict (map (fun kv => (fst kv, to_str_id_field to_str_id (snd kv))) (kv :: r))).
    remember (kv :: r) as d eqn:Ed.
    rewrite <- to_str_id_as_field.
    assert (Hne : exists kv' r', map (fun kv => (fst kv, to_str_id_field to_str_id (snd kv))) d = kv' :: r')
      by (subst d; simpl; eauto).
    destruct Hne as (kv' & r' & Hne).
    rewrite Hne.
    change (to_str_id (VDict (kv' :: r'))) with
      (VDict (map (fun kv => (fst kv, to_str_id_field to_str_id (snd kv))) (kv' :: r'))).
    rewrite <- Hne. clear Hne kv' r' Ed kv r.
    f_equal. rewrite map_map.
    induction IH as [|[k v] r Pv Pr IHr]; [reflexivity|].
    simpl in *. now rewrite IHr, Pv.
Qed.

Lemma to_str_id_idem (doc : value) :
  to_str_id (to_str_id doc) = to_str_id doc.
Proof.
  destruct doc as [| | | | | | l|d]; try reflexivity.
  destruct (to_str_id_shape (VDict d)) as [E|[d' E]].
  - rewrite E. reflexivity.
  - rewrite E. rewrite to_str_id_as_field, <- E, to_str_id_as_field.
    apply to_str_id_field_idem.
Qed.

Lemma dict_pop_nonempty (d : dict) :
  d <> [] -> secret_only d = false -> dict_pop "password_hash" d <> [].
Proof.
  intros Hd Hs E. unfold secret_only in Hs.
  destruct d; [congruence|]. rewrite E in Hs. discriminate.
Qed.

Lemma serialize_doc_field_idem (v : value) :
  no_secret_only v = true ->
  serialize_doc_field serialize_doc (serialize_doc_field serialize_doc v)
  = serialize_doc_field serialize_doc v.
Proof.
  induction v as [| | | | | |l IH|d IH] using value_nested_ind;
    intros Hok; try reflexivity.
  - simpl in *. f_equal. rewrite map_map.
    induction IH as [|i r Pi Pr IHr]; [reflexivity|].
    simpl in Hok. apply andb_prop in Hok as [Hi Hr].
    simpl. rewrite (IHr Hr). f_equal.
    destruct i; try reflexivity.
    change (serialize_doc_item serialize_doc (VDict d)) with (serialize_doc (VDict d)).
    destruct (serialize_doc_shape (VDict d)) as [E|[d' E]].
    + rewrite E. reflexivity.
    + rewrite E. change (serialize_doc_item serialize_doc (VDict d'))
        with (serialize_doc_field serialize_doc (VDict d')).
      rewrite <- E. exact (Pi Hi).
  - rewrite <- serialize_doc_as_field.
    destruct d as [|kv r]; [reflexivity|].
    change (serialize_doc (VDict (kv :: r))) with
      (VDict (dict_pop "password_hash"
         (map (fun kv => (fst kv, serialize_doc_field serialize_doc (snd kv))) (kv :: r)))).
    assert (Hd : kv :: r <> []) by discriminate.
    remember (kv :: r) as d eqn:Ed. clear Ed kv r.
    simpl in Hok. apply andb_prop in Hok as [Hs Hall].
    apply negb_true_iff in Hs.
    pose proof (dict_pop_nonempty d Hd Hs) as Hne.
    rewrite dict_pop_map.
    rewrite <- serialize_doc_as_field.
    remember (dict_pop "password_hash" d) as p eqn:Ep.
    destruct p as [|kv r]; [congruence|].
    change (serialize_doc (VDict (map (fun kv => (fst kv, serialize_doc_field serialize_doc (snd kv))) (kv :: r))))
      with (VDict (dict_pop "password_hash"
         (map (fun kv => (fst kv, serialize_doc_field serialize_doc (snd kv)))
            (map (fun kv => (fst kv, serialize_doc_field serialize_doc (snd kv))) (kv :: r))))).
    rewrite dict_pop_map, dict_pop_map, Ep, dict_pop_idem.
    f_equal. rewrite map_map. simpl fst. simpl snd.
    clear Ep Hne Hs Hd kv r.
    unfold dict_pop.
    induction IH as [|[k v] r Pv Pr IHr]; [reflexivity|].
    simpl in Hall. apply andb_prop in Hall as [Hv Hr].
    simpl. destruct (k =? "password_hash"); simpl.
    + exact (IHr Hr).
    + simpl in Pv. now rewrite (IHr Hr), (Pv Hv).
Qed.

Lemma serialize_doc_idem (d : dict) :
  no_secret_only (VDict d) = true ->
  serialize_doc (serialize_doc (VDict d)) = serialize_doc (VDict d).
Proof.
  intros Hok.
  destruct (serialize_doc_shape (VDict d)) as [E|[d' E]].
  - rewrite E. reflexivity.
  - rewrite E. rewrite serialize_doc_as_field, <- E, serialize_doc_as_field.
    now apply serialize_doc_field_idem.
Qed.

(** Sample documents. *)
Example to_str_id_user :
  to_str_id (VDict [("_id", VObjectId Toy.id_alice);
                    ("email", VStr "a@x.com");
                    ("password_hash", VStr "h");
                    ("tags", VList [VObjectId Toy.id_bob; VInt 3])])
  = VDict [("_id", VStr Toy.id_alice);
           ("email", VStr "a@x.com");
           ("password_hash", VStr "h");
           ("tags", VList [VStr Toy.id_bob; VInt 3])].
Proof. reflexivity. Qed.

Example serialize_doc_user :
  serialize_doc (VDict [("_id", VObjectId Toy.id_alice);
                        ("password_hash", VStr "h");
                        ("created_at", VDatetime (mkDatetime 2024 5 17 9 3 0 0));
                        ("logins", VList [VDict [("password_hash", VStr "old");
                                                 ("n", VInt 1)]])])
  = VDict [("_id", VStr Toy.id_alice);
           ("created_at", VStr "2024-05-17T09:03:00");
           ("logins", VList [VDict [("n", VInt 1)]])].
Proof. reflexivity. Qed.

Example sanitizers_on_absent :
  to_str_id VNone = VNone /\ serialize_doc VNone = VNone /\
  to_str_id (VDict []) = VNone /\ serialize_doc (VDict []) = VNone.
Proof. repeat split. Qed.




(** C9, as stated, fails for [serialize_doc]: a mapping holding only the
    secret becomes the empty mapping, which a second pass turns into
    [None]. *)
Lemma C9_serialize_doc_not_idempotent :
  let d := VDict [("password_hash", VStr "h")] in
  serialize_doc d = VDict []
  /\ serialize_doc (serialize_doc d) = VNone
  /\ serialize_doc (serialize_doc d) <> serialize_doc d.
Proof. repeat split. discriminate. Qed.

(** C9 (amended): [to_str_id] is idempotent on every document, and
    [serialize_doc] is idempotent on every document none of whose mappings
    has ["password_hash"] as its only field. *)
Theorem C9_sanitize_idempotent :
  (forall d : dict,
      to_str_id (to_str_id (VDict d)) = to_str_id (VDict d))
  /\ (forall d : dict,
         no_secret_only (VDict d) = true ->
         serialize_doc (serialize_doc (VDict d)) = serialize_doc (VDict d)).
Proof.
  split.
  - intros d. apply to_str_id_idem.
  - intros d. apply serialize_doc_idem.
Qed.

Lemma C9_sanitize_idempotent_witness :
  no_secret_only (VDict Toy.account_full) = true
  /\ serialize_doc (serialize_doc (VDict Toy.account_full))
     = serialize_doc (VDict Toy.account_full).
Proof.
  split; [reflexivity|].
  apply (proj2 C9_sanitize_idempotent Toy.account_full). reflexivity.
Defined.

(* ================================================================== *)
(** ** The handlers on the concrete instance *)
(* ================================================================== *)

Abbreviation toy_verify_token :=
  (verify_token Toy.bytes Toy.jwt_payload Toy.jwt_signature_ok Toy.secret_key).
Abbreviation toy_jwt_decode :=
  (jwt_decode Toy.jwt_payload Toy.jwt_signature_ok).
Abbreviation toy_officer_verify_token :=
  (officer_verify_token Toy.bytes Toy.jwt_payload Toy.jwt_signature_ok
     Toy.secret_key).
Abbreviation toy_get_profile :=
  (get_profile Toy.bytes Toy.jwt_payload Toy.jwt_signature_ok Toy.secret_key).
Abbreviation toy_admin_bp :=
  (admin_bp_dispatch Toy.bytes Toy.jwt_payload Toy.jwt_signature_ok
     Toy.generate_password_hash Toy.new_ObjectId Toy.py_repr Toy.secret_key).
Abbreviation toy_admin_api :=
  (admin_api_dispatch Toy.bytes Toy.jwt_payload Toy.jwt_signature_ok
     Toy.new_ObjectId Toy.py_repr Toy.secret_key).
Abbreviation toy_admin_routes_create_user :=
  (admin_routes_create_user Toy.bytes Toy.jwt_payload Toy.jwt_signature_ok
     Toy.generate_password_hash Toy.new_ObjectId Toy.py_repr Toy.secret_key).
Abbreviation toy_handle_registration :=
  (handle_registration Toy.jwt_encode Toy.generate_password_hash
     Toy.new_ObjectId Toy.py_repr Toy.secret_key).
Abbreviation toy_login :=
  (login Toy.bytes Toy.jwt_encode Toy.check_password_hash Toy.py_repr
     Toy.secret_key).
Abbreviation toy_create_officer_fir :=
  (create_officer_fir Toy.bytes Toy.jwt_payload Toy.jwt_signature_ok
     Toy.new_ObjectId Toy.py_repr Toy.secret_key).
Abbreviation toy_get_officer_fir :=
  (get_officer_fir Toy.bytes Toy.jwt_payload Toy.jwt_signature_ok Toy.py_repr
     Toy.secret_key).
Abbreviation toy_upload_evidence :=
  (upload_evidence Toy.bytes Toy.len Toy.jwt_payload Toy.jwt_signature_ok
     Toy.secure_filename Toy.new_ObjectId Toy.py_repr Toy.gridfs Toy.fs_put
     Toy.secret_key).

Example bearer_token_of_header :
  bearer_token "Bearer abc.def.ghi" = "abc.def.ghi"
  /\ bearer_token "Bearer " = ""
  /\ bearer_token "Bearer a b" = "a".
Proof. repeat split. Qed.

Example ObjectId_examples :
  ObjectId "5F1A2B3C4D5E6F7A8B9C0D1E" = Some "5f1a2b3c4d5e6f7a8b9c0d1e"
  /\ ObjectId "xyz" = None
  /\ ObjectId Toy.case_id_1 = Some Toy.case_id_1.
Proof. repeat split. Qed.

Example verify_token_accepts_alice :
  toy_verify_token Toy.noon (Toy.get "alice")
  = Some (Toy.claims Toy.id_alice "alice@x.com" "citizen" 5000).
Proof. reflexivity. Qed.

(* ------------------------------------------------------------------ *)
(** *** C4 *)



(* ------------------------------------------------------------------ *)
(** *** C8 *)



(* ------------------------------------------------------------------ *)
(** *** C2 *)

(** C2, as stated, fails: dave, a citizen, reads the case alice filed, by
    its id and through the listing of alice's complaints. *)
Lemma C2_other_citizen_reads_case :
  dict_get "user_id" (Toy.claims Toy.id_dave "dave@x.com" "citizen" 5000)
  = Some (VStr Toy.id_dave)
  /\ toy_verify_token Toy.noon (Toy.get "dave")
     = Some (Toy.claims Toy.id_dave "dave@x.com" "citizen" 5000)
  /\ dict_get "citizen_id" Toy.case_1 = Some (VObjectId Toy.id_alice)
  /\ Toy.id_alice <> Toy.id_dave
  /\ case_routes_get_case Toy.bytes Toy.st (Toy.get "dave") Toy.case_id_1
     = Response (Sanitizer.to_str_id (VDict Toy.case_1)) 200
  /\ view_complaints Toy.bytes Toy.st (Toy.get "dave") Toy.id_alice
     = Response (VList [Sanitizer.to_str_id (VDict Toy.case_1)]) 200.
Proof. repeat split. discriminate. Qed.

Lemma C2_case_reads_unguarded_witness :
  ObjectId Toy.case_id_1 = Some Toy.case_id_1
  /\ find_one (cases Toy.st) [("_id", VObjectId Toy.case_id_1)] = Some Toy.case_1
  /\ case_routes_get_case Toy.bytes Toy.st Toy.anonymous Toy.case_id_1
     = Response (Sanitizer.to_str_id (VDict Toy.case_1)) 200.
Proof.
  split; [reflexivity|]. split; [reflexivity|].
  apply (C2_case_reads_unguarded Toy.bytes Toy.st Toy.anonymous Toy.case_id_1
           Toy.case_id_1 Toy.case_1); reflexivity.
Defined.

(* ------------------------------------------------------------------ *)
(** *** C3 *)


(* ------------------------------------------------------------------ *)
(** *** C6 *)

(** C6, as stated, fails: an FIR registered without priority and without
    status is stored with priority "Normal" and status "Pending". *)
Lemma C6_created_fir_is_Pending_Normal :
  let out := toy_create_officer_fir Toy.st Toy.noon
               (Toy.post "bob" Toy.fir_request) in
  dict_get "priority" Toy.fir_request = None
  /\ dict_get "status" Toy.fir_request = None
  /\ status_of (fst out) = Some 201
  /\ exists fir,
       officer_firs (snd out) = [Toy.fir_1; fir]
       /\ dict_get "title" fir = Some (VStr "Noise")
       /\ dict_get "priority" fir = Some (VStr "Normal")
       /\ dict_get "status" fir = Some (VStr "Pending")
       /\ dict_get "priority" fir <> Some (VStr "High")
       /\ dict_get "status" fir <> Some (VStr "Open").
Proof.
  cbv zeta. split; [reflexivity|]. split; [reflexivity|]. split; [reflexivity|].
  eexists. split; [reflexivity|].
  repeat split; discriminate.
Qed.

Lemma C6_created_fir_status_priority_witness :
  exists fir,
    officer_firs (snd (toy_create_officer_fir Toy.st Toy.noon
                         (Toy.post "bob" Toy.fir_request)))
    = (officer_firs Toy.st ++ [fir])%list
    /\ dict_get "status" fir = Some (VStr "Pending")
    /\ dict_get "priority" fir = Some (VStr "Normal").
Proof.
  destruct (C6_created_fir_status_priority Toy.bytes Toy.jwt_payload
              Toy.jwt_signature_ok Toy.new_ObjectId Toy.py_repr Toy.secret_key
              Toy.st
              (snd (toy_create_officer_fir Toy.st Toy.noon
                      (Toy.post "bob" Toy.fir_request)))
              Toy.noon (Toy.post "bob" Toy.fir_request)
              (match fst (toy_create_officer_fir Toy.st Toy.noon
                            (Toy.post "bob" Toy.fir_request)) with
               | Response body _ => body
               | Unhandled _ => VNone
               end) eq_refl)
    as [(fir & Hcol & Hstatus & _ & Hprio) _].
  exists fir. split; [exact Hcol|]. split; [exact Hstatus|].
  apply Hprio. reflexivity.
Defined.

(* ------------------------------------------------------------------ *)
(** *** C7 *)

(** C7: the admin creation path does not look for the address in the
    store.  With alice registered under alice@x.com, the admin request
    [Toy.duplicate_user_request] is answered 201 and a second user with the
    same address is stored; the registration path answers the same address
    with 400 "Email already registered" and leaves the store as it was. *)
Theorem C7_admin_create_user_duplicates_email :
  let before := Toy.st in
  let out := toy_admin_routes_create_user before Toy.noon
               (Toy.post "root" Toy.duplicate_user_request) in
  let emails (s : store) := map (dict_get "email") (users s) in
  NoDup (emails before)
  /\ status_of (fst out) = Some 201
  /\ emails (snd out) = (emails before ++ [Some (VStr "alice@x.com")])%list
  /\ ~ NoDup (emails (snd out))
  /\ toy_handle_registration before Toy.noon
       [("first_name", VStr "Al"); ("last_name", VStr "Doe");
        ("email", VStr "Alice@x.com"); ("phone", VStr "1");
        ("password", VStr "other")] "citizen"
     = (Response (VDict [("error", VStr "Email already registered")]) 400,
        before).
Proof.
  cbv zeta. split; [|split; [|split; [|split]]].
  - vm_compute. repeat constructor; simpl; intuition discriminate.
  - reflexivity.
  - reflexivity.
  - vm_compute. intros H. inversion H as [|x l Hnotin _]; subst.
    apply Hnotin. simpl. auto 10.
  - reflexivity.
Qed.

(* ------------------------------------------------------------------ *)
(** *** C10 *)

Lemma C10_login_email_case_sensitive_witness :
  has_upper "Grace@X.com" = true
  /\ exists body st',
       toy_handle_registration Toy.st Toy.noon Toy.registration_request "citizen"
       = (Response body 201, st')
       /\ toy_login st' Toy.noon (Toy.login_request "Grace@X.com")
          = Response (error_body "No citizen account found for this email") 404
       /\ status_of (toy_login st' Toy.noon (Toy.login_request "grace@x.com"))
          = Some 200.
Proof.
  split; [reflexivity|].
  destruct (C10_login_email_case_sensitive Toy.bytes Toy.jwt_encode
              Toy.generate_password_hash Toy.check_password_hash
              Toy.new_ObjectId Toy.py_repr Toy.secret_key Toy.st Toy.noon
              Toy.registration_request "citizen" "Grace@X.com" "pw"
              (VStr "Grace") (VStr "Hopper") (VStr "555-0103"))
    as (body & st' & Hreg & _ & Hlogin);
    try reflexivity; try discriminate.
  - intros p. unfold Toy.check_password_hash, Toy.generate_password_hash.
    apply String.eqb_refl.
  - intros u s Hin Hs. vm_compute in Hin.
    repeat (destruct Hin as [<-|Hin];
            [vm_compute in Hs; injection Hs as <-; vm_compute; discriminate|]).
    destruct Hin.
  - exists body, st'. split; [exact Hreg|].
    split.
    + apply (Hlogin Toy.noon (Toy.login_request "Grace@X.com") "Grace@X.com");
        try reflexivity. vm_compute; discriminate.
    + apply (Hlogin Toy.noon (Toy.login_request "grace@x.com") "grace@x.com");
        reflexivity.
Defined.

(* ------------------------------------------------------------------ *)
(** *** C5 *)

Example upload_three_files :
  fst (fst (toy_upload_evidence Toy.st (Some []) Toy.noon Toy.evidence_request))
  = Response
      (VDict [("message", VStr "Successfully uploaded 2 file(s)");
              ("uploaded_files",
               VList [VDict [("evidence_id", VStr "000000000000000000000007");
                             ("file_id", VStr "000000000000000000001000");
                             ("filename", VStr "photo.jpg");
                             ("size", VInt 2048)];
                      VDict [("evidence_id", VStr "000000000000000000000008");
                             ("file_id", VStr "000000000000000000001001");
                             ("filename", VStr "note.txt");
                             ("size", VInt 12)]]);
              ("errors", VList [VStr "video.mp4: File too large (max 10MB)"])])
      201.
Proof. vm_compute. reflexivity. Qed.


(* ================================================================== *)
(** ** More on the sanitizers *)
(* ================================================================== *)

Lemma serialize_field_json_safe (v : value) :
  flat_lists v = true ->
  has_ObjectId (serialize_doc_field serialize_doc v) = false
  /\ has_datetime (serialize_doc_field serialize_doc v) = false.
Proof.
  induction v as [| | | | | |l IH|d IH] using value_nested_ind;
    intros Hflat; try (split; reflexivity).
  - simpl in *. induction l as [|i r IHr]; [split; reflexivity|].
    simpl in Hflat. apply andb_prop in Hflat as [Hi Hr].
    apply andb_prop in Hi as [Hnl Hfi].
    inversion IH as [|? ? Pi Pr]; subst.
    destruct (IHr Pr Hr) as [H1 H2]. simpl. rewrite H1, H2, !orb_false_r.
    destruct i; try (split; reflexivity); try discriminate.
    exact (Pi Hfi).
  - rewrite <- serialize_doc_as_field.
    destruct d as [|kv r]; [split; reflexivity|].
    change (serialize_doc (VDict (kv :: r))) with
      (VDict (dict_pop "password_hash"
         (map (fun kv => (fst kv, serialize_doc_field serialize_doc (snd kv))) (kv :: r)))).
    remember (kv :: r) as d eqn:Ed. clear Ed kv r.
    simpl in Hflat. rewrite dict_pop_map. simpl.
    induction d as [|[k v] r IHr]; [split; reflexivity|].
    simpl in Hflat. apply andb_prop in Hflat as [Hv Hr].
    inversion IH as [|? ? Pv Pr]; subst. simpl in Pv.
    destruct (IHr Pr Hr) as [H1 H2]. destruct (Pv Hv) as [V1 V2].
    unfold dict_pop in *. simpl.
    destruct (k =? "password_hash"); simpl; [split; assumption|].
    now rewrite H1, H2, V1, V2.
Qed.

Lemma to_str_id_field_json_safe (v : value) :
  flat_lists v = true ->
  has_ObjectId (to_str_id_field to_str_id v) = false.
Proof.
  induction v as [| | | | | |l IH|d IH] using value_nested_ind;
    intros Hflat; try reflexivity.
  - simpl in *. induction l as [|i r IHr]; [reflexivity|].
    simpl in Hflat. apply andb_prop in Hflat as [Hi Hr].
    apply andb_prop in Hi as [Hnl Hfi].
    inversion IH as [|? ? Pi Pr]; subst.
    simpl. rewrite (IHr Pr Hr), orb_false_r.
    destruct i; try reflexivity; try discriminate.
    exact (Pi Hfi).
  - rewrite <- to_str_id_as_field.
    destruct d as [|kv r]; [reflexivity|].
    change (to_str_id (VDict (kv :: r))) with
      (VDict (map (fun kv => (fst kv, to_str_id_field to_str_id (snd kv))) (kv :: r))).
    remember (kv :: r) as d eqn:Ed. clear Ed kv r.
    simpl in Hflat. simpl.
    induction d as [|[k v] r IHr]; [reflexivity|].
    simpl in Hflat. apply andb_prop in Hflat as [Hv Hr].
    inversion IH as [|? ? Pv Pr]; subst. simpl in Pv.
    simpl. now rewrite (Pv Hv), (IHr Pr Hr).
Qed.

(** X1: for a document in which no sequence is an immediate element of a
    sequence, the output of [serialize_doc] holds no [ObjectId] and no
    [datetime] at any depth, so [jsonify] takes it. *)
Theorem serialize_doc_is_json_safe (d : dict) (status : nat) :
  flat_lists (VDict d) = true ->
  has_ObjectId (serialize_doc (VDict d)) = false
  /\ has_datetime (serialize_doc (VDict d)) = false
  /\ jsonify (serialize_doc (VDict d)) status
     = Response (serialize_doc (VDict d)) status.
Proof.
  intros H. rewrite serialize_doc_as_field.
  destruct (serialize_field_json_safe _ H) as [H1 H2].
  split; [exact H1|]. split; [exact H2|].
  unfold jsonify. now rewrite H1.
Qed.

Lemma serialize_doc_is_json_safe_witness :
  flat_lists (VDict Toy.account_full) = true
  /\ has_ObjectId (VDict Toy.account_full) = true
  /\ has_datetime (VDict Toy.account_full) = true
  /\ has_ObjectId (serialize_doc (VDict Toy.account_full)) = false
  /\ has_datetime (serialize_doc (VDict Toy.account_full)) = false.
Proof.
  split; [reflexivity|]. split; [reflexivity|]. split; [reflexivity|].
  destruct (serialize_doc_is_json_safe Toy.account_full 200 eq_refl)
    as (H1 & H2 & _).
  split; assumption.
Defined.

(** X2: under the same condition the output of [to_str_id] holds no
    [ObjectId] at any depth; it leaves every [datetime] in place. *)
Theorem to_str_id_converts_every_id (d : dict) :
  flat_lists (VDict d) = true ->
  has_ObjectId (to_str_id (VDict d)) = false.
Proof.
  intros H. rewrite to_str_id_as_field. now apply to_str_id_field_json_safe.
Qed.

Lemma to_str_id_converts_every_id_witness :
  flat_lists (VDict Toy.case_1) = true
  /\ has_ObjectId (VDict Toy.case_1) = true
  /\ has_ObjectId (to_str_id (VDict Toy.case_1)) = false.
Proof.
  split; [reflexivity|]. split; [reflexivity|].
  apply (to_str_id_converts_every_id Toy.case_1). reflexivity.
Defined.

(** X3: on any non-empty document [serialize_doc] returns a mapping with
    the keys of the input in their order, less ["password_hash"], which is
    never a key of the result; every other field is looked up in the result
    as the converted value of the same field of the input.  [to_str_id]
    keeps all the keys. *)
Theorem sanitizers_keep_the_fields (d : dict) :
  d <> [] ->
  (exists out,
      serialize_doc (VDict d) = VDict out
      /\ dict_keys out
         = filter (fun k => negb (k =? "password_hash")) (dict_keys d)
      /\ dict_get "password_hash" out = None
      /\ forall k, (k =? "password_hash") = false ->
           dict_get k out
           = option_map (serialize_doc_field serialize_doc) (dict_get k d))
  /\ (exists out,
         to_str_id (VDict d) = VDict out
         /\ dict_keys out = dict_keys d
         /\ forall k, dict_get k out
                      = option_map (to_str_id_field to_str_id) (dict_get k d)).
Proof.
  intros Hd. destruct d as [|kv r]; [congruence|]. split.
  - eexists. split; [reflexivity|].
    rewrite dict_pop_map. split; [|split].
    + now rewrite dict_keys_map_values, dict_keys_pop.
    + rewrite dict_get_map_values, dict_get_pop_same_in. reflexivity.
    + intros k Hk. rewrite dict_get_map_values, dict_get_pop_other; [reflexivity|].
      exact Hk.
  - eexists. split; [reflexivity|]. split.
    + apply dict_keys_map_values.
    + intros k. apply dict_get_map_values.
Qed.

Lemma sanitizers_keep_the_fields_witness :
  Toy.account <> []
  /\ exists out,
       serialize_doc (VDict Toy.account) = VDict out
       /\ dict_keys out = ["email"; "profile"; "sessions"]
       /\ dict_get "password_hash" out = None.
Proof.
  split; [discriminate|].
  destruct (sanitizers_keep_the_fields Toy.account) as [(out & H1 & H2 & H3 & _) _];
    [discriminate|].
  exists out. split; [exact H1|]. split; [exact H2|exact H3].
Defined.

(* ================================================================== *)
(** ** The further properties on the concrete instance *)
(* ================================================================== *)

Abbreviation body_of r :=
  (match r with Response b _ => b | Unhandled _ => VNone end).
Abbreviation toy2_verify_token :=
  (verify_token Toy.bytes Toy2.jwt_payload Toy.jwt_signature_ok Toy.secret_key).
Abbreviation toy_admin_routes_update_user :=
  (admin_routes_update_user Toy.bytes Toy.jwt_payload Toy.jwt_signature_ok
     Toy.generate_password_hash Toy.secret_key).
Abbreviation toy_officer_bp :=
  (officer_bp_dispatch Toy.bytes Toy.len Toy.jwt_payload Toy.jwt_signature_ok
     Toy.secure_filename Toy.new_ObjectId Toy.py_repr Toy.gridfs Toy.fs_put
     Toy.secret_key Toy2.fs_delete).
Abbreviation toy_update_officer_fir :=
  (update_officer_fir Toy.bytes Toy.jwt_payload Toy.jwt_signature_ok Toy.py_repr
     Toy.secret_key).
Abbreviation toy_delete_evidence :=
  (delete_evidence Toy.bytes Toy.jwt_payload Toy.jwt_signature_ok Toy.gridfs
     Toy.secret_key Toy2.fs_delete).
Abbreviation toy_create_new_case :=
  (create_new_case Toy.bytes Toy.jwt_payload Toy.jwt_signature_ok
     Toy.new_ObjectId Toy.py_repr Toy.secret_key).
Abbreviation toy_view_case_details :=
  (view_case_details Toy.bytes Toy.jwt_payload Toy.jwt_signature_ok Toy.py_repr
     Toy.secret_key).
Abbreviation toy_update_case_status :=
  (update_case_status Toy.bytes Toy.jwt_payload Toy.jwt_signature_ok Toy.py_repr
     Toy.secret_key).
Abbreviation toy_get_team_officers :=
  (get_team_officers Toy.bytes Toy.jwt_payload Toy.jwt_signature_ok Toy.py_repr
     Toy.secret_key).
Abbreviation toy_send_alert :=
  (send_alert Toy.bytes Toy.jwt_payload Toy.jwt_signature_ok Toy.new_ObjectId
     Toy.secret_key).
Abbreviation toy_file_complaint := (file_complaint Toy.bytes Toy.new_ObjectId).

Lemma verify_token_reads_second_word_witness :
  space_free "alice" = true
  /\ toy_verify_token Toy.noon Toy2.long_header
     = Some (Toy.claims Toy.id_alice "alice@x.com" "citizen" 5000).
Proof.
  split; [reflexivity|].
  rewrite (verify_token_reads_second_word Toy.bytes Toy.jwt_payload
             Toy.jwt_signature_ok Toy.secret_key Toy.noon Toy2.long_header
             "alice" eq_refl (or_intror (ex_intro _ "and more" eq_refl))).
  reflexivity.
Defined.


Lemma registration_keeps_the_secret_witness :
  exists doc,
    users (snd (toy_handle_registration Toy.st Toy.noon
                  Toy.registration_request "citizen"))
    = (users Toy.st ++ [doc])%list
    /\ dict_get "password_hash" doc = Some (VStr "hash:pw")
    /\ dict_get "password" doc = None
    /\ dict_get "email" doc = Some (VStr "grace@x.com").
Proof.
  destruct (registration_keeps_the_secret Toy.jwt_encode
              Toy.generate_password_hash Toy.new_ObjectId Toy.py_repr
              Toy.secret_key Toy.st
              (snd (toy_handle_registration Toy.st Toy.noon
                      Toy.registration_request "citizen"))
              Toy.noon Toy.registration_request "citizen"
              (body_of (fst (toy_handle_registration Toy.st Toy.noon
                               Toy.registration_request "citizen")))
              eq_refl)
    as (e & pw & doc & user & token & He & Hpw & Hu & Hh & Hnp & Hem & _).
  injection He as <-. injection Hpw as <-.
  exists doc. split; [exact Hu|]. split; [exact Hh|]. split; [exact Hnp|exact Hem].
Defined.

Lemma get_profile_self_or_admin_witness :
  exists d,
    toy_get_profile Toy.st Toy.noon (Toy.get "alice") Toy.id_alice
    = Response (VDict d) 200
    /\ dict_get "password_hash" d = None.
Proof.
  destruct (get_profile_self_or_admin Toy.bytes Toy.jwt_payload
              Toy.jwt_signature_ok Toy.secret_key Toy.st Toy.noon
              (Toy.get "alice") Toy.id_alice
              (body_of (toy_get_profile Toy.st Toy.noon (Toy.get "alice")
                          Toy.id_alice))
              eq_refl)
    as (claims & d & _ & _ & Hb & Hnone).
  exists d. split; [|exact Hnone].
  rewrite <- Hb. reflexivity.
Defined.


Lemma admin_create_user_hashes_password_witness :
  (exists doc,
      users (snd (toy_admin_routes_create_user Toy.st Toy.noon
                    (Toy.post "root" Toy.duplicate_user_request)))
      = (users Toy.st ++ [doc])%list
      /\ dict_get "password_hash" doc = Some (VStr "hash:other")
      /\ dict_get "password" doc = None)
  /\ toy_admin_routes_create_user Toy.st Toy.noon
       (Toy.post "root" [("email", VStr "erin@x.com"); ("role", VStr "officer")])
     = (Response (error_body "Password is required when creating a user") 400,
        Toy.st).
Proof.
  split.
  - destruct (proj1 (admin_create_user_hashes_password Toy.bytes Toy.jwt_payload
                       Toy.jwt_signature_ok Toy.generate_password_hash
                       Toy.new_ObjectId Toy.py_repr Toy.secret_key
                       Toy.st Toy.noon (Toy.post "root" Toy.duplicate_user_request))
                _ _ eq_refl)
      as (pw & email & doc & user & Hpw & _ & Hu & Hh & Hnp & _).
    injection Hpw as <-.
    exists doc. split; [exact Hu|]. split; [exact Hh|exact Hnp].
  - apply (proj2 (admin_create_user_hashes_password Toy.bytes Toy.jwt_payload
                    Toy.jwt_signature_ok Toy.generate_password_hash
                    Toy.new_ObjectId Toy.py_repr Toy.secret_key
                    Toy.st Toy.noon _)
             (Toy.claims Toy.id_root "root@x.com" "admin" 5000)
             (VStr "erin@x.com") (VStr "officer"));
      reflexivity.
Defined.

Lemma admin_update_user_never_stores_password_witness :
  dict_get "password"
    (nth 0 (users (snd (toy_admin_routes_update_user Toy.st Toy.noon
                          (Toy.post "root" Toy2.password_request) Toy.id_alice)))
         [])
  = None
  /\ exists st',
       toy_admin_routes_update_user Toy.st Toy.noon
         (Toy.post "root" Toy2.password_request) Toy2.unknown_id
       = (Response (VDict [("message", VStr "User updated"); ("user", VNone)])
                   200, st')
       /\ users st' = users Toy.st.
Proof.
  split.
  - apply (proj1 (admin_update_user_never_stores_password Toy.bytes
                    Toy.jwt_payload Toy.jwt_signature_ok
                    Toy.generate_password_hash Toy.secret_key
                    Toy.st Toy.noon (Toy.post "root" Toy2.password_request)
                    Toy.id_alice)
             _ _ 0 (Toy.user Toy.id_alice "Alice" "alice@x.com" "citizen") _
             (surjective_pairing _));
      reflexivity.
  - apply (proj2 (proj2 (admin_update_user_never_stores_password Toy.bytes
                           Toy.jwt_payload Toy.jwt_signature_ok
                           Toy.generate_password_hash Toy.secret_key
                           Toy.st Toy.noon (Toy.post "root" Toy2.password_request)
                           Toy2.unknown_id))
             (Toy.claims Toy.id_root "root@x.com" "admin" 5000)
             [("password_hash", VStr "hash:new")] Toy2.unknown_id);
      try reflexivity. discriminate.
Defined.

Lemma officer_views_need_a_token_witness :
  no_payload (toy_officer_verify_token Toy.noon (Toy.get "old")) = true
  /\ toy_officer_bp (OfficerBp_delete_fir Toy.fir_id_1) Toy.st (Some [])
       Toy.noon (Toy.get "old")
     = (Response (error_body "Unauthorized") 401, Toy.st, Some []).
Proof.
  split; [reflexivity|].
  apply (officer_views_need_a_token Toy.bytes Toy.len Toy.jwt_payload
           Toy.jwt_signature_ok Toy.secure_filename Toy.new_ObjectId
           Toy.py_repr Toy.gridfs Toy.fs_put Toy.secret_key Toy2.fs_delete).
  reflexivity.
Defined.

Lemma update_officer_fir_frame_witness :
  exists d',
    nth_error (officer_firs
                 (snd (toy_update_officer_fir Toy.st Toy.noon
                         (Toy.post "bob" Toy2.status_request) Toy.fir_id_1))) 0
    = Some d'
    /\ dict_get "status" d' = Some (VStr "Closed")
    /\ dict_get "title" d' = Some (VStr "Break-in").
Proof.
  destruct (update_officer_fir_frame Toy.bytes Toy.jwt_payload
              Toy.jwt_signature_ok Toy.py_repr Toy.secret_key Toy.st
              (snd (toy_update_officer_fir Toy.st Toy.noon
                      (Toy.post "bob" Toy2.status_request) Toy.fir_id_1))
              Toy.noon (Toy.post "bob" Toy2.status_request) Toy.fir_id_1
              (body_of (fst (toy_update_officer_fir Toy.st Toy.noon
                               (Toy.post "bob" Toy2.status_request)
                               Toy.fir_id_1)))
              eq_refl)
    as (_ & _ & _ & _ & _ & Hframe).
  destruct (Hframe 0
              (nth 0 (officer_firs
                        (snd (toy_update_officer_fir Toy.st Toy.noon
                                (Toy.post "bob" Toy2.status_request)
                                Toy.fir_id_1))) [])
              eq_refl) as (d & Hd & Hk).
  injection Hd as <-.
  eexists. split; [reflexivity|]. split; [reflexivity|].
  refine (eq_trans (Hk "title" _) eq_refl).
  intros [F|[F|[F|[F|F]]]]; try discriminate. exact F.
Defined.

Lemma created_fir_reads_back_witness :
  exists fir',
    toy_get_officer_fir
      (snd (toy_create_officer_fir Toy.st Toy.noon
              (Toy.post "bob" Toy.fir_request)))
      Toy.noon (Toy.get "bob") (Toy.new_ObjectId 7)
    = Response (VDict fir') 200
    /\ dict_get "officer_id" fir' = Some (VStr Toy.id_bob)
    /\ dict_get "title" fir' = Some (VStr "Noise")
    /\ dict_get "status" fir' = Some (VStr "Pending").
Proof.
  destruct (created_fir_reads_back Toy.bytes Toy.jwt_payload
              Toy.jwt_signature_ok Toy.new_ObjectId Toy.py_repr Toy.secret_key
              Toy.st
              (snd (toy_create_officer_fir Toy.st Toy.noon
                      (Toy.post "bob" Toy.fir_request)))
              Toy.noon Toy.noon (Toy.post "bob" Toy.fir_request) (Toy.get "bob")
              (Toy.claims Toy.id_bob "bob@x.com" "officer" 5000)
              (Toy.claims Toy.id_bob "bob@x.com" "officer" 5000)
              Toy.id_bob
              (body_of (fst (toy_create_officer_fir Toy.st Toy.noon
                               (Toy.post "bob" Toy.fir_request))))
              eq_refl eq_refl eq_refl eq_refl eq_refl eq_refl eq_refl)
    as (fir & fir' & _ & _ & Hget & _ & Hoff & Htitle & Hstatus).
  exists fir'. split; [exact Hget|]. split; [exact Hoff|].
  split; [exact Htitle|exact Hstatus].
Defined.

Lemma upload_evidence_appends_own_records_witness :
  exists ds,
    evidence (snd (fst (toy_upload_evidence Toy.st (Some []) Toy.noon
                          Toy.evidence_request)))
    = (evidence Toy.st ++ ds)%list
    /\ Forall (fun d => size_ok d
                        /\ dict_get "officer_id" d = Some (VStr Toy.id_bob)) ds.
Proof.
  destruct (upload_evidence_appends_own_records Toy.bytes Toy.len
              Toy.jwt_payload Toy.jwt_signature_ok Toy.secure_filename
              Toy.new_ObjectId Toy.py_repr Toy.gridfs Toy.fs_put Toy.secret_key
              Toy.st
              (snd (fst (toy_upload_evidence Toy.st (Some []) Toy.noon
                           Toy.evidence_request)))
              (Some [])
              (snd (toy_upload_evidence Toy.st (Some []) Toy.noon
                      Toy.evidence_request))
              Toy.noon Toy.evidence_request
              (fst (fst (toy_upload_evidence Toy.st (Some []) Toy.noon
                           Toy.evidence_request)))
              eq_refl)
    as (_ & _ & _ & ds & Hds & Hall).
  exists ds. split; [exact Hds|].
  refine (Forall_impl _ _ Hall).
  intros d (Hs & _ & claims & Hc & Ho). injection Hc as <-.
  split; [exact Hs|exact Ho].
Defined.

Lemma delete_evidence_uploader_only_witness :
  S (List.length
       (evidence (snd (fst (toy_delete_evidence Toy2.st_evidence
                              (Some ["photo.jpg"]) Toy.noon (Toy.get "bob")
                              Toy2.evidence_id_1)))))
  = List.length (evidence Toy2.st_evidence)
  /\ toy_delete_evidence Toy2.st_evidence (Some ["photo.jpg"]) Toy.noon
       (Toy.get "carol") Toy2.evidence_id_1
     = (Response (error_body "Access denied") 403, Toy2.st_evidence,
        Some ["photo.jpg"]).
Proof.
  split.
  - destruct (proj1 (delete_evidence_uploader_only Toy.bytes Toy.jwt_payload
                       Toy.jwt_signature_ok Toy.gridfs Toy.secret_key
                       Toy2.fs_delete Toy2.st_evidence (Some ["photo.jpg"])
                       Toy.noon (Toy.get "bob") Toy2.evidence_id_1)
                (body_of (fst (fst (toy_delete_evidence Toy2.st_evidence
                                      (Some ["photo.jpg"]) Toy.noon
                                      (Toy.get "bob") Toy2.evidence_id_1))))
                (snd (fst (toy_delete_evidence Toy2.st_evidence
                             (Some ["photo.jpg"]) Toy.noon (Toy.get "bob")
                             Toy2.evidence_id_1)))
                (snd (toy_delete_evidence Toy2.st_evidence
                        (Some ["photo.jpg"]) Toy.noon (Toy.get "bob")
                        Toy2.evidence_id_1))
                eq_refl)
      as (claims & oid & ev & _ & _ & _ & _ & Hlen & _).
    exact Hlen.
  - apply (proj2 (delete_evidence_uploader_only Toy.bytes Toy.jwt_payload
                    Toy.jwt_signature_ok Toy.gridfs Toy.secret_key
                    Toy2.fs_delete Toy2.st_evidence (Some ["photo.jpg"])
                    Toy.noon (Toy.get "carol") Toy2.evidence_id_1)
             (Toy.claims Toy.id_carol "carol@x.com" "officer" 5000)
             Toy2.evidence_id_1 Toy2.evidence_1);
      try reflexivity; discriminate.
Defined.

Lemma filed_case_round_trip_witness :
  exists fetched st'',
    case_routes_get_case Toy.bytes
      (snd (toy_create_new_case Toy.st Toy.noon
              (Toy.post "alice" Toy2.case_request)))
      Toy.anonymous (Toy.new_ObjectId 7)
    = Response (VDict fetched) 200
    /\ dict_get "title" fetched = Some (VStr "Graffiti")
    /\ delete_case_route Toy.bytes
         (snd (toy_create_new_case Toy.st Toy.noon
                 (Toy.post "alice" Toy2.case_request)))
         Toy.anonymous (Toy.new_ObjectId 7)
       = (Response (VDict [("message", VStr "Case deleted successfully")]) 200,
          st'')
    /\ cases st'' = cases Toy.st
    /\ case_routes_get_case Toy.bytes st'' Toy.anonymous (Toy.new_ObjectId 7)
       = Response (error_body "Case not found") 404.
Proof.
  destruct (filed_case_round_trip Toy.bytes Toy.jwt_payload
              Toy.jwt_signature_ok Toy.new_ObjectId Toy.py_repr Toy.secret_key
              Toy.st
              (snd (toy_create_new_case Toy.st Toy.noon
                      (Toy.post "alice" Toy2.case_request)))
              Toy.noon (Toy.post "alice" Toy2.case_request) Toy.anonymous
              (body_of (fst (toy_create_new_case Toy.st Toy.noon
                               (Toy.post "alice" Toy2.case_request))))
              eq_refl eq_refl eq_refl)
    as (case & Hbody & _ & _ & (fetched & Hget & Hsame) & st'' & Hdel & Hcases
        & Hgone).
  exists fetched, st''. split; [exact Hget|].
  split.
  - rewrite Hsame. injection Hbody as <-. reflexivity.
  - split; [exact Hdel|]. split; [exact Hcases|exact Hgone].
Defined.

Lemma officer_view_of_filed_case_raises_witness :
  toy_view_case_details
    (snd (toy_create_new_case Toy.st Toy.noon
            (Toy.post "alice" Toy2.case_request)))
    Toy.noon (Toy.get "bob") (Toy.new_ObjectId 7)
  = Unhandled "TypeError: Object of type ObjectId is not JSON serializable".
Proof.
  apply (officer_view_of_filed_case_raises Toy.bytes Toy.jwt_payload
           Toy.jwt_signature_ok Toy.new_ObjectId Toy.py_repr Toy.secret_key
           Toy.st _ Toy.noon Toy.noon (Toy.post "alice" Toy2.case_request)
           (Toy.get "bob")
           (body_of (fst (toy_create_new_case Toy.st Toy.noon
                            (Toy.post "alice" Toy2.case_request))))
           (Toy.claims Toy.id_bob "bob@x.com" "officer" 5000));
    try reflexivity. discriminate.
Defined.


Lemma filed_complaint_is_listed_witness :
  exists before listed,
    view_complaints Toy.bytes
      (snd (toy_file_complaint Toy.st Toy.noon
              (mkRequest "" (VDict Toy2.case_request) [] []) Toy.id_alice))
      Toy.anonymous Toy.id_alice
    = Response (VList (before ++ [VDict listed])) 200
    /\ List.length before = 1
    /\ dict_get "status" listed = Some (VStr "Pending").
Proof.
  destruct (filed_complaint_is_listed Toy.bytes Toy.new_ObjectId Toy.st
              (snd (toy_file_complaint Toy.st Toy.noon
                      (mkRequest "" (VDict Toy2.case_request) [] [])
                      Toy.id_alice))
              Toy.noon (mkRequest "" (VDict Toy2.case_request) [] [])
              Toy.anonymous Toy.id_alice
              (body_of (fst (toy_file_complaint Toy.st Toy.noon
                               (mkRequest "" (VDict Toy2.case_request) [] [])
                               Toy.id_alice)))
              eq_refl)
    as (oid & stored & case & before & _ & _ & _ & _ & _ & Hbody & Hbefore
        & listed & Hlist & Hsame).
  exists before, listed. split; [exact Hlist|].
  split.
  - injection Hbefore as <-. reflexivity.
  - rewrite Hsame. injection Hbody as <-. reflexivity.
Defined.

Lemma get_citizen_profile_citizens_only_witness :
  exists d,
    get_citizen_profile Toy.bytes Toy.st Toy.anonymous Toy.id_alice
    = Response (VDict (dict_pop "password_hash" d)) 200
    /\ dict_get "role" d = Some (VStr "citizen")
    /\ dict_get "password_hash" (dict_pop "password_hash" d) = None.
Proof.
  destruct (get_citizen_profile_citizens_only Toy.bytes Toy.st Toy.anonymous
              Toy.id_alice
              (body_of (get_citizen_profile Toy.bytes Toy.st Toy.anonymous
                          Toy.id_alice))
              eq_refl)
    as (oid & u & d & _ & _ & _ & Hrole & Hb & Hnone).
  exists d. split; [rewrite <- Hb; reflexivity|]. split; [exact Hrole|exact Hnone].
Defined.

Lemma update_case_status_frame_witness :
  exists d',
    nth_error (cases (snd (toy_update_case_status Toy.st Toy.noon
                             (Toy.post "bob" Toy2.status_request)
                             Toy.case_id_1))) 0
    = Some d'
    /\ dict_get "status" d' = Some (VStr "Closed")
    /\ dict_get "title" d' = Some (VStr "Stolen bicycle").
Proof.
  destruct (update_case_status_frame Toy.bytes Toy.jwt_payload
              Toy.jwt_signature_ok Toy.py_repr Toy.secret_key Toy.st
              (snd (toy_update_case_status Toy.st Toy.noon
                      (Toy.post "bob" Toy2.status_request) Toy.case_id_1))
              Toy.noon (Toy.post "bob" Toy2.status_request) Toy.case_id_1
              (body_of (fst (toy_update_case_status Toy.st Toy.noon
                               (Toy.post "bob" Toy2.status_request)
                               Toy.case_id_1)))
              eq_refl)
    as (_ & _ & _ & Hframe).
  destruct (Hframe 0
              (nth 0 (cases (snd (toy_update_case_status Toy.st Toy.noon
                                    (Toy.post "bob" Toy2.status_request)
                                    Toy.case_id_1))) [])
              eq_refl) as (d & Hd & Hk).
  injection Hd as <-.
  eexists. split; [reflexivity|]. split; [reflexivity|].
  refine (eq_trans (Hk "title" _) eq_refl).
  intros [F|[F|[F|[F|[F|F]]]]]; try discriminate. exact F.
Defined.

Lemma team_list_excludes_the_caller_witness :
  exists team,
    toy_get_team_officers Toy.st Toy.noon (Toy.get "bob")
    = Response (VList team) 200
    /\ List.length team = 1.
Proof.
  destruct (team_list_excludes_the_caller Toy.bytes Toy.jwt_payload
              Toy.jwt_signature_ok Toy.py_repr Toy.secret_key Toy.st Toy.noon
              (Toy.get "bob")
              (body_of (toy_get_team_officers Toy.st Toy.noon (Toy.get "bob")))
              eq_refl)
    as (claims & team & Hc & Hb & Hall).
  exists team. split; [rewrite <- Hb; reflexivity|].
  injection Hc as <-.
  apply Forall2_length in Hall. rewrite <- Hall. reflexivity.
Defined.


Lemma admin_api_create_user_stores_the_body_witness :
  exists doc body st',
    toy_admin_api AdminApi_create_user Toy.st Toy.noon
      (Toy.post "root" Toy.duplicate_user_request)
    = (Response (VDict body) 201, st')
    /\ users st' = (users Toy.st ++ [doc])%list
    /\ dict_get "password" doc = Some (VStr "other")
    /\ dict_get "password_hash" doc = None
    /\ dict_get "password" body = Some (VStr "other").
Proof.
  destruct (admin_api_create_user_stores_the_body Toy.bytes Toy.jwt_payload
              Toy.jwt_signature_ok Toy.new_ObjectId Toy.py_repr Toy.secret_key
              Toy.st Toy.noon (Toy.post "root" Toy.duplicate_user_request)
              (Toy.claims Toy.id_root "root@x.com" "admin" 5000)
              eq_refl eq_refl eq_refl eq_refl)
    as (doc & body & st' & Hr & Hu & Hk).
  exists doc, body, st'. split; [exact Hr|]. split; [exact Hu|].
  assert (Hp : ~ In "password" ["_id"; "created_at"; "updated_at"]).
  { intros [F|[F|[F|F]]]; try discriminate. exact F. }
  assert (Hh : ~ In "password_hash" ["_id"; "created_at"; "updated_at"]).
  { intros [F|[F|[F|F]]]; try discriminate. exact F. }
  split; [exact (proj1 (Hk "password" Hp))|].
  split; [exact (proj1 (Hk "password_hash" Hh))|].
  exact (proj2 (Hk "password" Hp)).
Defined.
